(** * Question extraction pipeline: a shallow embedding of [106.py]

    The development follows the classes of the program in order:
    [QuestionConfig], [QuestionType], [QuestionProcessor] and
    [QuestionExporter].  Python text is a sequence of Unicode code points;
    the character classes used by [str.strip], [str.upper], [float] and the
    [re] module are the tables of the Unicode character database (14.0). *)

From Stdlib Require Import List NArith ZArith Bool Lia Permutation.
From Stdlib Require Import Strings.String Strings.Ascii.
From Stdlib Require Import Floats.SpecFloat.
Import ListNotations.

Local Open Scope N_scope.

(** ** Python [str] *)

(** A code point, and a string as the sequence of its code points. *)
Definition char := N.
Definition str := list char.

(** Source literals are written as UTF-8 text and decoded to code points. *)
Fixpoint utf8 (bs : list N) : str :=
  match bs with
  | [] => []
  | b0 :: t0 =>
      if b0 <? 0x80 then b0 :: utf8 t0
      else match t0 with
           | [] => []
           | b1 :: t1 =>
               if b0 <? 0xE0 then (b0 mod 0x20 * 0x40 + b1 mod 0x40) :: utf8 t1
               else match t1 with
                    | [] => []
                    | b2 :: t2 =>
                        if b0 <? 0xF0
                        then (b0 mod 0x10 * 0x1000 + b1 mod 0x40 * 0x40 + b2 mod 0x40)
                               :: utf8 t2
                        else match t2 with
                             | [] => []
                             | b3 :: t3 =>
                                 (b0 mod 0x8 * 0x40000 + b1 mod 0x40 * 0x1000
                                  + b2 mod 0x40 * 0x40 + b3 mod 0x40) :: utf8 t3
                             end
                    end
           end
  end.

Definition py (s : string) : str :=
  utf8 (map N_of_ascii (list_ascii_of_string s)).

Definition str_eqb (a b : str) : bool :=
  if list_eq_dec N.eq_dec a b then true else false.

Definition in_ranges (rs : list (N * N)) (c : char) : bool :=
  existsb (fun r => (fst r <=? c) && (c <=? snd r)) rs.

(** *** Unicode character database *)

(** Code points for which [str.isspace] holds; also the class [\s] of [re]. *)
Definition space_ranges : list (N * N) :=
  [(0x9, 0xD); (0x1C, 0x20); (0x85, 0x85); (0xA0, 0xA0); (0x1680, 0x1680);
   (0x2000, 0x200A); (0x2028, 0x2029); (0x202F, 0x202F); (0x205F, 0x205F); (0x3000, 0x3000)].

(** Code points of category Nd ([str.isdecimal]); also the class [\d] of [re].
    Every range starts at a digit of value zero. *)
Definition decimal_ranges : list (N * N) :=
  [(0x30, 0x39); (0x660, 0x669); (0x6F0, 0x6F9); (0x7C0, 0x7C9);
   (0x966, 0x96F); (0x9E6, 0x9EF); (0xA66, 0xA6F); (0xAE6, 0xAEF);
   (0xB66, 0xB6F); (0xBE6, 0xBEF); (0xC66, 0xC6F); (0xCE6, 0xCEF);
   (0xD66, 0xD6F); (0xDE6, 0xDEF); (0xE50, 0xE59); (0xED0, 0xED9);
   (0xF20, 0xF29); (0x1040, 0x1049); (0x1090, 0x1099); (0x17E0, 0x17E9);
   (0x1810, 0x1819); (0x1946, 0x194F); (0x19D0, 0x19D9); (0x1A80, 0x1A89);
   (0x1A90, 0x1A99); (0x1B50, 0x1B59); (0x1BB0, 0x1BB9); (0x1C40, 0x1C49);
   (0x1C50, 0x1C59); (0xA620, 0xA629); (0xA8D0, 0xA8D9); (0xA900, 0xA909);
   (0xA9D0, 0xA9D9); (0xA9F0, 0xA9F9); (0xAA50, 0xAA59); (0xABF0, 0xABF9);
   (0xFF10, 0xFF19); (0x104A0, 0x104A9); (0x10D30, 0x10D39); (0x11066, 0x1106F);
   (0x110F0, 0x110F9); (0x11136, 0x1113F); (0x111D0, 0x111D9); (0x112F0, 0x112F9);
   (0x11450, 0x11459); (0x114D0, 0x114D9); (0x11650, 0x11659); (0x116C0, 0x116C9);
   (0x11730, 0x11739); (0x118E0, 0x118E9); (0x11950, 0x11959); (0x11C50, 0x11C59);
   (0x11D50, 0x11D59); (0x11DA0, 0x11DA9); (0x16A60, 0x16A69); (0x16AC0, 0x16AC9);
   (0x16B50, 0x16B59); (0x1D7CE, 0x1D7FF); (0x1E140, 0x1E149); (0x1E2F0, 0x1E2F9);
   (0x1E950, 0x1E959); (0x1FBF0, 0x1FBF9)].

(** Simple upper-case mappings: every [step]-th code point from [lo] to [hi]
    maps to [target + (c - lo)]. *)
Definition upper_ranges : list (N * N * N * N) :=
  [(0x61, 0x7A, 1, 0x41); (0xB5, 0xB5, 1, 0x39C); (0xE0, 0xF6, 1, 0xC0);
   (0xF8, 0xFE, 1, 0xD8); (0xFF, 0xFF, 1, 0x178); (0x101, 0x12F, 2, 0x100);
   (0x131, 0x131, 1, 0x49); (0x133, 0x137, 2, 0x132); (0x13A, 0x148, 2, 0x139);
   (0x14B, 0x177, 2, 0x14A); (0x17A, 0x17E, 2, 0x179); (0x17F, 0x17F, 1, 0x53);
   (0x180, 0x180, 1, 0x243); (0x183, 0x185, 2, 0x182); (0x188, 0x188, 1, 0x187);
   (0x18C, 0x18C, 1, 0x18B); (0x192, 0x192, 1, 0x191); (0x195, 0x195, 1, 0x1F6);
   (0x199, 0x199, 1, 0x198); (0x19A, 0x19A, 1, 0x23D); (0x19E, 0x19E, 1, 0x220);
   (0x1A1, 0x1A5, 2, 0x1A0); (0x1A8, 0x1A8, 1, 0x1A7); (0x1AD, 0x1AD, 1, 0x1AC);
   (0x1B0, 0x1B0, 1, 0x1AF); (0x1B4, 0x1B6, 2, 0x1B3); (0x1B9, 0x1B9, 1, 0x1B8);
   (0x1BD, 0x1BD, 1, 0x1BC); (0x1BF, 0x1BF, 1, 0x1F7); (0x1C5, 0x1C5, 1, 0x1C4);
   (0x1C6, 0x1C6, 1, 0x1C4); (0x1C8, 0x1C8, 1, 0x1C7); (0x1C9, 0x1C9, 1, 0x1C7);
   (0x1CB, 0x1CB, 1, 0x1CA); (0x1CC, 0x1CC, 1, 0x1CA); (0x1CE, 0x1DC, 2, 0x1CD);
   (0x1DD, 0x1DD, 1, 0x18E); (0x1DF, 0x1EF, 2, 0x1DE); (0x1F2, 0x1F2, 1, 0x1F1);
   (0x1F3, 0x1F3, 1, 0x1F1); (0x1F5, 0x1F5, 1, 0x1F4); (0x1F9, 0x21F, 2, 0x1F8);
   (0x223, 0x233, 2, 0x222); (0x23C, 0x23C, 1, 0x23B); (0x23F, 0x240, 1, 0x2C7E);
   (0x242, 0x242, 1, 0x241); (0x247, 0x24F, 2, 0x246); (0x250, 0x250, 1, 0x2C6F);
   (0x251, 0x251, 1, 0x2C6D); (0x252, 0x252, 1, 0x2C70); (0x253, 0x253, 1, 0x181);
   (0x254, 0x254, 1, 0x186); (0x256, 0x257, 1, 0x189); (0x259, 0x259, 1, 0x18F);
   (0x25B, 0x25B, 1, 0x190); (0x25C, 0x25C, 1, 0xA7AB); (0x260, 0x260, 1, 0x193);
   (0x261, 0x261, 1, 0xA7AC); (0x263, 0x263, 1, 0x194); (0x265, 0x265, 1, 0xA78D);
   (0x266, 0x266, 1, 0xA7AA); (0x268, 0x268, 1, 0x197); (0x269, 0x269, 1, 0x196);
   (0x26A, 0x26A, 1, 0xA7AE); (0x26B, 0x26B, 1, 0x2C62); (0x26C, 0x26C, 1, 0xA7AD);
   (0x26F, 0x26F, 1, 0x19C); (0x271, 0x271, 1, 0x2C6E); (0x272, 0x272, 1, 0x19D);
   (0x275, 0x275, 1, 0x19F); (0x27D, 0x27D, 1, 0x2C64); (0x280, 0x280, 1, 0x1A6);
   (0x282, 0x282, 1, 0xA7C5); (0x283, 0x283, 1, 0x1A9); (0x287, 0x287, 1, 0xA7B1);
   (0x288, 0x288, 1, 0x1AE); (0x289, 0x289, 1, 0x244); (0x28A, 0x28B, 1, 0x1B1);
   (0x28C, 0x28C, 1, 0x245); (0x292, 0x292, 1, 0x1B7); (0x29D, 0x29D, 1, 0xA7B2);
   (0x29E, 0x29E, 1, 0xA7B0); (0x345, 0x345, 1, 0x399); (0x371, 0x373, 2, 0x370);
   (0x377, 0x377, 1, 0x376); (0x37B, 0x37D, 1, 0x3FD); (0x3AC, 0x3AC, 1, 0x386);
   (0x3AD, 0x3AF, 1, 0x388); (0x3B1, 0x3C1, 1, 0x391); (0x3C2, 0x3C2, 1, 0x3A3);
   (0x3C3, 0x3CB, 1, 0x3A3); (0x3CC, 0x3CC, 1, 0x38C); (0x3CD, 0x3CE, 1, 0x38E);
   (0x3D0, 0x3D0, 1, 0x392); (0x3D1, 0x3D1, 1, 0x398); (0x3D5, 0x3D5, 1, 0x3A6);
   (0x3D6, 0x3D6, 1, 0x3A0); (0x3D7, 0x3D7, 1, 0x3CF); (0x3D9, 0x3EF, 2, 0x3D8);
   (0x3F0, 0x3F0, 1, 0x39A); (0x3F1, 0x3F1, 1, 0x3A1); (0x3F2, 0x3F2, 1, 0x3F9);
   (0x3F3, 0x3F3, 1, 0x37F); (0x3F5, 0x3F5, 1, 0x395); (0x3F8, 0x3F8, 1, 0x3F7);
   (0x3FB, 0x3FB, 1, 0x3FA); (0x430, 0x44F, 1, 0x410); (0x450, 0x45F, 1, 0x400);
   (0x461, 0x481, 2, 0x460); (0x48B, 0x4BF, 2, 0x48A); (0x4C2, 0x4CE, 2, 0x4C1);
   (0x4CF, 0x4CF, 1, 0x4C0); (0x4D1, 0x52F, 2, 0x4D0); (0x561, 0x586, 1, 0x531);
   (0x10D0, 0x10FA, 1, 0x1C90); (0x10FD, 0x10FF, 1, 0x1CBD); (0x13F8, 0x13FD, 1, 0x13F0);
   (0x1C80, 0x1C80, 1, 0x412); (0x1C81, 0x1C81, 1, 0x414); (0x1C82, 0x1C82, 1, 0x41E);
   (0x1C83, 0x1C84, 1, 0x421); (0x1C85, 0x1C85, 1, 0x422); (0x1C86, 0x1C86, 1, 0x42A);
   (0x1C87, 0x1C87, 1, 0x462); (0x1C88, 0x1C88, 1, 0xA64A); (0x1D79, 0x1D79, 1, 0xA77D);
   (0x1D7D, 0x1D7D, 1, 0x2C63); (0x1D8E, 0x1D8E, 1, 0xA7C6); (0x1E01, 0x1E95, 2, 0x1E00);
   (0x1E9B, 0x1E9B, 1, 0x1E60); (0x1EA1, 0x1EFF, 2, 0x1EA0); (0x1F00, 0x1F07, 1, 0x1F08);
   (0x1F10, 0x1F15, 1, 0x1F18); (0x1F20, 0x1F27, 1, 0x1F28); (0x1F30, 0x1F37, 1, 0x1F38);
   (0x1F40, 0x1F45, 1, 0x1F48); (0x1F51, 0x1F57, 2, 0x1F59); (0x1F60, 0x1F67, 1, 0x1F68);
   (0x1F70, 0x1F71, 1, 0x1FBA); (0x1F72, 0x1F75, 1, 0x1FC8); (0x1F76, 0x1F77, 1, 0x1FDA);
   (0x1F78, 0x1F79, 1, 0x1FF8); (0x1F7A, 0x1F7B, 1, 0x1FEA); (0x1F7C, 0x1F7D, 1, 0x1FFA);
   (0x1FB0, 0x1FB1, 1, 0x1FB8); (0x1FBE, 0x1FBE, 1, 0x399); (0x1FD0, 0x1FD1, 1, 0x1FD8);
   (0x1FE0, 0x1FE1, 1, 0x1FE8); (0x1FE5, 0x1FE5, 1, 0x1FEC); (0x214E, 0x214E, 1, 0x2132);
   (0x2170, 0x217F, 1, 0x2160); (0x2184, 0x2184, 1, 0x2183); (0x24D0, 0x24E9, 1, 0x24B6);
   (0x2C30, 0x2C5F, 1, 0x2C00); (0x2C61, 0x2C61, 1, 0x2C60); (0x2C65, 0x2C65, 1, 0x23A);
   (0x2C66, 0x2C66, 1, 0x23E); (0x2C68, 0x2C6C, 2, 0x2C67); (0x2C73, 0x2C73, 1, 0x2C72);
   (0x2C76, 0x2C76, 1, 0x2C75); (0x2C81, 0x2CE3, 2, 0x2C80); (0x2CEC, 0x2CEE, 2, 0x2CEB);
   (0x2CF3, 0x2CF3, 1, 0x2CF2); (0x2D00, 0x2D25, 1, 0x10A0); (0x2D27, 0x2D27, 1, 0x10C7);
   (0x2D2D, 0x2D2D, 1, 0x10CD); (0xA641, 0xA66D, 2, 0xA640); (0xA681, 0xA69B, 2, 0xA680);
   (0xA723, 0xA72F, 2, 0xA722); (0xA733, 0xA76F, 2, 0xA732); (0xA77A, 0xA77C, 2, 0xA779);
   (0xA77F, 0xA787, 2, 0xA77E); (0xA78C, 0xA78C, 1, 0xA78B); (0xA791, 0xA793, 2, 0xA790);
   (0xA794, 0xA794, 1, 0xA7C4); (0xA797, 0xA7A9, 2, 0xA796); (0xA7B5, 0xA7C3, 2, 0xA7B4);
   (0xA7C8, 0xA7CA, 2, 0xA7C7); (0xA7D1, 0xA7D1, 1, 0xA7D0); (0xA7D7, 0xA7D9, 2, 0xA7D6);
   (0xA7F6, 0xA7F6, 1, 0xA7F5); (0xAB53, 0xAB53, 1, 0xA7B3); (0xAB70, 0xABBF, 1, 0x13A0);
   (0xFF41, 0xFF5A, 1, 0xFF21); (0x10428, 0x1044F, 1, 0x10400); (0x104D8, 0x104FB, 1, 0x104B0);
   (0x10597, 0x105A1, 1, 0x10570); (0x105A3, 0x105B1, 1, 0x1057C); (0x105B3, 0x105B9, 1, 0x1058C);
   (0x105BB, 0x105BC, 1, 0x10594); (0x10CC0, 0x10CF2, 1, 0x10C80); (0x118C0, 0x118DF, 1, 0x118A0);
   (0x16E60, 0x16E7F, 1, 0x16E40); (0x1E922, 0x1E943, 1, 0x1E900)].

(** Full upper-case mappings that expand to several code points. *)
Definition upper_special : list (N * list N) :=
  [(0xDF, [0x53; 0x53]); (0x149, [0x2BC; 0x4E]); (0x1F0, [0x4A; 0x30C]);
   (0x390, [0x399; 0x308; 0x301]); (0x3B0, [0x3A5; 0x308; 0x301]); (0x587, [0x535; 0x552]);
   (0x1E96, [0x48; 0x331]); (0x1E97, [0x54; 0x308]); (0x1E98, [0x57; 0x30A]);
   (0x1E99, [0x59; 0x30A]); (0x1E9A, [0x41; 0x2BE]); (0x1F50, [0x3A5; 0x313]);
   (0x1F52, [0x3A5; 0x313; 0x300]); (0x1F54, [0x3A5; 0x313; 0x301]); (0x1F56, [0x3A5; 0x313; 0x342]);
   (0x1F80, [0x1F08; 0x399]); (0x1F81, [0x1F09; 0x399]); (0x1F82, [0x1F0A; 0x399]);
   (0x1F83, [0x1F0B; 0x399]); (0x1F84, [0x1F0C; 0x399]); (0x1F85, [0x1F0D; 0x399]);
   (0x1F86, [0x1F0E; 0x399]); (0x1F87, [0x1F0F; 0x399]); (0x1F88, [0x1F08; 0x399]);
   (0x1F89, [0x1F09; 0x399]); (0x1F8A, [0x1F0A; 0x399]); (0x1F8B, [0x1F0B; 0x399]);
   (0x1F8C, [0x1F0C; 0x399]); (0x1F8D, [0x1F0D; 0x399]); (0x1F8E, [0x1F0E; 0x399]);
   (0x1F8F, [0x1F0F; 0x399]); (0x1F90, [0x1F28; 0x399]); (0x1F91, [0x1F29; 0x399]);
   (0x1F92, [0x1F2A; 0x399]); (0x1F93, [0x1F2B; 0x399]); (0x1F94, [0x1F2C; 0x399]);
   (0x1F95, [0x1F2D; 0x399]); (0x1F96, [0x1F2E; 0x399]); (0x1F97, [0x1F2F; 0x399]);
   (0x1F98, [0x1F28; 0x399]); (0x1F99, [0x1F29; 0x399]); (0x1F9A, [0x1F2A; 0x399]);
   (0x1F9B, [0x1F2B; 0x399]); (0x1F9C, [0x1F2C; 0x399]); (0x1F9D, [0x1F2D; 0x399]);
   (0x1F9E, [0x1F2E; 0x399]); (0x1F9F, [0x1F2F; 0x399]); (0x1FA0, [0x1F68; 0x399]);
   (0x1FA1, [0x1F69; 0x399]); (0x1FA2, [0x1F6A; 0x399]); (0x1FA3, [0x1F6B; 0x399]);
   (0x1FA4, [0x1F6C; 0x399]); (0x1FA5, [0x1F6D; 0x399]); (0x1FA6, [0x1F6E; 0x399]);
   (0x1FA7, [0x1F6F; 0x399]); (0x1FA8, [0x1F68; 0x399]); (0x1FA9, [0x1F69; 0x399]);
   (0x1FAA, [0x1F6A; 0x399]); (0x1FAB, [0x1F6B; 0x399]); (0x1FAC, [0x1F6C; 0x399]);
   (0x1FAD, [0x1F6D; 0x399]); (0x1FAE, [0x1F6E; 0x399]); (0x1FAF, [0x1F6F; 0x399]);
   (0x1FB2, [0x1FBA; 0x399]); (0x1FB3, [0x391; 0x399]); (0x1FB4, [0x386; 0x399]);
   (0x1FB6, [0x391; 0x342]); (0x1FB7, [0x391; 0x342; 0x399]); (0x1FBC, [0x391; 0x399]);
   (0x1FC2, [0x1FCA; 0x399]); (0x1FC3, [0x397; 0x399]); (0x1FC4, [0x389; 0x399]);
   (0x1FC6, [0x397; 0x342]); (0x1FC7, [0x397; 0x342; 0x399]); (0x1FCC, [0x397; 0x399]);
   (0x1FD2, [0x399; 0x308; 0x300]); (0x1FD3, [0x399; 0x308; 0x301]); (0x1FD6, [0x399; 0x342]);
   (0x1FD7, [0x399; 0x308; 0x342]); (0x1FE2, [0x3A5; 0x308; 0x300]); (0x1FE3, [0x3A5; 0x308; 0x301]);
   (0x1FE4, [0x3A1; 0x313]); (0x1FE6, [0x3A5; 0x342]); (0x1FE7, [0x3A5; 0x308; 0x342]);
   (0x1FF2, [0x1FFA; 0x399]); (0x1FF3, [0x3A9; 0x399]); (0x1FF4, [0x38F; 0x399]);
   (0x1FF6, [0x3A9; 0x342]); (0x1FF7, [0x3A9; 0x342; 0x399]); (0x1FFC, [0x3A9; 0x399]);
   (0xFB00, [0x46; 0x46]); (0xFB01, [0x46; 0x49]); (0xFB02, [0x46; 0x4C]);
   (0xFB03, [0x46; 0x46; 0x49]); (0xFB04, [0x46; 0x46; 0x4C]); (0xFB05, [0x53; 0x54]);
   (0xFB06, [0x53; 0x54]); (0xFB13, [0x544; 0x546]); (0xFB14, [0x544; 0x535]);
   (0xFB15, [0x544; 0x53B]); (0xFB16, [0x54E; 0x546]); (0xFB17, [0x544; 0x53D])].

Definition isspace (c : char) : bool := in_ranges space_ranges c.

Definition isdecimal (c : char) : bool := in_ranges decimal_ranges c.

(** The decimal value of a code point of category Nd. *)
Definition decimal_value (c : char) : option N :=
  match find (fun r => (fst r <=? c) && (c <=? snd r)) decimal_ranges with
  | Some (lo, _) => Some ((c - lo) mod 10)
  | None => None
  end.

Definition upper_char (c : char) : str :=
  match find (fun e => fst e =? c) upper_special with
  | Some (_, u) => u
  | None =>
      match find (fun r => let '(lo, hi, step, _) := r in
                           (lo <=? c) && (c <=? hi) && ((c - lo) mod step =? 0))
                 upper_ranges with
      | Some (lo, _, _, target) => [target + (c - lo)]
      | None => [c]
      end
  end.

(** *** String methods *)

(** [s.upper()] *)
Definition upper (s : str) : str := flat_map upper_char s.

Fixpoint lstrip (s : str) : str :=
  match s with
  | [] => []
  | c :: s' => if isspace c then lstrip s' else s
  end.

Definition rstrip (s : str) : str := rev (lstrip (rev s)).

(** [s.strip()] *)
Definition strip (s : str) : str := rstrip (lstrip s).

(** [s.startswith(prefix)] *)
Fixpoint startswith (s prefix : str) : bool :=
  match prefix, s with
  | [], _ => true
  | _ :: _, [] => false
  | p :: prefix', c :: s' => (c =? p) && startswith s' prefix'
  end.

(** [sub in s] *)
Fixpoint contains (s sub : str) : bool :=
  startswith s sub
  || match s with
     | [] => false
     | _ :: s' => contains s' sub
     end.

(** [sep.join(parts)] *)
Fixpoint join (sep : str) (parts : list str) : str :=
  match parts with
  | [] => []
  | [p] => p
  | p :: ps => p ++ sep ++ join sep ps
  end.

(** [s.replace(c, '')] for a one-character [c] *)
Definition remove_char (c : char) (s : str) : str :=
  filter (fun x => negb (x =? c)) s.

Definition SPACE : char := 0x20.
Definition NEWLINE : char := 0x0A.
Definition FULL_STOP : char := 0x2E.
Definition FULLWIDTH_FULL_STOP : char := 0xFF0E.
Definition FULLWIDTH_LEFT_PAREN : char := 0xFF08.
Definition FULLWIDTH_RIGHT_PAREN : char := 0xFF09.

(** ** The regular expressions of the program

    Three patterns occur: [^\d+<sep>] under [re.match], [^\d+<sep>\s*] under
    [re.sub] and the constant [（\s*）] under [re.sub].  A separator is spliced
    into the pattern unescaped, so each of its characters is a pattern atom:
    [.] matches any code point except a newline, an ordinary character matches
    itself.

    The other special characters of [re] are not interpreted: a separator
    that holds one of them ([re_plain] is false) makes a pattern with another
    meaning, or one that [re] refuses with [re.error], and the definitions
    below do not describe it.  The default separators are plain, and the
    statements about configurations in general that rest on what a separator
    matches assume plain separators. *)

Inductive re_atom : Type :=
| ReAny
| ReLit (c : char).

(** The special characters of [re] apart from the dot. *)
Definition re_special : str := Eval vm_compute in py "^$*+?{}[]\|()".

(** A separator whose characters are dots and ordinary characters. *)
Definition re_plain (sep : str) : bool :=
  forallb (fun c => negb (existsb (N.eqb c) re_special)) sep.

(** The atom of a character of a plain separator. *)
Definition re_atom_of_char (c : char) : re_atom :=
  if c =? FULL_STOP then ReAny else ReLit c.

Definition re_atoms (sep : str) : list re_atom := map re_atom_of_char sep.

Definition re_atom_match (a : re_atom) (c : char) : bool :=
  match a with
  | ReAny => negb (c =? NEWLINE)
  | ReLit l => c =? l
  end.

(** Matches a sequence of atoms at the head of [s]; the unmatched rest. *)
Fixpoint re_match_atoms (atoms : list re_atom) (s : str) : option str :=
  match atoms, s with
  | [], _ => Some s
  | _ :: _, [] => None
  | a :: atoms', c :: s' =>
      if re_atom_match a c then re_match_atoms atoms' s' else None
  end.

(** [\d+] followed by the continuation [k]: greedy, giving digits back one
    at a time until [k] succeeds. *)
Fixpoint re_digits_then (k : str -> option str) (s : str) : option str :=
  match s with
  | [] => None
  | c :: s' =>
      if isdecimal c then
        match re_digits_then k s' with
        | Some r => Some r
        | None => k s'
        end
      else None
  end.

(** [re.match('^\d+' + sep, s)]: the rest of [s] after the match, if any. *)
Definition re_match_number (sep : str) (s : str) : option str :=
  re_digits_then (re_match_atoms (re_atoms sep)) s.

(** [re.sub('^\d+' + sep + '\s*', '', s)]: the anchored pattern matches at
    most once, at the start. *)
Definition re_sub_number (sep : str) (s : str) : str :=
  match re_digits_then
          (fun r => option_map lstrip (re_match_atoms (re_atoms sep) r)) s with
  | Some r => r
  | None => s
  end.

(** [re.sub('（\s*）', '（   ）', s)].  [pending] holds the white space read
    after a left parenthesis that has not been closed yet. *)
Fixpoint re_sub_blank_paren (pending : option str) (s : str) : str :=
  match s with
  | [] =>
      match pending with
      | Some ws => FULLWIDTH_LEFT_PAREN :: ws
      | None => []
      end
  | c :: s' =>
      match pending with
      | Some ws =>
          if c =? FULLWIDTH_RIGHT_PAREN then
            [FULLWIDTH_LEFT_PAREN; SPACE; SPACE; SPACE; FULLWIDTH_RIGHT_PAREN]
              ++ re_sub_blank_paren None s'
          else if isspace c then re_sub_blank_paren (Some (ws ++ [c])) s'
          else if c =? FULLWIDTH_LEFT_PAREN then
            (FULLWIDTH_LEFT_PAREN :: ws) ++ re_sub_blank_paren (Some []) s'
          else (FULLWIDTH_LEFT_PAREN :: ws) ++ c :: re_sub_blank_paren None s'
      | None =>
          if c =? FULLWIDTH_LEFT_PAREN then re_sub_blank_paren (Some []) s'
          else c :: re_sub_blank_paren None s'
      end
  end.

(** ** Python [float]

    Floats are binary64 values ([prec = 53], [emax = 1024]) in the standard
    library's [spec_float]. *)

Definition pyfloat := spec_float.

Definition is_ascii_digit (c : char) : bool := (0x30 <=? c) && (c <=? 0x39).

(** C's white space: space, tab, newline, vertical tab, form feed, return. *)
Definition is_ascii_space (c : char) : bool :=
  (c =? SPACE) || ((0x09 <=? c) && (c <=? 0x0D)).

Definition ascii_lower (c : char) : char :=
  if (0x41 <=? c) && (c <=? 0x5A) then c + 0x20 else c.

(** [float] first maps Unicode white space to a space and Unicode decimal
    digits to ASCII digits; any other non-ASCII code point becomes [?]. *)
Definition float_to_ascii (c : char) : char :=
  if c <=? 127 then c
  else if isspace c then SPACE
  else match decimal_value c with
       | Some d => 0x30 + d
       | None => 0x3F
       end.

Definition UNDERSCORE : char := 0x5F.

(** Underscores are dropped when each stands between two digits. *)
Fixpoint float_underscores (prev : char) (s : str) : option str :=
  match s with
  | [] => if prev =? UNDERSCORE then None else Some []
  | c :: s' =>
      if c =? UNDERSCORE then
        if is_ascii_digit prev then float_underscores c s' else None
      else if (prev =? UNDERSCORE) && negb (is_ascii_digit c) then None
      else option_map (cons c) (float_underscores c s')
  end.

Fixpoint lstrip_ascii (s : str) : str :=
  match s with
  | [] => []
  | c :: s' => if is_ascii_space c then lstrip_ascii s' else s
  end.

Definition strip_ascii (s : str) : str :=
  rev (lstrip_ascii (rev (lstrip_ascii s))).

Definition float_sign (s : str) : bool * str :=
  match s with
  | c :: s' =>
      if c =? 0x2D then (true, s')
      else if c =? 0x2B then (false, s')
      else (false, s)
  | [] => (false, [])
  end.

(** The leading ASCII digits of [s], as the number they denote so far and
    their count, and the rest. *)
Fixpoint float_digits (acc : N) (count : nat) (s : str) : N * nat * str :=
  match s with
  | c :: s' =>
      if is_ascii_digit c then float_digits (10 * acc + (c - 0x30)) (S count) s'
      else (acc, count, s)
  | [] => (acc, count, [])
  end.

(** A decimal literal [digits [. digits] [(e|E) [sign] digits]] with at least
    one digit in the mantissa, read as (mantissa, decimal exponent). *)
Definition float_decimal (s : str) : option (N * Z) :=
  let '(ip, ni, r1) := float_digits 0 0 s in
  let '(m, nf, r2) :=
    match r1 with
    | c :: r => if c =? FULL_STOP then float_digits ip 0 r else (ip, 0%nat, r1)
    | [] => (ip, 0%nat, r1)
    end in
  match (ni + nf)%nat with
  | O => None
  | _ =>
      match r2 with
      | [] => Some (m, (- Z.of_nat nf)%Z)
      | c :: r =>
          if ascii_lower c =? 0x65 then
            let '(neg, r3) := float_sign r in
            match float_digits 0 0 r3 with
            | (e, S _, []) =>
                Some (m, ((if neg then - Z.of_N e else Z.of_N e) - Z.of_nat nf)%Z)
            | _ => None
            end
          else None
      end
  end.

(** The correctly rounded (to nearest, ties to even) binary64 value of
    [m * 10 ^ e]. *)
Definition float_round (neg : bool) (m : N) (e : Z) : pyfloat :=
  match m with
  | N0 => S754_zero neg
  | Npos p =>
      let num := Z.to_pos (Z.pos p * 10 ^ Z.max e 0) in
      let den := Z.to_pos (10 ^ Z.max (- e) 0) in
      SFdiv 53 1024 (S754_finite neg num 0) (S754_finite false den 0)
  end.

Definition float_inf_nan (s : str) : option pyfloat :=
  let '(neg, r) := float_sign s in
  let l := map ascii_lower r in
  if str_eqb l (py "inf") || str_eqb l (py "infinity") then Some (S754_infinity neg)
  else if str_eqb l (py "nan") then Some S754_nan
  else None.

(** [float(s)] for a [str]: [None] stands for [ValueError]. *)
Definition py_float (s : str) : option pyfloat :=
  match float_underscores 0 (map float_to_ascii s) with
  | None => None
  | Some t =>
      let t := strip_ascii t in
      let '(neg, r) := float_sign t in
      match float_decimal r with
      | Some (m, e) => Some (float_round neg m e)
      | None => float_inf_nan t
      end
  end.

(** Python float literals denote the same value as [float] of their text. *)
Definition float_literal (s : string) : pyfloat :=
  match py_float (py s) with
  | Some x => x
  | None => S754_nan
  end.

(** ** Logging

    Only the records of level [WARNING] are kept: the one of
    [determine_difficulty] and the one of [has_image].  The [info] messages
    of the other methods are not recorded. *)

Inductive log_level : Type := INFO | WARNING | ERROR.

Record log_record : Type := { levelname : log_level; message : str }.

(** ** class QuestionConfig *)

Inductive tag_type : Type := answer | difficulty | knowledge | explanation.

Record Tags : Type := {
  tags_answer : list str;
  tags_difficulty : list str;
  tags_knowledge : list str;
  tags_explanation : list str
}.

Record DifficultyLevels : Type := {
  easy_threshold : pyfloat;
  easy_name : str;
  medium_threshold : pyfloat;
  medium_name : str;
  hard_name : str
}.

Record Config : Type := {
  separators : list str;
  tags : Tags;
  difficulty_levels : DifficultyLevels;
  options : list str;
  judge_answers : list str;
  output_columns : list str
}.

Definition default_config : Config := Eval vm_compute in {|
  separators := [py "．"; py "."];
  tags := {|
    tags_answer := [py "【答案】"; py "[答案]"; py "答案："; py "答案:"];
    tags_difficulty := [py "【难度】"; py "[难度]"; py "难度："; py "难度:"];
    tags_knowledge := [py "【知识点】"; py "[知识点]"; py "知识点："; py "知识点:"];
    tags_explanation := [py "【详解】"; py "[详解]"; py "解析："; py "解析:"]
  |};
  difficulty_levels := {|
    easy_threshold := float_literal "0.85"; easy_name := py "易";
    medium_threshold := float_literal "0.85"; medium_name := py "中";
    hard_name := py "难"
  |};
  options := [py "A"; py "B"; py "C"; py "D"];
  judge_answers :=
    [py "T"; py "F"; py "对"; py "错"; py "TRUE"; py "FALSE"; py "√"; py "×";
     py "true"; py "false"; py "True"; py "False"; py "正确"; py "错误"];
  output_columns :=
    [py "题型"; py "题干"; py "选项"; py "选项数量"; py "答案"; py "解析";
     py "所属知识点"; py "难度"]
|}.

Definition tags_of (cfg : Config) (t : tag_type) : list str :=
  match t with
  | answer => tags_answer (tags cfg)
  | difficulty => tags_difficulty (tags cfg)
  | knowledge => tags_knowledge (tags cfg)
  | explanation => tags_explanation (tags cfg)
  end.

Fixpoint first_tag_content (text : str) (labels : list str) : option str :=
  match labels with
  | [] => None
  | tag :: rest =>
      if startswith text tag then Some (strip (skipn (List.length tag) text))
      else first_tag_content text rest
  end.

Definition get_tag_content (cfg : Config) (text : str) (t : tag_type) : option str :=
  first_tag_content text (tags_of cfg t).

Definition UNPARSABLE_DIFFICULTY : str := Eval vm_compute in py "无法解析难度值: ".

(** Returns the label and the records logged on the way. *)
Definition determine_difficulty (cfg : Config) (value : str) : str * list log_record :=
  let levels := difficulty_levels cfg in
  match py_float value with
  | Some value =>
      if SFltb value (easy_threshold levels) then (easy_name levels, [])
      else if SFeqb value (medium_threshold levels) then (medium_name levels, [])
      else (hard_name levels, [])
  | None =>
      (medium_name levels,
       [{| levelname := WARNING; message := UNPARSABLE_DIFFICULTY ++ value |}])
  end.

(** ** class QuestionType *)

Definition SINGLE_CHOICE : str := Eval vm_compute in py "单选题".
Definition MULTI_CHOICE : str := Eval vm_compute in py "多选题".
Definition JUDGMENT : str := Eval vm_compute in py "判断题".
Definition FILL_BLANK : str := Eval vm_compute in py "填空题".
Definition UNKNOWN_TYPE : str := Eval vm_compute in py "未知类型".

(** [answer_chars and answer_chars.issubset(valid_options)]: the characters
    of [s], as one-character strings, against the set of option strings. *)
Definition chars_subset (s : str) (valid_options : list str) : bool :=
  match s with
  | [] => false
  | _ => forallb (fun c => existsb (str_eqb [c]) valid_options) s
  end.

(** The argument is [None] for Python's [None]. *)
Definition determine_type (cfg : Config) (answer : option str) : str :=
  match answer with
  | None => UNKNOWN_TYPE
  | Some [] => UNKNOWN_TYPE
  | Some original_answer =>
      let answer := strip (upper original_answer) in
      if existsb (fun judge_ans =>
                    str_eqb judge_ans original_answer
                    || str_eqb (upper judge_ans) answer)
                 (judge_answers cfg)
      then JUDGMENT
      else if chars_subset (remove_char SPACE answer) (options cfg)
      then if (1 <? List.length (remove_char SPACE answer))%nat
           then MULTI_CHOICE else SINGLE_CHOICE
      else FILL_BLANK
  end.

(** The test of one loop iteration of [count_options]. *)
Definition option_marked (choices opt : str) : bool :=
  contains choices (opt ++ [FULL_STOP])
  || contains choices (opt ++ [FULLWIDTH_FULL_STOP])
  || contains choices (opt ++ [SPACE]).

Definition count_options (cfg : Config) (choices : str) : nat :=
  match choices with
  | [] => 0%nat
  | _ =>
      let choices := upper choices in
      fold_left (fun count opt => if option_marked choices opt then S count else count)
                (options cfg) 0%nat
  end.

(** ** class QuestionProcessor *)

(** The outcome of a call [run._element.findall(path, run._element.nsmap)]:
    the list found is empty or not, or the call raises an exception [e],
    given by [str(e)]. *)
Inductive findall_result : Type :=
| Found (nonempty : bool)
| Raises (e : str).

(** A run of a paragraph: the search for a [w:drawing] and for a [w:pict]
    descendant of its XML element. *)
Record Run : Type := { find_drawing : findall_result; find_pict : findall_result }.

Record Paragraph : Type := { text : str; runs : list Run }.

Definition is_question_start (cfg : Config) (text : str) : bool :=
  existsb (fun sep => match re_match_number sep (strip text) with
                      | Some _ => true
                      | None => false
                      end)
          (separators cfg).

Definition is_option_start (cfg : Config) (text : str) : bool :=
  let text := strip text in
  existsb (fun opt => startswith text (opt ++ [FULL_STOP])
                      || startswith text (opt ++ [FULLWIDTH_FULL_STOP]))
          (options cfg).

Definition IMAGE_CHECK_FAILED : str := Eval vm_compute in py "检查图片时出错: ".

(** The [try] block of [has_image]: [inr true] at the first run with a
    picture, [inr false] when the loop ends, [inl e] at the first call that
    raises; the search for [w:pict] is made only when no [w:drawing] was
    found. *)
Fixpoint has_image_runs (runs : list Run) : str + bool :=
  match runs with
  | [] => inr false
  | run :: runs' =>
      match find_drawing run with
      | Raises e => inl e
      | Found true => inr true
      | Found false =>
          match find_pict run with
          | Raises e => inl e
          | Found true => inr true
          | Found false => has_image_runs runs'
          end
      end
  end.

(** Returns the flag and the records logged on the way. *)
Definition has_image (paragraph : Paragraph) : bool * list log_record :=
  match has_image_runs (runs paragraph) with
  | inr found => (found, [])
  | inl e =>
      (false, [{| levelname := WARNING; message := IMAGE_CHECK_FAILED ++ e |}])
  end.

Definition remove_question_number (cfg : Config) (text : str) : str :=
  fold_left (fun text sep => re_sub_number sep text) (separators cfg) text.

(** The nine index-aligned lists returned by [process_document]. *)
Record Data : Type := {
  title_list : list str;
  choice_list : list str;
  answer_list : list str;
  difficulty_list : list str;
  knowledge_list : list str;
  explain_list : list str;
  type_list : list str;
  option_count_list : list nat;
  has_image_list : list bool
}.

(** The dict [current_question]: the key [title] and the keys set by tags. *)
Record Question : Type := {
  q_title : str;
  q_answer : option str;
  q_difficulty : option str;
  q_knowledge : option str;
  q_explanation : option str
}.

(** [d.get(key, '')] *)
Definition get_or_empty (v : option str) : str :=
  match v with
  | Some s => s
  | None => []
  end.

(** The local variables of [process_document], with the warnings logged. *)
Record State : Type := {
  data : Data;
  current_question : option Question;
  collecting_title : bool;
  current_title_lines : list str;
  current_choices : list str;
  current_has_image : bool;
  logged : list log_record
}.

Definition initial_state : State := {|
  data := {| title_list := []; choice_list := []; answer_list := [];
             difficulty_list := []; knowledge_list := []; explain_list := [];
             type_list := []; option_count_list := []; has_image_list := [] |};
  current_question := None;
  collecting_title := false;
  current_title_lines := [];
  current_choices := [];
  current_has_image := false;
  logged := []
|}.

Definition save_current_question (cfg : Config) (st : State) : State :=
  match current_question st with
  | None => st
  | Some question =>
      let full_title := join [SPACE] (current_title_lines st) in
      let cleaned_title := re_sub_blank_paren None full_title in
      let cleaned_title := remove_question_number cfg cleaned_title in
      let choice_text := join [NEWLINE] (current_choices st) in
      let answer := get_or_empty (q_answer question) in
      let d := data st in
      {| data := {|
           title_list := title_list d ++ [cleaned_title];
           choice_list := choice_list d ++ [choice_text];
           answer_list := answer_list d ++ [answer];
           difficulty_list := difficulty_list d ++ [get_or_empty (q_difficulty question)];
           knowledge_list := knowledge_list d ++ [get_or_empty (q_knowledge question)];
           explain_list := explain_list d ++ [get_or_empty (q_explanation question)];
           type_list := type_list d ++ [determine_type cfg (Some answer)];
           option_count_list := option_count_list d ++ [count_options cfg choice_text];
           has_image_list := has_image_list d ++ [current_has_image st] |};
         current_question := current_question st;
         collecting_title := collecting_title st;
         current_title_lines := [];
         current_choices := [];
         current_has_image := false;
         logged := logged st |}
  end.

(** [any(text.startswith(tag) for tag in tags[t])] *)
Definition has_tag (cfg : Config) (text : str) (t : tag_type) : bool :=
  existsb (startswith text) (tags_of cfg t).

Definition set_current_question (st : State) (q : Question) : State :=
  {| data := data st;
     current_question := Some q;
     collecting_title := collecting_title st;
     current_title_lines := current_title_lines st;
     current_choices := current_choices st;
     current_has_image := current_has_image st;
     logged := logged st |}.

(** One iteration of the loop over [doc.paragraphs]. *)
Definition process_paragraph (cfg : Config) (st : State) (para : Paragraph) : State :=
  let text := strip (text para) in
  match text with
  | [] => st
  | _ =>
    if is_question_start cfg text then
      let st := save_current_question cfg st in
      {| data := data st;
         current_question :=
           Some {| q_title := text; q_answer := None; q_difficulty := None;
                   q_knowledge := None; q_explanation := None |};
         collecting_title := true;
         current_title_lines := [text];
         current_choices := current_choices st;
         current_has_image := fst (has_image para);
         logged := logged st ++ snd (has_image para) |}
    else if is_option_start cfg text then
      {| data := data st;
         current_question := current_question st;
         collecting_title := false;
         current_title_lines := current_title_lines st;
         current_choices := current_choices st ++ [text];
         current_has_image := current_has_image st;
         logged := logged st |}
    else if has_tag cfg text answer then
      match get_tag_content cfg text answer, current_question st with
      | Some (c :: answer_text), Some q =>
          set_current_question st
            {| q_title := q_title q; q_answer := Some (c :: answer_text);
               q_difficulty := q_difficulty q; q_knowledge := q_knowledge q;
               q_explanation := q_explanation q |}
      | _, _ => st
      end
    else if has_tag cfg text difficulty then
      match get_tag_content cfg text difficulty, current_question st with
      | Some difficulty_text, Some q =>
          let (label, records) := determine_difficulty cfg difficulty_text in
          {| data := data st;
             current_question :=
               Some {| q_title := q_title q; q_answer := q_answer q;
                       q_difficulty := Some label; q_knowledge := q_knowledge q;
                       q_explanation := q_explanation q |};
             collecting_title := collecting_title st;
             current_title_lines := current_title_lines st;
             current_choices := current_choices st;
             current_has_image := current_has_image st;
             logged := logged st ++ records |}
      | _, _ => st
      end
    else if has_tag cfg text knowledge then
      match get_tag_content cfg text knowledge, current_question st with
      | Some knowledge_text, Some q =>
          set_current_question st
            {| q_title := q_title q; q_answer := q_answer q;
               q_difficulty := q_difficulty q; q_knowledge := Some knowledge_text;
               q_explanation := q_explanation q |}
      | _, _ => st
      end
    else if has_tag cfg text explanation then
      match get_tag_content cfg text explanation, current_question st with
      | Some explain_text, Some q =>
          set_current_question st
            {| q_title := q_title q; q_answer := q_answer q;
               q_difficulty := q_difficulty q; q_knowledge := q_knowledge q;
               q_explanation := Some explain_text |}
      | _, _ => st
      end
    else if collecting_title st then
      {| data := data st;
         current_question := current_question st;
         collecting_title := collecting_title st;
         current_title_lines := current_title_lines st ++ [text];
         current_choices := current_choices st;
         current_has_image :=
           if current_has_image st then true else fst (has_image para);
         logged :=
           if current_has_image st then logged st
           else logged st ++ snd (has_image para) |}
    else st
  end.

(** The state after the loop and the final [save_current_question]. *)
Definition run_document (cfg : Config) (paragraphs : list Paragraph) : State :=
  save_current_question cfg (fold_left (process_paragraph cfg) paragraphs initial_state).

Definition process_document (cfg : Config) (paragraphs : list Paragraph) : Data :=
  data (run_document cfg paragraphs).

(** ** class QuestionExporter *)

(** The values held by the row dicts. *)
Inductive value : Type :=
| VStr (s : str)
| VInt (n : nat)
| VBool (b : bool).

(** A dict with string keys, in insertion order. *)
Definition Row := list (str * value).

Fixpoint dict_get (key : str) (d : Row) : option value :=
  match d with
  | [] => None
  | (k, v) :: d' => if str_eqb k key then Some v else dict_get key d'
  end.

(** [d[key] = v]: an existing key keeps its place. *)
Fixpoint dict_set (key : str) (v : value) (d : Row) : Row :=
  match d with
  | [] => [(key, v)]
  | (k, w) :: d' => if str_eqb k key then (k, v) :: d' else (k, w) :: dict_set key v d'
  end.

Definition KEY_TYPE : str := Eval vm_compute in py "题型".
Definition KEY_TITLE : str := Eval vm_compute in py "题干".
Definition KEY_OPTIONS : str := Eval vm_compute in py "选项".
Definition KEY_OPTION_COUNT : str := Eval vm_compute in py "选项数量".
Definition KEY_ANSWER : str := Eval vm_compute in py "答案".
Definition KEY_EXPLANATION : str := Eval vm_compute in py "解析".
Definition KEY_KNOWLEDGE : str := Eval vm_compute in py "所属知识点".
Definition KEY_DIFFICULTY : str := Eval vm_compute in py "难度".
Definition KEY_HAS_IMAGE : str := Eval vm_compute in py "has_image".

(** The dict built for index [i]; [nth] gives the source's default when the
    index is out of range. *)
Definition question_data (data : Data) (i : nat) : Row :=
  [ (KEY_TYPE, VStr (nth i (type_list data) []));
    (KEY_TITLE, VStr (nth i (title_list data) []));
    (KEY_OPTIONS, VStr (nth i (choice_list data) []));
    (KEY_OPTION_COUNT, VInt (nth i (option_count_list data) 0%nat));
    (KEY_ANSWER, VStr (nth i (answer_list data) []));
    (KEY_EXPLANATION, VStr (nth i (explain_list data) []));
    (KEY_KNOWLEDGE, VStr (nth i (knowledge_list data) []));
    (KEY_DIFFICULTY, VStr (nth i (difficulty_list data) []));
    (KEY_HAS_IMAGE, VBool (nth i (has_image_list data) false)) ].

Definition prepare_excel_data (data : Data) : list Row :=
  map (question_data data) (seq 0 (List.length (title_list data))).

Definition type_order : list str :=
  [SINGLE_CHOICE; MULTI_CHOICE; JUDGMENT; FILL_BLANK; UNKNOWN_TYPE].

(** [{key: '' for key in columns}] followed by [empty_row['has_image'] = False] *)
Definition empty_row (cfg : Config) : Row :=
  dict_set KEY_HAS_IMAGE (VBool false)
    (fold_left (fun d key => dict_set key (VStr []) d) (output_columns cfg) []).

(** [q['题型'] == question_type] *)
Definition has_type (question_type : str) (q : Row) : bool :=
  match dict_get KEY_TYPE q with
  | Some (VStr s) => str_eqb s question_type
  | _ => false
  end.

(** One iteration of the loop over [type_order]. *)
Definition add_group (cfg : Config) (excel_data grouped_data : list Row)
    (question_type : str) : list Row :=
  match filter (has_type question_type) excel_data with
  | [] => grouped_data
  | type_questions =>
      match grouped_data with
      | [] => type_questions
      | _ => grouped_data ++ [empty_row cfg] ++ type_questions
      end
  end.

(** The list [grouped_data] of [export_to_excel]. *)
Definition group_by_type (cfg : Config) (excel_data : list Row) : list Row :=
  fold_left (add_group cfg excel_data) type_order [].

(** *** The data frame

    [pd.DataFrame(records)] labels its columns with the keys of the records
    in order of first appearance; selecting a list of labels raises
    [KeyError] when one of them is not a column. *)

Definition frame_columns (records : list Row) : list str :=
  fold_left
    (fun columns r =>
       fold_left (fun columns kv =>
                    if existsb (str_eqb (fst kv)) columns then columns
                    else columns ++ [fst kv])
                 r columns)
    records [].

Inductive exception : Type :=
| KeyError (labels : list str).

(** The written sheet: the header and the cells of each row, [None] for a
    missing cell. *)
Record Sheet : Type := {
  header : list str;
  body : list (list (option value))
}.

(** [pd.DataFrame(records)[columns]] *)
Definition select_columns (records : list Row) (columns : list str)
    : exception + Sheet :=
  match filter (fun c => negb (existsb (str_eqb c) (frame_columns records))) columns with
  | [] => inr {| header := columns;
                 body := map (fun r => map (fun c => dict_get c r) columns) records |}
  | missing => inl (KeyError missing)
  end.

(** [inl] is the exception re-raised by the handler. *)
Definition export_to_excel (cfg : Config) (data : Data) : exception + Sheet :=
  let excel_data := prepare_excel_data data in
  let grouped_data := group_by_type cfg excel_data in
  select_columns grouped_data (output_columns cfg).

(** ** class QuestionBank *)

Definition process_file (cfg : Config) (paragraphs : list Paragraph)
    : exception + Sheet :=
  export_to_excel cfg (process_document cfg paragraphs).

(** ** Specification-side definitions

    The notions of the specification that the theorems below compare with
    the program. *)

(** The line kinds of the Line Classifier, in the order in which
    [process_document] tests them; [Blank] is a paragraph the loop skips. *)
Inductive line_kind : Type :=
| Blank
| QuestionStart
| OptionStart
| AnswerTag
| DifficultyTag
| KnowledgeTag
| ExplanationTag
| Content.

Definition classify_line (cfg : Config) (para : Paragraph) : line_kind :=
  let text := strip (text para) in
  match text with
  | [] => Blank
  | _ =>
      if is_question_start cfg text then QuestionStart
      else if is_option_start cfg text then OptionStart
      else if has_tag cfg text answer then AnswerTag
      else if has_tag cfg text difficulty then DifficultyTag
      else if has_tag cfg text knowledge then KnowledgeTag
      else if has_tag cfg text explanation then ExplanationTag
      else Content
  end.

Definition is_tag_kind (k : line_kind) : bool :=
  match k with
  | AnswerTag | DifficultyTag | KnowledgeTag | ExplanationTag => true
  | _ => false
  end.

Definition is_start (cfg : Config) (para : Paragraph) : bool :=
  match classify_line cfg para with
  | QuestionStart => true
  | _ => false
  end.

(** A question-start line as the specification words it: one or more
    decimal digits immediately followed by a separator, taken literally. *)
Fixpoint digits_then_literal (seps : list str) (s : str) : bool :=
  match s with
  | [] => false
  | c :: s' =>
      isdecimal c && (existsb (startswith s') seps || digits_then_literal seps s')
  end.

(** The paragraphs of a block that are appended to its title: the content
    lines that come before the first option line. *)
Fixpoint title_paragraphs (cfg : Config) (rest : list Paragraph) : list Paragraph :=
  match rest with
  | [] => []
  | p :: rest' =>
      match classify_line cfg p with
      | OptionStart => []
      | Content => p :: title_paragraphs cfg rest'
      | _ => title_paragraphs cfg rest'
      end
  end.

(** The Question Classifier as the specification words it, with every
    white-space character removed before the alphabet test. *)
Definition remove_whitespace (s : str) : str :=
  filter (fun c => negb (isspace c)) s.

Definition judge_match (cfg : Config) (a : str) : Prop :=
  exists j, In j (judge_answers cfg) /\ (j = a \/ upper j = strip (upper a)).

Definition in_alphabet (cfg : Config) (s : str) : Prop :=
  forall c, In c s -> In [c] (options cfg).

Definition classifier_as_stated (cfg : Config) (answer : option str) : str :=
  match answer with
  | None => UNKNOWN_TYPE
  | Some [] => UNKNOWN_TYPE
  | Some a =>
      if existsb (fun j => str_eqb j a || str_eqb (upper j) (strip (upper a)))
                 (judge_answers cfg)
      then JUDGMENT
      else
        let r := upper (remove_whitespace a) in
        if forallb (fun c => existsb (str_eqb [c]) (options cfg)) r
        then match r with
             | [] => FILL_BLANK
             | [_] => SINGLE_CHOICE
             | _ => MULTI_CHOICE
             end
        else FILL_BLANK
  end.

(** Blank separator rows: every field empty, no image. *)
Definition is_blank_value (v : value) : bool :=
  match v with
  | VStr [] => true
  | VBool false => true
  | _ => false
  end.

Definition is_separator (r : Row) : bool :=
  forallb (fun kv => is_blank_value (snd kv)) r.

(** Groups joined with exactly one separator row between neighbours. *)
Fixpoint join_groups (sep : Row) (groups : list (list Row)) : list Row :=
  match groups with
  | [] => []
  | [g] => g
  | g :: rest => g ++ sep :: join_groups sep rest
  end.

Definition nonempty_group (g : list Row) : bool :=
  match g with
  | [] => false
  | _ => true
  end.

(** The non-empty groups of the partition by type, in the order of [types];
    each group keeps the rows in their original order. *)
Definition groups_in (types : list str) (excel_data : list Row) : list (list Row) :=
  filter nonempty_group (map (fun t => filter (has_type t) excel_data) types).

Definition type_groups (excel_data : list Row) : list (list Row) :=
  groups_in type_order excel_data.

(** A group of the partition: not empty, and free of separator rows. *)
Definition plain_group (g : list Row) : Prop :=
  nonempty_group g = true /\ Forall (fun r => is_separator r = false) g.

Fixpoint no_adjacent_separators (rows : list Row) : bool :=
  match rows with
  | r1 :: ((r2 :: _) as rest) =>
      negb (is_separator r1 && is_separator r2) && no_adjacent_separators rest
  | _ => true
  end.

Definition separator_free_ends (rows : list Row) : bool :=
  match rows with
  | [] => true
  | r :: _ => negb (is_separator r) && negb (is_separator (last rows r))
  end.

Definition count_separators (rows : list Row) : nat :=
  List.length (filter is_separator rows).

(** Sample paragraphs: plain text, text with an embedded drawing, and text
    with a run whose search raises. *)
Definition plain (s : string) : Paragraph := {| text := py s; runs := [] |}.

Definition pictured (s : string) : Paragraph :=
  {| text := py s;
     runs := [{| find_drawing := Found true; find_pict := Found false |}] |}.

Definition unreadable (s : string) : Paragraph :=
  {| text := py s;
     runs := [{| find_drawing := Raises (py "bad element");
                 find_pict := Found true |}] |}.

Definition is_open (st : State) : bool :=
  match current_question st with
  | Some _ => true
  | None => false
  end.

(** A paragraph the loop does not skip. *)
Definition nonblank (p : Paragraph) : bool :=
  match strip (text p) with
  | [] => false
  | _ => true
  end.

(** A paragraph with the given text and runs. *)
Definition paragraph_of (t : str) (rs : list Run) : Paragraph :=
  {| text := t; runs := rs |}.

(** The type list is aligned with the title list and holds the five types. *)
Definition typed_data (d : Data) : Prop :=
  List.length (type_list d) = List.length (title_list d)
  /\ Forall (fun t => In t type_order) (type_list d).

(** The trimmed texts of the option lines among [paragraphs]. *)
Definition option_lines (cfg : Config) (paragraphs : list Paragraph) : list str :=
  map (fun p => strip (text p))
      (filter (fun p => match classify_line cfg p with
                        | OptionStart => true
                        | _ => false
                        end)
              paragraphs).

(** ** Further specification-side definitions *)

(** The nine lists hold one entry per record. *)
Definition aligned (d : Data) : Prop :=
  let n := List.length (title_list d) in
  List.length (choice_list d) = n
  /\ List.length (answer_list d) = n
  /\ List.length (difficulty_list d) = n
  /\ List.length (knowledge_list d) = n
  /\ List.length (explain_list d) = n
  /\ List.length (type_list d) = n
  /\ List.length (option_count_list d) = n
  /\ List.length (has_image_list d) = n.

(** Type and option count are computed from the stored answer and options. *)
Definition derived (cfg : Config) (d : Data) : Prop :=
  type_list d = map (fun a => determine_type cfg (Some a)) (answer_list d)
  /\ option_count_list d = map (count_options cfg) (choice_list d).

(** What a step reads of a paragraph. *)
Definition view (p : Paragraph) : str * (bool * list log_record) :=
  (strip (text p), has_image p).

(** The values a stored difficulty can take. *)
Definition difficulty_labels (cfg : Config) : list str :=
  [ [];
    easy_name (difficulty_levels cfg);
    medium_name (difficulty_levels cfg);
    hard_name (difficulty_levels cfg) ].

(** The tag fields of the open question. *)
Definition answer_of (st : State) : option str :=
  match current_question st with
  | Some q => q_answer q
  | None => None
  end.

Definition difficulty_of (st : State) : option str :=
  match current_question st with
  | Some q => q_difficulty q
  | None => None
  end.

Definition knowledge_of (st : State) : option str :=
  match current_question st with
  | Some q => q_knowledge q
  | None => None
  end.

Definition explanation_of (st : State) : option str :=
  match current_question st with
  | Some q => q_explanation q
  | None => None
  end.

(** One record is still to be stored while a question is open. *)
Definition pending (st : State) : nat := if is_open st then 1%nat else 0%nat.


Definition kind_eqb (a b : line_kind) : bool :=
  match a, b with
  | Blank, Blank | QuestionStart, QuestionStart | OptionStart, OptionStart
  | AnswerTag, AnswerTag | DifficultyTag, DifficultyTag
  | KnowledgeTag, KnowledgeTag | ExplanationTag, ExplanationTag
  | Content, Content => true
  | _, _ => false
  end.

(** The contents of the tag lines of kind [k] among [rest], in order. *)
Definition tag_contents (cfg : Config) (k : line_kind) (t : tag_type)
    (rest : list Paragraph) : list str :=
  map (fun p => get_or_empty (get_tag_content cfg (strip (text p)) t))
      (filter (fun p => kind_eqb (classify_line cfg p) k) rest).

Definition nonempty_str (s : str) : bool :=
  match s with
  | [] => false
  | _ => true
  end.

(** The fields of the record of a block from its tag lines: the last
    non-empty answer, the label of the last difficulty, the last knowledge
    and the last explanation; the empty string where there is none. *)
Definition block_answer (cfg : Config) (rest : list Paragraph) : str :=
  last (filter nonempty_str (tag_contents cfg AnswerTag answer rest)) [].

Definition block_difficulty (cfg : Config) (rest : list Paragraph) : str :=
  last (map (fun v => fst (determine_difficulty cfg v))
            (tag_contents cfg DifficultyTag difficulty rest)) [].

Definition block_knowledge (cfg : Config) (rest : list Paragraph) : str :=
  last (tag_contents cfg KnowledgeTag knowledge rest) [].

Definition block_explanation (cfg : Config) (rest : list Paragraph) : str :=
  last (tag_contents cfg ExplanationTag explanation rest) [].

(** The title of the record of a block opened by [s]. *)
Definition block_title (cfg : Config) (s : Paragraph) (rest : list Paragraph) : str :=
  remove_question_number cfg
    (re_sub_blank_paren None
       (join [SPACE]
             (strip (text s)
              :: map (fun p => strip (text p)) (title_paragraphs cfg rest)))).

(** The option letters of the default configuration, in both cases. *)
Definition CHOICE_LETTERS : str := Eval vm_compute in py "ABCDabcd".

(** [r] is what remains of [s] after a prefix is removed. *)
Definition suffix_of (r s : str) : Prop := exists pre, s = pre ++ r.

(** The keys of the dicts built by [prepare_excel_data]. *)
Definition question_keys : list str :=
  [KEY_TYPE; KEY_TITLE; KEY_OPTIONS; KEY_OPTION_COUNT; KEY_ANSWER;
   KEY_EXPLANATION; KEY_KNOWLEDGE; KEY_DIFFICULTY; KEY_HAS_IMAGE].

(** The sheet written when the selection of the columns succeeds. *)
Definition sheet_of (cfg : Config) (grouped_data : list Row) : Sheet :=
  {| header := output_columns cfg;
     body := map (fun r => map (fun c => dict_get c r) (output_columns cfg))
                 grouped_data |}.

(** A configuration with a column that is not a key of the question rows. *)
Definition remark_config : Config :=
  {| separators := separators default_config;
     tags := tags default_config;
     difficulty_levels := difficulty_levels default_config;
     options := options default_config;
     judge_answers := judge_answers default_config;
     output_columns := [KEY_TYPE; KEY_TITLE; py "备注"] |}.

(** A configuration whose medium threshold lies below its easy threshold. *)
Definition low_medium_config : Config :=
  {| separators := separators default_config;
     tags := tags default_config;
     difficulty_levels :=
       {| easy_threshold := float_literal "0.85"; easy_name := py "易";
          medium_threshold := float_literal "0.5"; medium_name := py "中";
          hard_name := py "难" |};
     options := options default_config;
     judge_answers := judge_answers default_config;
     output_columns := output_columns default_config |}.

(** Every configured separator is plain. *)
Definition plain_separators (cfg : Config) : bool :=
  forallb re_plain (separators cfg).

(** *** Worksheet formatting

    [_format_excel_worksheet]: the width of each column, and for each row of
    the worksheet (the header, then one row per entry of the frame) whether
    its cells are set in bold and whether they are filled in light blue.
    Every cell is left-aligned, centred vertically and wrapped. *)

Definition custom_widths : list (str * nat) :=
  [ (KEY_TYPE, 12%nat); (KEY_TITLE, 60%nat); (KEY_OPTIONS, 40%nat);
    (KEY_OPTION_COUNT, 10%nat); (KEY_ANSWER, 15%nat); (KEY_EXPLANATION, 50%nat);
    (KEY_KNOWLEDGE, 30%nat); (KEY_DIFFICULTY, 10%nat) ].

(** [custom_widths.get(column_name, 20)] *)
Fixpoint width_of (column_name : str) (widths : list (str * nat)) : nat :=
  match widths with
  | [] => 20%nat
  | (k, w) :: rest => if str_eqb k column_name then w else width_of column_name rest
  end.

(** The truth value of [d.get(key)]. *)
Definition truthy (v : option value) : bool :=
  match v with
  | None => false
  | Some (VStr s) => nonempty_str s
  | Some (VInt n) => negb (Nat.eqb n 0)
  | Some (VBool b) => b
  end.

Record Formatting : Type := {
  column_widths : list nat;
  bold_rows : list bool;
  filled_rows : list bool
}.

Definition format_excel_worksheet (cfg : Config) (worksheet : Sheet)
    (data : list Row) : Formatting :=
  let row_indices := seq 0 (S (List.length (body worksheet))) in
  {| column_widths :=
       map (fun idx => width_of (nth idx (output_columns cfg) []) custom_widths)
           (seq 0 (List.length (header worksheet)));
     bold_rows := map (fun row_idx => Nat.eqb row_idx 0) row_indices;
     filled_rows :=
       map (fun row_idx =>
              if Nat.eqb row_idx 0 then false
              else if Nat.leb row_idx (List.length data)
                   then truthy (dict_get KEY_HAS_IMAGE (nth (row_idx - 1) data []))
                   else false)
           row_indices |}.

(** The workbook written by [export_to_excel]: the sheet and its formatting. *)
Definition export_workbook (cfg : Config) (data : Data) : exception + Sheet * Formatting :=
  match export_to_excel cfg data with
  | inl e => inl e
  | inr worksheet =>
      inr (worksheet,
           format_excel_worksheet cfg worksheet
             (group_by_type cfg (prepare_excel_data data)))
  end.

(** *** Statistics

    The dict [self.stats] of the processor: a counter per type and the total
    of the last document. *)

Definition Stats := list (str * nat).

Definition KEY_TOTAL : str := Eval vm_compute in py "总题数".

Definition initial_stats : Stats :=
  [ (SINGLE_CHOICE, 0%nat); (MULTI_CHOICE, 0%nat); (JUDGMENT, 0%nat);
    (FILL_BLANK, 0%nat); (UNKNOWN_TYPE, 0%nat); (KEY_TOTAL, 0%nat) ].

(** [stats.get(key, 0)] *)
Fixpoint stats_get (key : str) (stats : Stats) : nat :=
  match stats with
  | [] => 0%nat
  | (k, n) :: rest => if str_eqb k key then n else stats_get key rest
  end.

(** [stats[key] = n] *)
Fixpoint stats_set (key : str) (n : nat) (stats : Stats) : Stats :=
  match stats with
  | [] => [(key, n)]
  | (k, m) :: rest =>
      if str_eqb k key then (k, n) :: rest else (k, m) :: stats_set key n rest
  end.

(** The update of [self.stats] made by [save_current_question]. *)
Definition save_stats (cfg : Config) (st : State) (stats : Stats) : Stats :=
  match current_question st with
  | None => stats
  | Some question =>
      let question_type :=
        determine_type cfg (Some (get_or_empty (q_answer question))) in
      stats_set question_type (S (stats_get question_type stats)) stats
  end.

(** One iteration of the loop, with the statistics. *)
Definition process_paragraph_stats (cfg : Config) (acc : State * Stats)
    (para : Paragraph) : State * Stats :=
  let text := strip (text para) in
  (process_paragraph cfg (fst acc) para,
   match text with
   | [] => snd acc
   | _ => if is_question_start cfg text
          then save_stats cfg (fst acc) (snd acc)
          else snd acc
   end).

(** [process_document] with the processor's statistics before and after. *)
Definition process_document_stats (cfg : Config) (paragraphs : list Paragraph)
    (stats : Stats) : Data * Stats :=
  let acc := fold_left (process_paragraph_stats cfg) paragraphs (initial_state, stats) in
  let stats := save_stats cfg (fst acc) (snd acc) in
  let d := data (save_current_question cfg (fst acc)) in
  (d, stats_set KEY_TOTAL (List.length (title_list d)) stats).

(** The number of choice questions printed by [_print_statistics]. *)
Definition printed_choice_count (stats : Stats) : nat :=
  (stats_get SINGLE_CHOICE stats + stats_get MULTI_CHOICE stats)%nat.

Definition count_type (t : str) (types : list str) : nat :=
  count_occ (list_eq_dec N.eq_dec) types t.

Definition count_true (l : list bool) : nat :=
  List.length (filter (fun b => b) l).

(** [d] holds the records of [d0] followed by further records. *)
Definition extends (d0 d : Data) : Prop :=
  (exists l, title_list d = title_list d0 ++ l)
  /\ (exists l, choice_list d = choice_list d0 ++ l)
  /\ (exists l, answer_list d = answer_list d0 ++ l)
  /\ (exists l, difficulty_list d = difficulty_list d0 ++ l)
  /\ (exists l, knowledge_list d = knowledge_list d0 ++ l)
  /\ (exists l, explain_list d = explain_list d0 ++ l)
  /\ (exists l, type_list d = type_list d0 ++ l)
  /\ (exists l, option_count_list d = option_count_list d0 ++ l)
  /\ (exists l, has_image_list d = has_image_list d0 ++ l).

(** An option line for the letter [opt]. *)
Definition starts_option (opt line : str) : bool :=
  startswith line (opt ++ [FULL_STOP])
  || startswith line (opt ++ [FULLWIDTH_FULL_STOP]).

(** * Properties *)

(** ** The model on sample inputs *)

Example utf8_literal : py "A．【答" = [0x41; 0xFF0E; 0x3010; 0x7B54].
Proof. reflexivity. Qed.

Example upper_sample : upper (py "a.foo ß ǆ") = py "A.FOO SS Ǆ".
Proof. reflexivity. Qed.

Example strip_sample : strip (0x3000 :: 0x09 :: py "1. x " ++ [0x0A]) = py "1. x".
Proof. reflexivity. Qed.

Example float_samples :
  py_float (py "0.85") = Some (S754_finite false 7656119366529843 (-53))
  /\ py_float (py "0.85000000000000000001") = py_float (py "0.85")
  /\ py_float (py " １２ ") = Some (S754_finite false 6755399441055744 (-49))
  /\ py_float (py "1_0e-1") = Some (S754_finite false 4503599627370496 (-52))
  /\ py_float (py "-Infinity") = Some (S754_infinity true)
  /\ py_float (py "1e400") = Some (S754_infinity false)
  /\ py_float (py "nan") = Some S754_nan
  /\ py_float (py "0x10") = None
  /\ py_float (py "1e") = None
  /\ py_float (py "") = None.
Proof. vm_compute. repeat split. Qed.

Example re_samples :
  re_match_number (py "．") (py "12．x") = Some (py "x")
  /\ re_match_number (py "．") (py "12.x") = None
  /\ re_match_number (py ".") (py "12") = Some []
  /\ re_match_number (py ".") (py "1") = None
  /\ re_match_number (py ".") (0x31 :: NEWLINE :: py "x") = None
  /\ re_sub_number (py ".") (py "12.  x") = py "x"
  /\ re_sub_blank_paren None (py "a（）b（  ）c（ x）（（ ）")
     = py "a（   ）b（   ）c（ x）（（   ）".
Proof. vm_compute. repeat split. Qed.

Example re_plain_samples :
  forallb re_plain (separators default_config) = true
  /\ re_plain (py ":") = true
  /\ re_plain (py "、") = true
  /\ re_plain (py "?") = false
  /\ re_plain (py "|") = false
  /\ re_plain (py "(") = false.
Proof. vm_compute. repeat split. Qed.

Example has_image_samples :
  let warning := {| levelname := WARNING;
                    message := py "检查图片时出错: bad element" |} in
  has_image (plain "x") = (false, [])
  /\ has_image (pictured "x") = (true, [])
  /\ has_image (unreadable "x") = (false, [warning])
  /\ has_image {| text := []; runs := runs (pictured "x") ++ runs (unreadable "x") |}
     = (true, [])
  /\ has_image {| text := []; runs := runs (unreadable "x") ++ runs (pictured "x") |}
     = (false, [warning])
  /\ has_image {| text := [];
                  runs := [{| find_drawing := Found false; find_pict := Found true |}] |}
     = (true, [])
  /\ logged (run_document default_config
               [unreadable "1.Q"; pictured "more"; unreadable "again";
                plain "A.x"; unreadable "B.y"])
     = [warning].
Proof. vm_compute. repeat split. Qed.

(** ** Strings *)

Lemma str_eqb_eq (a b : str) : str_eqb a b = true <-> a = b.
Proof.
  unfold str_eqb. destruct (list_eq_dec N.eq_dec a b); split; congruence.
Qed.

Lemma str_eqb_refl (a : str) : str_eqb a a = true.
Proof. now apply str_eqb_eq. Qed.

Lemma str_eqb_neq (a b : str) : str_eqb a b = false <-> a <> b.
Proof.
  unfold str_eqb. destruct (list_eq_dec N.eq_dec a b); split; congruence.
Qed.

Lemma existsb_str_eqb_In (x : str) (l : list str) :
  existsb (str_eqb x) l = true <-> In x l.
Proof.
  rewrite existsb_exists. split.
  - intros [y [Hy Heq]]. apply str_eqb_eq in Heq. now subst.
  - intros H. exists x. split; [assumption | apply str_eqb_refl].
Qed.

Lemma upper_app (a b : str) : upper (a ++ b) = upper a ++ upper b.
Proof. apply flat_map_app. Qed.

Lemma startswith_nil (pat : str) : pat <> [] -> startswith [] pat = false.
Proof. destruct pat; [congruence | reflexivity]. Qed.

Lemma contains_nil (pat : str) : pat <> [] -> contains [] pat = false.
Proof. destruct pat; [congruence | reflexivity]. Qed.

(** A pattern without the character [c] cannot reach across an occurrence
    of [c]. *)
Lemma startswith_across (c : char) (a b pat : str) :
  ~ In c pat -> pat <> [] ->
  startswith (a ++ c :: b) pat = startswith a pat.
Proof.
  revert pat. induction a as [|x a IH]; intros pat Hc Hne.
  - destruct pat as [|p pat]; [congruence|]. simpl.
    destruct (N.eqb_spec c p) as [->|]; [|reflexivity].
    exfalso. apply Hc. now left.
  - destruct pat as [|p pat]; [reflexivity|]. simpl.
    destruct pat as [|q pat].
    + now destruct a.
    + rewrite IH; [reflexivity| |discriminate].
      intros Hin. apply Hc. now right.
Qed.

Lemma contains_across (c : char) (a b pat : str) :
  ~ In c pat -> pat <> [] ->
  contains (a ++ c :: b) pat = contains a pat || contains b pat.
Proof.
  intros Hc Hne. induction a as [|x a IH].
  - rewrite contains_nil by assumption. cbn [app contains orb].
    change (c :: b) with ([] ++ c :: b).
    rewrite startswith_across, startswith_nil by assumption. reflexivity.
  - cbn [app contains]. rewrite IH.
    change (x :: a ++ c :: b) with ((x :: a) ++ c :: b).
    rewrite startswith_across by assumption.
    now rewrite orb_assoc.
Qed.

Lemma upper_join_newline (ls : list str) :
  upper (join [NEWLINE] ls) = join [NEWLINE] (map upper ls).
Proof.
  induction ls as [|l ls IH]; [reflexivity|].
  destruct ls as [|l' ls]; [reflexivity|].
  change (join [NEWLINE] (l :: l' :: ls))
    with (l ++ [NEWLINE] ++ join [NEWLINE] (l' :: ls)).
  rewrite !upper_app, IH. reflexivity.
Qed.

Lemma contains_join_newline (ls : list str) (pat : str) :
  ~ In NEWLINE pat -> pat <> [] ->
  contains (join [NEWLINE] ls) pat = existsb (fun l => contains l pat) ls.
Proof.
  intros Hc Hne. induction ls as [|l ls IH].
  - now apply contains_nil.
  - destruct ls as [|l' ls].
    + cbn [join existsb]. now rewrite orb_false_r.
    + change (join [NEWLINE] (l :: l' :: ls))
        with (l ++ NEWLINE :: join [NEWLINE] (l' :: ls)).
      rewrite contains_across by assumption. rewrite IH. reflexivity.
Qed.

Lemma existsb_orb {A} (f g : A -> bool) (l : list A) :
  existsb (fun x => f x || g x) l = existsb f l || existsb g l.
Proof.
  induction l as [|x l IH]; [reflexivity|]. simpl. rewrite IH.
  destruct (f x), (g x), (existsb f l), (existsb g l); reflexivity.
Qed.

Lemma existsb_map_compose {A B} (f : B -> bool) (g : A -> B) (l : list A) :
  existsb f (map g l) = existsb (fun x => f (g x)) l.
Proof. induction l as [|x l IH]; [reflexivity|]. simpl. now rewrite IH. Qed.

Lemma existsb_same_elements {A} (f : A -> bool) (l1 l2 : list A) :
  (forall x, In x l1 <-> In x l2) -> existsb f l1 = existsb f l2.
Proof.
  intros H. apply eq_true_iff_eq. rewrite !existsb_exists.
  split; intros [x [Hin Hf]]; exists x; split; try assumption; now apply H.
Qed.

(** ** Difficulty Mapper *)

Lemma SFcompare_eq_left (x m e : spec_float) :
  SFcompare x m = Some Eq -> SFcompare x e = SFcompare m e.
Proof.
  destruct x as [sx|sx| |sx mx ex], m as [sm|sm| |sm mm em];
    try discriminate;
    try (destruct sx; discriminate); try (destruct sm; discriminate).
  - intros _. destruct e; reflexivity.
  - destruct sx, sm; try discriminate; intros _; destruct e; reflexivity.
  - cbn [SFcompare]. destruct sx, sm; try discriminate;
      destruct (Z.compare_spec ex em) as [->| |]; try discriminate;
      intros H.
    + assert (mx = mm) as ->; [|reflexivity].
      apply Pos.compare_eq.
      destruct (Pos.compare mx mm) eqn:Hc; [reflexivity| |];
        rewrite Pos.compare_cont_spec, Hc in H; discriminate.
    + assert (mx = mm) as ->; [|reflexivity].
      apply Pos.compare_eq.
      destruct (Pos.compare mx mm) eqn:Hc; [reflexivity| |];
        rewrite Pos.compare_cont_spec, Hc in H; discriminate.
Qed.

Lemma SFeqb_not_below (x m e : spec_float) :
  SFltb m e = false -> SFeqb x m = true -> SFltb x e = false.
Proof.
  unfold SFltb, SFeqb. intros Hme Hxm.
  destruct (SFcompare x m) as [[| |]|] eqn:Hc; try discriminate.
  now rewrite (SFcompare_eq_left _ _ e Hc).
Qed.

(** C5, as amended.  The tests are made in order.  A token that parses as
    a number maps to the easy label when below the easy threshold; otherwise
    to the medium label when equal to the medium threshold; otherwise to the
    hard label.  A token that does not parse maps to the medium label and a
    warning is logged.  This holds in every configuration; where the medium
    threshold is not below the easy threshold, as in the default
    configuration, every number equal to the medium threshold maps to the
    medium label. *)
Theorem determine_difficulty_spec (cfg : Config) (value : str) :
  let levels := difficulty_levels cfg in
  match py_float value with
  | Some x =>
      (SFltb x (easy_threshold levels) = true ->
       determine_difficulty cfg value = (easy_name levels, []))
      /\ (SFltb x (easy_threshold levels) = false ->
          SFeqb x (medium_threshold levels) = true ->
          determine_difficulty cfg value = (medium_name levels, []))
      /\ (SFltb x (easy_threshold levels) = false ->
          SFeqb x (medium_threshold levels) = false ->
          determine_difficulty cfg value = (hard_name levels, []))
      /\ (SFltb (medium_threshold levels) (easy_threshold levels) = false ->
          SFeqb x (medium_threshold levels) = true ->
          determine_difficulty cfg value = (medium_name levels, []))
  | None =>
      determine_difficulty cfg value =
        (medium_name levels,
         [{| levelname := WARNING; message := UNPARSABLE_DIFFICULTY ++ value |}])
  end.
Proof.
  intros levels. unfold determine_difficulty. fold levels.
  destruct (py_float value) as [x|]; [|reflexivity].
  split; [|split; [|split]].
  - intros ->. reflexivity.
  - intros -> ->. reflexivity.
  - intros -> ->. reflexivity.
  - intros Hord Heq. rewrite (SFeqb_not_below x _ _ Hord Heq), Heq. reflexivity.
Qed.

Lemma determine_difficulty_spec_witness :
  determine_difficulty default_config (py "0.85") = (py "中", [])
  /\ determine_difficulty default_config (py "0.5") = (py "易", [])
  /\ determine_difficulty default_config (py "0.9") = (py "难", [])
  /\ determine_difficulty low_medium_config (py "0.85") = (py "难", [])
  /\ determine_difficulty low_medium_config (py "0.5") = (py "易", []).
Proof.
  pose proof (determine_difficulty_spec default_config (py "0.85")) as H1.
  pose proof (determine_difficulty_spec default_config (py "0.5")) as H2.
  pose proof (determine_difficulty_spec default_config (py "0.9")) as H3.
  pose proof (determine_difficulty_spec low_medium_config (py "0.85")) as H4.
  pose proof (determine_difficulty_spec low_medium_config (py "0.5")) as H5.
  vm_compute in H1, H2, H3, H4, H5.
  split; [|split; [|split; [|split]]].
  - exact (proj2 (proj2 (proj2 H1)) eq_refl eq_refl).
  - exact (proj1 H2 eq_refl).
  - exact (proj1 (proj2 (proj2 H3)) eq_refl eq_refl).
  - exact (proj1 (proj2 (proj2 H4)) eq_refl eq_refl).
  - exact (proj1 H5 eq_refl).
Defined.

(** C5, as the claim states it: the token [0.5] is a number exactly equal
    to the medium threshold of the configuration, and the label returned is
    the easy one, which is not the medium one. *)
Lemma medium_threshold_below_easy_threshold :
  let levels := difficulty_levels low_medium_config in
  py_float (py "0.5") = Some (medium_threshold levels)
  /\ SFeqb (medium_threshold levels) (medium_threshold levels) = true
  /\ determine_difficulty low_medium_config (py "0.5") = (easy_name levels, [])
  /\ easy_name levels <> medium_name levels.
Proof. vm_compute. repeat split. discriminate. Qed.

(** ** Question Classifier *)

Lemma judge_match_existsb (cfg : Config) (a : str) :
  existsb (fun j => str_eqb j a || str_eqb (upper j) (strip (upper a)))
          (judge_answers cfg) = true
  <-> judge_match cfg a.
Proof.
  unfold judge_match. rewrite existsb_exists.
  split; intros [j [Hin H]]; exists j; (split; [assumption|]).
  - apply orb_true_iff in H. now rewrite !str_eqb_eq in H.
  - apply orb_true_iff. now rewrite !str_eqb_eq.
Qed.

Lemma chars_subset_spec (cfg : Config) (r : str) :
  chars_subset r (options cfg) = true <-> r <> [] /\ in_alphabet cfg r.
Proof.
  unfold chars_subset, in_alphabet. destruct r as [|c r].
  - split; [discriminate | intros [H _]; congruence].
  - rewrite forallb_forall. split.
    + intros H. split; [discriminate|].
      intros x Hx. apply existsb_str_eqb_In. now apply H.
    + intros [_ H] x Hx. apply existsb_str_eqb_In. now apply H.
Qed.

Lemma determine_type_nonempty (cfg : Config) (a : str) :
  a <> [] ->
  determine_type cfg (Some a) =
    if existsb (fun j => str_eqb j a || str_eqb (upper j) (strip (upper a)))
               (judge_answers cfg)
    then JUDGMENT
    else if chars_subset (remove_char SPACE (strip (upper a))) (options cfg)
    then if (1 <? List.length (remove_char SPACE (strip (upper a))))%nat
         then MULTI_CHOICE else SINGLE_CHOICE
    else FILL_BLANK.
Proof. destruct a; [congruence | reflexivity]. Qed.

(** C4, as amended.  The classifier returns the unknown type for an empty
    or absent answer; otherwise the judgment type when an entry of the judge
    vocabulary equals the raw answer or, upper-cased, equals the upper-cased
    trimmed answer; otherwise, with the space characters (U+0020) of the
    upper-cased trimmed answer removed, single choice when one character
    remains and multiple choice when several remain, all of them in the
    option alphabet; otherwise fill-in-the-blank. *)
Theorem determine_type_spec (cfg : Config) :
  determine_type cfg None = UNKNOWN_TYPE
  /\ determine_type cfg (Some []) = UNKNOWN_TYPE
  /\ forall a : str, a <> [] ->
     let r := remove_char SPACE (strip (upper a)) in
     (judge_match cfg a -> determine_type cfg (Some a) = JUDGMENT)
     /\ (~ judge_match cfg a -> in_alphabet cfg r -> List.length r = 1%nat ->
         determine_type cfg (Some a) = SINGLE_CHOICE)
     /\ (~ judge_match cfg a -> in_alphabet cfg r -> (1 < List.length r)%nat ->
         determine_type cfg (Some a) = MULTI_CHOICE)
     /\ (~ judge_match cfg a -> r = [] \/ ~ in_alphabet cfg r ->
         determine_type cfg (Some a) = FILL_BLANK).
Proof.
  split; [reflexivity|]. split; [reflexivity|].
  intros a Ha r. rewrite (determine_type_nonempty cfg a Ha). fold r.
  destruct (existsb _ (judge_answers cfg)) eqn:Hj.
  - apply judge_match_existsb in Hj.
    repeat split; intros; try reflexivity; contradiction.
  - assert (Hnj : ~ judge_match cfg a).
    { intros H. apply judge_match_existsb in H. congruence. }
    split; [intros; contradiction|].
    destruct (chars_subset r (options cfg)) eqn:Hs.
    + apply chars_subset_spec in Hs. destruct Hs as [Hne Hal].
      repeat split; intros.
      * destruct (Nat.ltb_spec 1 (List.length r)); [lia | reflexivity].
      * destruct (Nat.ltb_spec 1 (List.length r)); [reflexivity | lia].
      * destruct H0; contradiction.
    + assert (Hns : ~ (r <> [] /\ in_alphabet cfg r)).
      { intros H. apply chars_subset_spec in H. congruence. }
      repeat split; intros; try reflexivity.
      * exfalso. apply Hns. split; [|assumption].
        intros ->. discriminate.
      * exfalso. apply Hns. split; [|assumption].
        intros ->. simpl in *. lia.
Qed.

Lemma determine_type_spec_witness :
  determine_type default_config (Some (py "对")) = JUDGMENT
  /\ determine_type default_config (Some (py "a")) = SINGLE_CHOICE
  /\ determine_type default_config (Some (py "a c")) = MULTI_CHOICE
  /\ determine_type default_config (Some (py "42")) = FILL_BLANK.
Proof.
  assert (Hno : forall a : str,
             existsb (fun j => str_eqb j a || str_eqb (upper j) (strip (upper a)))
                     (judge_answers default_config) = false ->
             ~ judge_match default_config a).
  { intros a H Hm. apply judge_match_existsb in Hm. congruence. }
  assert (Hal : forall r : str,
             forallb (fun c => existsb (str_eqb [c]) (options default_config)) r = true ->
             in_alphabet default_config r).
  { intros r H c Hc. apply existsb_str_eqb_In.
    rewrite forallb_forall in H. now apply H. }
  pose proof (determine_type_spec default_config) as [_ [_ H]].
  split; [|split; [|split]].
  - refine (proj1 (H (py "对") _) _); [discriminate|].
    apply judge_match_existsb. reflexivity.
  - refine (proj1 (proj2 (H (py "a") _)) _ _ _);
      [discriminate | now apply Hno | now apply Hal | reflexivity].
  - refine (proj1 (proj2 (proj2 (H (py "a c") _))) _ _ _);
      [discriminate | now apply Hno | now apply Hal | vm_compute; lia].
  - refine (proj2 (proj2 (proj2 (H (py "42") _))) _ _);
      [discriminate | now apply Hno |].
    right. intros Hin. specialize (Hin 0x34 (or_introl eq_refl)).
    apply existsb_str_eqb_In in Hin. discriminate.
Defined.

(** C4, as the claim states it: with all white space removed, the answer
    [A<tab>B] would be a multiple-choice answer; the program keeps the tab
    and returns fill-in-the-blank. *)
Lemma determine_type_keeps_inner_whitespace :
  classifier_as_stated default_config (Some [0x41; 0x09; 0x42]) = MULTI_CHOICE
  /\ determine_type default_config (Some [0x41; 0x09; 0x42]) = FILL_BLANK
  /\ determine_type default_config (Some [0x41; 0x09; 0x42])
     <> classifier_as_stated default_config (Some [0x41; 0x09; 0x42]).
Proof. repeat split. discriminate. Qed.

(** ** Option Counter *)

Lemma count_fold_filter {A} (p : A -> bool) (l : list A) (n : nat) :
  fold_left (fun count x => if p x then S count else count) l n
  = (n + List.length (filter p l))%nat.
Proof.
  revert n. induction l as [|x l IH]; intros n; simpl; [lia|].
  rewrite IH. destruct (p x); simpl; lia.
Qed.

Lemma option_marked_nil (opt : str) : option_marked [] opt = false.
Proof.
  unfold option_marked.
  rewrite !contains_nil; [reflexivity| | |]; now destruct opt.
Qed.

Lemma count_options_filter (cfg : Config) (choices : str) :
  count_options cfg choices
  = List.length (filter (option_marked (upper choices)) (options cfg)).
Proof.
  unfold count_options. destruct choices as [|c choices].
  - symmetry. cbn [upper flat_map].
    induction (options cfg) as [|o l IH]; [reflexivity|].
    cbn [filter]. now rewrite option_marked_nil.
  - now rewrite count_fold_filter.
Qed.

Lemma option_marked_lines (lines : list str) (opt : str) :
  ~ In NEWLINE opt ->
  option_marked (upper (join [NEWLINE] lines)) opt
  = existsb (fun l => option_marked (upper l) opt) lines.
Proof.
  intros Hopt. unfold option_marked.
  rewrite upper_join_newline.
  assert (Hpat : forall c, c <> NEWLINE ->
             ~ In NEWLINE (opt ++ [c]) /\ opt ++ [c] <> []).
  { intros c Hc. split; [|now destruct opt].
    rewrite in_app_iff. intros [H|[H|[]]]; [contradiction | congruence]. }
  rewrite !contains_join_newline;
    try (apply Hpat; discriminate).
  rewrite !existsb_orb.
  rewrite !existsb_map_compose. reflexivity.
Qed.

(** C7.  The count is the number of alphabet letters [l] such that the
    upper-cased text contains [l.], [l．] or [l] followed by a space; it is 0
    for the empty text, never exceeds the size of the alphabet, and is the
    same for two lists of option lines with the same members, whatever
    their order and multiplicity. *)
Theorem count_options_spec (cfg : Config) :
  (forall choices : str,
      count_options cfg choices
      = List.length
          (filter (fun l => contains (upper choices) (l ++ [FULL_STOP])
                            || contains (upper choices) (l ++ [FULLWIDTH_FULL_STOP])
                            || contains (upper choices) (l ++ [SPACE]))
                  (options cfg)))
  /\ count_options cfg [] = 0%nat
  /\ (forall choices : str,
         (count_options cfg choices <= List.length (options cfg))%nat)
  /\ ((forall opt, In opt (options cfg) -> ~ In NEWLINE opt) ->
      forall lines1 lines2 : list str,
        (forall l, In l lines1 <-> In l lines2) ->
        count_options cfg (join [NEWLINE] lines1)
        = count_options cfg (join [NEWLINE] lines2)).
Proof.
  split; [|split; [|split]].
  - intros choices. apply count_options_filter.
  - reflexivity.
  - intros choices. rewrite count_options_filter. apply filter_length_le.
  - intros Hopt lines1 lines2 Hsame.
    rewrite !count_options_filter. f_equal.
    apply filter_ext_in. intros opt Hin.
    rewrite !option_marked_lines by now apply Hopt.
    now apply existsb_same_elements.
Qed.

Lemma count_options_spec_witness :
  count_options default_config (join [NEWLINE] [py "A.x"; py "B.y"])
  = count_options default_config (join [NEWLINE] [py "B.y"; py "A.x"; py "A.x"]).
Proof.
  apply (proj2 (proj2 (proj2 (count_options_spec default_config)))).
  - intros opt Hin Hnl. simpl in Hin.
    repeat (destruct Hin as [<-|Hin]; [simpl in Hnl; intuition discriminate|]).
    contradiction.
  - intros l. simpl. tauto.
Defined.

(** The example of the specification, on one line of text. *)
Lemma count_options_example :
  count_options default_config (py "A.x B.y") = 2%nat
  /\ count_options default_config (py "B.y A.x A.x") = 2%nat.
Proof. split; reflexivity. Qed.

(** ** Document Segmenter: one step, by line kind *)

Ltac step_cases cfg p :=
  unfold classify_line, process_paragraph;
  destruct (strip (text p)) as [|? ?]; [|
  destruct (is_question_start cfg _); [|
  destruct (is_option_start cfg _); [|
  destruct (has_tag cfg _ answer); [|
  destruct (has_tag cfg _ difficulty); [|
  destruct (has_tag cfg _ knowledge); [|
  destruct (has_tag cfg _ explanation) ]]]]]].

Ltac tag_cases cfg st :=
  repeat match goal with
    | |- context [get_tag_content cfg ?t ?k] =>
        destruct (get_tag_content cfg t k) as [[|? ?]|]
    | |- context [determine_difficulty cfg ?v] =>
        destruct (determine_difficulty cfg v)
    end;
  let Hq := fresh "Hq" in
  destruct (current_question st) eqn:Hq; cbn; rewrite ?Hq.

Lemma collecting_title_step (cfg : Config) (st : State) (p : Paragraph) :
  collecting_title (process_paragraph cfg st p) =
    match classify_line cfg p with
    | QuestionStart => true
    | OptionStart => false
    | _ => collecting_title st
    end.
Proof.
  step_cases cfg p; try reflexivity; try (tag_cases cfg st; reflexivity).
  destruct (collecting_title st) eqn:Hflag; cbn; try reflexivity; congruence.
Qed.

Lemma current_title_lines_step (cfg : Config) (st : State) (p : Paragraph) :
  current_title_lines (process_paragraph cfg st p) =
    match classify_line cfg p with
    | QuestionStart => [strip (text p)]
    | Content =>
        if collecting_title st
        then current_title_lines st ++ [strip (text p)]
        else current_title_lines st
    | _ => current_title_lines st
    end.
Proof.
  step_cases cfg p; try reflexivity; try (tag_cases cfg st; reflexivity).
  destruct (collecting_title st) eqn:Hflag; cbn; try reflexivity; congruence.
Qed.

Lemma current_has_image_step (cfg : Config) (st : State) (p : Paragraph) :
  current_has_image (process_paragraph cfg st p) =
    match classify_line cfg p with
    | QuestionStart => fst (has_image p)
    | Content =>
        if collecting_title st
        then current_has_image st || fst (has_image p)
        else current_has_image st
    | _ => current_has_image st
    end.
Proof.
  step_cases cfg p; try reflexivity; try (tag_cases cfg st; reflexivity).
  destruct (collecting_title st) eqn:Hflag; [|reflexivity].
  cbn [current_has_image]. now destruct (current_has_image st).
Qed.

Lemma current_choices_step (cfg : Config) (st : State) (p : Paragraph) :
  current_choices (process_paragraph cfg st p) =
    match classify_line cfg p with
    | QuestionStart => current_choices (save_current_question cfg st)
    | OptionStart => current_choices st ++ [strip (text p)]
    | _ => current_choices st
    end.
Proof.
  step_cases cfg p; try reflexivity; try (tag_cases cfg st; reflexivity).
  destruct (collecting_title st) eqn:Hflag; cbn; try reflexivity; congruence.
Qed.

Lemma data_step (cfg : Config) (st : State) (p : Paragraph) :
  data (process_paragraph cfg st p) =
    match classify_line cfg p with
    | QuestionStart => data (save_current_question cfg st)
    | _ => data st
    end.
Proof.
  step_cases cfg p; try reflexivity; try (tag_cases cfg st; reflexivity).
  destruct (collecting_title st) eqn:Hflag; cbn; try reflexivity; congruence.
Qed.

Lemma is_open_step (cfg : Config) (st : State) (p : Paragraph) :
  is_open (process_paragraph cfg st p) =
    match classify_line cfg p with
    | QuestionStart => true
    | _ => is_open st
    end.
Proof.
  unfold is_open.
  step_cases cfg p; try reflexivity; try (tag_cases cfg st; reflexivity).
  destruct (collecting_title st) eqn:Hflag; cbn; try reflexivity; congruence.
Qed.

Lemma is_start_false (cfg : Config) (p : Paragraph) :
  is_start cfg p = false -> classify_line cfg p <> QuestionStart.
Proof. unfold is_start. intros H Hk. now rewrite Hk in H. Qed.

Lemma save_closed (cfg : Config) (st : State) :
  is_open st = false -> save_current_question cfg st = st.
Proof.
  unfold is_open, save_current_question.
  destruct (current_question st); [discriminate | reflexivity].
Qed.

(** ** Title collection (C3) *)

Lemma title_collection_off (cfg : Config) (rest : list Paragraph) (st : State) :
  Forall (fun q => is_start cfg q = false) rest ->
  collecting_title st = false ->
  collecting_title (fold_left (process_paragraph cfg) rest st) = false
  /\ current_title_lines (fold_left (process_paragraph cfg) rest st)
     = current_title_lines st.
Proof.
  intros Hrest. revert st.
  induction Hrest as [|q rest Hq _ IH]; intros st Hoff; [now split|].
  cbn [fold_left].
  assert (Hc : collecting_title (process_paragraph cfg st q) = false).
  { rewrite collecting_title_step.
    apply is_start_false in Hq. now destruct (classify_line cfg q). }
  destruct (IH _ Hc) as [H1 H2]. split; [assumption|].
  rewrite H2, current_title_lines_step, Hoff.
  apply is_start_false in Hq. now destruct (classify_line cfg q).
Qed.

(** C3, as amended.  An option line turns the title-collection flag off,
    and the flag stays off until the next question-start line, so that no
    later line of the block is appended to its title lines; a tag line
    (answer, difficulty, knowledge or explanation) leaves the flag as it
    is. *)
Theorem title_collection_ends_at_option (cfg : Config) (st : State) (p : Paragraph) :
  (classify_line cfg p = OptionStart ->
   collecting_title (process_paragraph cfg st p) = false)
  /\ (is_tag_kind (classify_line cfg p) = true ->
      collecting_title (process_paragraph cfg st p) = collecting_title st)
  /\ (classify_line cfg p = OptionStart ->
      forall rest : list Paragraph,
        Forall (fun q => is_start cfg q = false) rest ->
        let st' := fold_left (process_paragraph cfg) rest (process_paragraph cfg st p) in
        collecting_title st' = false
        /\ current_title_lines st' = current_title_lines st).
Proof.
  split; [|split].
  - intros Hk. now rewrite collecting_title_step, Hk.
  - intros Hk. rewrite collecting_title_step.
    now destruct (classify_line cfg p).
  - intros Hk rest Hrest st'.
    assert (Hc : collecting_title (process_paragraph cfg st p) = false)
      by now rewrite collecting_title_step, Hk.
    destruct (title_collection_off cfg rest _ Hrest Hc) as [H1 H2].
    split; [assumption|].
    unfold st'. now rewrite H2, current_title_lines_step, Hk.
Qed.

Lemma title_collection_ends_at_option_witness :
  let st := process_paragraph default_config initial_state (plain "1.Q") in
  let st' := fold_left (process_paragraph default_config)
               [plain "【答案】A"; plain "more"]
               (process_paragraph default_config st (plain "A.foo")) in
  collecting_title st' = false /\ current_title_lines st' = [py "1.Q"].
Proof.
  intros st.
  apply (proj2 (proj2 (title_collection_ends_at_option default_config st (plain "A.foo")))).
  - reflexivity.
  - repeat constructor.
Defined.

(** C3, as the claim states it: after the tag line [【答案】A] the flag is
    still on, and the content line that follows is appended to the title. *)
Lemma tag_line_keeps_title_collection :
  let st := fold_left (process_paragraph default_config)
              [plain "1.Q"; plain "【答案】A"] initial_state in
  classify_line default_config (plain "【答案】A") = AnswerTag
  /\ classify_line default_config (plain "more") = Content
  /\ collecting_title st = true
  /\ current_title_lines (process_paragraph default_config st (plain "more"))
     = [py "1.Q"; py "more"]
  /\ title_list (process_document default_config
                   [plain "1.Q"; plain "【答案】A"; plain "more"])
     = [py "Q more"].
Proof. vm_compute. repeat split. Qed.

(** ** Image flag (C8) *)

Lemma has_image_sticky (cfg : Config) (rest : list Paragraph) (st : State) :
  Forall (fun q => is_start cfg q = false) rest ->
  current_has_image st = true ->
  current_has_image (fold_left (process_paragraph cfg) rest st) = true.
Proof.
  intros Hrest. revert st.
  induction Hrest as [|q rest Hq _ IH]; intros st Himg; [assumption|].
  cbn [fold_left]. apply IH.
  rewrite current_has_image_step, Himg.
  apply is_start_false in Hq.
  destruct (classify_line cfg q); try reflexivity; try contradiction.
  destruct (collecting_title st) eqn:Hflag; cbn; try reflexivity; congruence.
Qed.

Lemma has_image_block (cfg : Config) (rest : list Paragraph) (st : State) :
  Forall (fun q => is_start cfg q = false) rest ->
  current_has_image (fold_left (process_paragraph cfg) rest st) =
    if collecting_title st
    then current_has_image st
         || existsb (fun q => fst (has_image q)) (title_paragraphs cfg rest)
    else current_has_image st.
Proof.
  intros Hrest. revert st.
  induction Hrest as [|q rest Hq _ IH]; intros st.
  - cbn. destruct (collecting_title st); [|reflexivity].
    now rewrite orb_false_r.
  - cbn [fold_left title_paragraphs]. rewrite IH.
    rewrite collecting_title_step, current_has_image_step.
    apply is_start_false in Hq.
    destruct (classify_line cfg q); try contradiction;
      destruct (collecting_title st); try reflexivity.
    + cbn [existsb]. now rewrite orb_false_r.
    + cbn [existsb]. now rewrite orb_assoc.
Qed.

Lemma block_keeps_data (cfg : Config) (rest : list Paragraph) (st : State) :
  Forall (fun q => is_start cfg q = false) rest ->
  data (fold_left (process_paragraph cfg) rest st) = data st
  /\ is_open (fold_left (process_paragraph cfg) rest st) = is_open st.
Proof.
  intros Hrest. revert st.
  induction Hrest as [|q rest Hq _ IH]; intros st; [now split|].
  cbn [fold_left]. destruct (IH (process_paragraph cfg st q)) as [H1 H2].
  rewrite H1, H2, data_step, is_open_step.
  apply is_start_false in Hq.
  now destruct (classify_line cfg q).
Qed.

Lemma has_image_list_save (cfg : Config) (st : State) :
  is_open st = true ->
  has_image_list (data (save_current_question cfg st))
  = has_image_list (data st) ++ [current_has_image st].
Proof.
  unfold is_open, save_current_question.
  destruct (current_question st); [reflexivity | discriminate].
Qed.

(** C8, as amended.  For a block opened by the question-start paragraph
    [s] and continued by the paragraphs [rest], the image flag of the
    finalized record is true exactly when [s] or one of the content
    paragraphs appended to the title is media-flagged; once true the flag
    stays true until the block is finalized. *)
Theorem has_image_spec (cfg : Config) (st : State) (s : Paragraph)
    (rest : list Paragraph) :
  classify_line cfg s = QuestionStart ->
  Forall (fun q => is_start cfg q = false) rest ->
  let st' := fold_left (process_paragraph cfg) rest (process_paragraph cfg st s) in
  let flag := fst (has_image s)
              || existsb (fun q => fst (has_image q)) (title_paragraphs cfg rest) in
  current_has_image st' = flag
  /\ has_image_list (data (save_current_question cfg st'))
     = has_image_list (data (save_current_question cfg st)) ++ [flag]
  /\ (forall more : list Paragraph,
         Forall (fun q => is_start cfg q = false) more ->
         current_has_image st' = true ->
         current_has_image (fold_left (process_paragraph cfg) more st') = true).
Proof.
  intros Hs Hrest st' flag.
  assert (Hflag : current_has_image st' = flag).
  { unfold st'. rewrite has_image_block by assumption.
    now rewrite collecting_title_step, current_has_image_step, Hs. }
  split; [assumption|]. split.
  - destruct (block_keeps_data cfg rest (process_paragraph cfg st s) Hrest)
      as [Hd Ho].
    rewrite has_image_list_save.
    + fold st' in Hd. now rewrite Hd, data_step, Hs, Hflag.
    + fold st' in Ho. now rewrite Ho, is_open_step, Hs.
  - intros more Hmore Himg. now apply has_image_sticky.
Qed.

Lemma has_image_spec_witness :
  has_image_list
    (process_document default_config
       [plain "1.Q"; pictured "more"; plain "A.foo"])
  = [true].
Proof.
  assert (Hrest : Forall (fun q => is_start default_config q = false)
                    [pictured "more"; plain "A.foo"])
    by (repeat constructor).
  exact (proj1 (proj2 (has_image_spec default_config initial_state
                         (plain "1.Q") _ eq_refl Hrest))).
Defined.

(** C8, as the claim states it: the option paragraph and the tag paragraph
    of the block carry a picture, and the record's flag is false. *)
Lemma picture_in_option_line_not_flagged :
  let doc := [plain "1.Q"; pictured "A.foo"; pictured "【答案】A"] in
  existsb (fun q => fst (has_image q)) doc = true
  /\ choice_list (process_document default_config doc) = [py "A.foo"]
  /\ answer_list (process_document default_config doc) = [py "A"]
  /\ has_image_list (process_document default_config doc) = [false].
Proof. vm_compute. repeat split. Qed.

(** ** Line Classifier: question starts (C1) *)

Lemma re_match_atoms_literal (sep s : str) :
  startswith s sep = true -> re_match_atoms (re_atoms sep) s <> None.
Proof.
  revert s. induction sep as [|p sep IH]; intros s H.
  - discriminate.
  - destruct s as [|c s]; [discriminate|].
    cbn [startswith] in H. apply andb_true_iff in H. destruct H as [Hc Hs].
    apply N.eqb_eq in Hc. subst p.
    cbn [re_atoms map re_match_atoms].
    assert (Hm : re_atom_match (re_atom_of_char c) c = true).
    { unfold re_atom_of_char.
      destruct (N.eqb_spec c FULL_STOP) as [->|]; [reflexivity|].
      apply N.eqb_refl. }
    rewrite Hm. now apply IH.
Qed.

Lemma re_digits_then_literal (seps : list str) (s : str) :
  digits_then_literal seps s = true ->
  exists sep, In sep seps /\ re_match_number sep s <> None.
Proof.
  unfold re_match_number.
  induction s as [|c s IH]; [discriminate|].
  cbn [digits_then_literal re_digits_then].
  intros H. apply andb_true_iff in H. destruct H as [Hd H]. rewrite Hd.
  destruct (digits_then_literal seps s).
  - destruct (IH eq_refl) as [sep [Hin Hm]]. exists sep. split; [assumption|].
    destruct (re_digits_then _ s); [discriminate | contradiction].
  - rewrite orb_false_r in H. apply existsb_exists in H.
    destruct H as [sep [Hin Hs]]. exists sep. split; [assumption|].
    destruct (re_digits_then _ s); [discriminate|].
    now apply re_match_atoms_literal.
Qed.

(** With plain separators, every line that starts with digits and a literal
    separator is accepted as a question start. *)
Lemma literal_start_is_question_start (cfg : Config) (text : str) :
  plain_separators cfg = true ->
  digits_then_literal (separators cfg) (strip text) = true ->
  is_question_start cfg text = true.
Proof.
  intros _ H. apply re_digits_then_literal in H. destruct H as [sep [Hin Hm]].
  unfold is_question_start. apply existsb_exists. exists sep.
  split; [assumption|].
  destruct (re_match_number sep (strip text)); [reflexivity | contradiction].
Qed.

(** C1.  The separator [.] is spliced into the pattern unescaped: lines
    whose digits are followed by a letter, a digit or an ideograph are
    accepted as question starts, although no separator follows the digits. *)
Theorem is_question_start_unescaped_dot :
  is_question_start default_config (py "1a") = true
  /\ digits_then_literal (separators default_config) (py "1a") = false
  /\ is_question_start default_config (py "12") = true
  /\ digits_then_literal (separators default_config) (py "12") = false
  /\ is_question_start default_config (py "2024年12月24日") = true
  /\ digits_then_literal (separators default_config) (py "2024年12月24日") = false
  /\ title_list (process_document default_config [plain "2024年12月24日"])
     = [py "12月24日"].
Proof. vm_compute. repeat split. Qed.

(** ** Paragraphs before the first question (C2) *)

Lemma choices_accumulate (cfg : Config) (paragraphs : list Paragraph) (st : State) :
  Forall (fun q => is_start cfg q = false) paragraphs ->
  current_choices (fold_left (process_paragraph cfg) paragraphs st)
  = current_choices st ++ option_lines cfg paragraphs.
Proof.
  intros H. revert st. unfold option_lines.
  induction H as [|q qs Hq _ IH]; intros st.
  - cbn. now rewrite app_nil_r.
  - cbn [fold_left filter]. rewrite IH, current_choices_step.
    apply is_start_false in Hq.
    destruct (classify_line cfg q); try contradiction; try reflexivity.
    cbn [map]. now rewrite <- app_assoc.
Qed.

Lemma choice_list_save (cfg : Config) (st : State) :
  is_open st = true ->
  choice_list (data (save_current_question cfg st))
  = choice_list (data st) ++ [join [NEWLINE] (current_choices st)].
Proof.
  unfold is_open, save_current_question.
  destruct (current_question st); [reflexivity | discriminate].
Qed.

(** The options of the only record of a one-question document are all
    its option lines, those before the question-start line included. *)
Lemma first_record_choices (cfg : Config) (before rest : list Paragraph)
    (s : Paragraph) :
  Forall (fun q => is_start cfg q = false) before ->
  classify_line cfg s = QuestionStart ->
  Forall (fun q => is_start cfg q = false) rest ->
  choice_list (process_document cfg (before ++ s :: rest))
  = [join [NEWLINE] (option_lines cfg before ++ option_lines cfg rest)].
Proof.
  intros Hbefore Hs Hrest. unfold process_document, run_document.
  rewrite fold_left_app. cbn [fold_left].
  set (st0 := fold_left (process_paragraph cfg) before initial_state).
  destruct (block_keeps_data cfg before initial_state Hbefore) as [Hd0 Ho0].
  fold st0 in Hd0, Ho0.
  pose proof (choices_accumulate cfg before initial_state Hbefore) as Hc0.
  fold st0 in Hc0. cbn [current_choices initial_state app] in Hc0.
  set (st1 := process_paragraph cfg st0 s).
  assert (Hc1 : current_choices st1 = option_lines cfg before).
  { unfold st1. rewrite current_choices_step, Hs.
    now rewrite save_closed by (rewrite Ho0; reflexivity). }
  assert (Hd1 : data st1 = data initial_state).
  { unfold st1. rewrite data_step, Hs.
    now rewrite save_closed by (rewrite Ho0; reflexivity). }
  assert (Ho1 : is_open st1 = true)
    by (unfold st1; now rewrite is_open_step, Hs).
  destruct (block_keeps_data cfg rest st1 Hrest) as [Hd2 Ho2].
  rewrite choice_list_save by now rewrite Ho2.
  rewrite Hd2, Hd1, (choices_accumulate cfg rest st1 Hrest), Hc1.
  reflexivity.
Qed.

(** C2.  An option line read before the first question-start line is kept
    in the list of choices and ends up in the first record. *)
Theorem option_before_first_question_leaks :
  let with_stray := [plain "A.foo"; plain "1.Q"; plain "B.bar"] in
  let without := [plain "1.Q"; plain "B.bar"] in
  choice_list (process_document default_config with_stray)
  = [py "A.foo" ++ [NEWLINE] ++ py "B.bar"]
  /\ option_count_list (process_document default_config with_stray) = [2%nat]
  /\ choice_list (process_document default_config without) = [py "B.bar"]
  /\ option_count_list (process_document default_config without) = [1%nat].
Proof. vm_compute. repeat split. Qed.

(** ** The example document (C9) *)

Lemma process_blank (cfg : Config) (st : State) (p : Paragraph) :
  nonblank p = false -> process_paragraph cfg st p = st.
Proof.
  unfold nonblank, process_paragraph.
  destruct (strip (text p)); [reflexivity | discriminate].
Qed.

Lemma fold_skips_blank (cfg : Config) (ps : list Paragraph) (st : State) :
  fold_left (process_paragraph cfg) ps st
  = fold_left (process_paragraph cfg) (filter nonblank ps) st.
Proof.
  revert st. induction ps as [|p ps IH]; intros st; [reflexivity|].
  cbn [fold_left filter]. destruct (nonblank p) eqn:Hp.
  - cbn [fold_left]. apply IH.
  - rewrite process_blank by assumption. apply IH.
Qed.

(** A step reads a paragraph through its trimmed text and the outcome of
    [has_image] only. *)
Lemma process_paragraph_ext (cfg : Config) (st : State) (p q : Paragraph) :
  strip (text p) = strip (text q) -> has_image p = has_image q ->
  process_paragraph cfg st p = process_paragraph cfg st q.
Proof.
  intros Ht Hi. unfold process_paragraph. rewrite Ht, Hi. reflexivity.
Qed.

Lemma has_image_paragraph_of (t : str) (p : Paragraph) :
  has_image (paragraph_of t (runs p)) = has_image p.
Proof. reflexivity. Qed.

(** C9.  A document whose non-blank paragraphs are, after trimming,
    [1.Question text], [A.foo], [B.bar] and [【答案】A] yields exactly one
    record, with option count 2, type single choice and answer [A]. *)
Theorem example_document (paragraphs : list Paragraph) :
  map (fun p => strip (text p)) (filter nonblank paragraphs)
  = [py "1.Question text"; py "A.foo"; py "B.bar"; py "【答案】A"] ->
  let d := process_document default_config paragraphs in
  List.length (title_list d) = 1%nat
  /\ option_count_list d = [2%nat]
  /\ type_list d = [SINGLE_CHOICE]
  /\ answer_list d = [py "A"].
Proof.
  intros H d. unfold d, process_document, run_document.
  rewrite fold_skips_blank.
  destruct (filter nonblank paragraphs) as [|p1 [|p2 [|p3 [|p4 [|p5 l]]]]];
    try discriminate.
  injection H as H1 H2 H3 H4.
  cbn [fold_left].
  rewrite (process_paragraph_ext _ _ p1 (paragraph_of (py "1.Question text") (runs p1)))
    by first [now rewrite has_image_paragraph_of | now rewrite H1].
  rewrite (process_paragraph_ext _ _ p2 (paragraph_of (py "A.foo") (runs p2)))
    by first [now rewrite has_image_paragraph_of | now rewrite H2].
  rewrite (process_paragraph_ext _ _ p3 (paragraph_of (py "B.bar") (runs p3)))
    by first [now rewrite has_image_paragraph_of | now rewrite H3].
  rewrite (process_paragraph_ext _ _ p4 (paragraph_of (py "【答案】A") (runs p4)))
    by first [now rewrite has_image_paragraph_of | now rewrite H4].
  generalize (runs p1), (runs p2), (runs p3), (runs p4).
  intros r1 r2 r3 r4. vm_compute. repeat split.
Qed.

Lemma example_document_witness :
  let d := process_document default_config
             [plain "1.Question text"; plain "   "; plain "A.foo";
              plain "B.bar"; plain ""; plain "【答案】A"] in
  List.length (title_list d) = 1%nat
  /\ option_count_list d = [2%nat]
  /\ type_list d = [SINGLE_CHOICE]
  /\ answer_list d = [py "A"].
Proof.
  apply (example_document
           [plain "1.Question text"; plain "   "; plain "A.foo";
            plain "B.bar"; plain ""; plain "【答案】A"]).
  reflexivity.
Defined.

(** ** Export without records (C10) *)

Lemma no_start_no_record (cfg : Config) (paragraphs : list Paragraph) :
  Forall (fun q => is_start cfg q = false) paragraphs ->
  process_document cfg paragraphs = data initial_state.
Proof.
  intros H. unfold process_document, run_document.
  destruct (block_keeps_data cfg paragraphs initial_state H) as [Hd Ho].
  rewrite save_closed by (rewrite Ho; reflexivity).
  exact Hd.
Qed.

Lemma select_columns_nil (columns : list str) :
  columns <> [] -> select_columns [] columns = inl (KeyError columns).
Proof.
  intros Hne. unfold select_columns. cbn [frame_columns fold_left existsb negb].
  replace (filter (fun _ : str => true) columns) with columns.
  - destruct columns; [congruence | reflexivity].
  - induction columns as [|c l IH]; [reflexivity|].
    cbn [filter]. f_equal. destruct l; [reflexivity|]. apply IH. discriminate.
Qed.

(** C10.  With a non-empty column list, exporting data without records
    raises [KeyError]: the frame built from no rows has no columns.  So does
    the whole run on a document without a question-start line. *)
Theorem export_without_records (cfg : Config) :
  output_columns cfg <> [] ->
  (forall d : Data,
      title_list d = [] ->
      export_to_excel cfg d = inl (KeyError (output_columns cfg)))
  /\ (forall paragraphs : list Paragraph,
         Forall (fun q => is_start cfg q = false) paragraphs ->
         process_file cfg paragraphs = inl (KeyError (output_columns cfg))).
Proof.
  intros Hcols.
  assert (Hexp : forall d : Data,
             title_list d = [] ->
             export_to_excel cfg d = inl (KeyError (output_columns cfg))).
  { intros d Hd. unfold export_to_excel, prepare_excel_data.
    rewrite Hd. cbn [List.length seq map].
    now apply select_columns_nil. }
  split; [exact Hexp|].
  intros paragraphs H. unfold process_file.
  apply Hexp. now rewrite no_start_no_record.
Qed.

Lemma export_without_records_witness :
  export_to_excel default_config (data initial_state)
  = inl (KeyError (output_columns default_config))
  /\ process_file default_config [plain "A.foo"; plain "no question here"]
     = inl (KeyError (output_columns default_config)).
Proof.
  assert (Hcols : output_columns default_config <> []) by discriminate.
  split.
  - apply (proj1 (export_without_records default_config Hcols)). reflexivity.
  - apply (proj2 (export_without_records default_config Hcols)).
    repeat constructor.
Defined.

(** ** Grouped export (C6) *)

Lemma join_groups_snoc (sep : Row) (gs : list (list Row)) (g : list Row) :
  gs <> [] ->
  join_groups sep (gs ++ [g]) = join_groups sep gs ++ sep :: g.
Proof.
  induction gs as [|g1 gs IH]; [congruence|]. intros _.
  destruct gs as [|g2 gs]; [reflexivity|].
  change (join_groups sep ((g1 :: g2 :: gs) ++ [g]))
    with (g1 ++ sep :: join_groups sep ((g2 :: gs) ++ [g])).
  rewrite IH by discriminate.
  change (join_groups sep (g1 :: g2 :: gs))
    with (g1 ++ sep :: join_groups sep (g2 :: gs)).
  now rewrite <- app_assoc.
Qed.

Lemma join_groups_nil_iff (sep : Row) (gs : list (list Row)) :
  Forall (fun g => nonempty_group g = true) gs ->
  join_groups sep gs = [] -> gs = [].
Proof.
  intros Hne H. destruct gs as [|g gs]; [reflexivity|].
  inversion Hne as [|? ? Hg _]; subst.
  destruct g as [|r g]; [discriminate|].
  destruct gs; discriminate.
Qed.

Lemma group_loop (cfg : Config) (excel_data : list Row) (types : list str)
    (gs : list (list Row)) :
  Forall (fun g => nonempty_group g = true) gs ->
  fold_left (add_group cfg excel_data) types (join_groups (empty_row cfg) gs)
  = join_groups (empty_row cfg) (gs ++ groups_in types excel_data).
Proof.
  revert gs. induction types as [|t types IH]; intros gs Hgs.
  - cbn. now rewrite app_nil_r.
  - cbn [fold_left]. unfold groups_in. cbn [map filter].
    fold (groups_in types excel_data).
    unfold add_group at 2.
    destruct (filter (has_type t) excel_data) as [|r tq] eqn:Hf.
    + cbn [nonempty_group]. now apply IH.
    + cbn [nonempty_group].
      replace (gs ++ (r :: tq) :: groups_in types excel_data)
        with ((gs ++ [r :: tq]) ++ groups_in types excel_data)
        by now rewrite <- app_assoc.
      rewrite <- IH.
      * f_equal.
        destruct (join_groups (empty_row cfg) gs) as [|x acc] eqn:Hacc.
        -- apply join_groups_nil_iff in Hacc; [|assumption]. now subst gs.
        -- rewrite join_groups_snoc; [now rewrite Hacc|].
           intros ->. discriminate.
      * apply Forall_app. split; [assumption|]. now constructor.
Qed.

(** The loop over [type_order] joins the non-empty groups with single
    separator rows. *)
Lemma group_by_type_join (cfg : Config) (excel_data : list Row) :
  group_by_type cfg excel_data
  = join_groups (empty_row cfg) (type_groups excel_data).
Proof.
  unfold group_by_type, type_groups.
  exact (group_loop cfg excel_data type_order [] (Forall_nil _)).
Qed.

Lemma is_separator_dict_set (key : str) (v : value) (d : Row) :
  is_blank_value v = true -> is_separator d = true ->
  is_separator (dict_set key v d) = true.
Proof.
  intros Hv. unfold is_separator.
  induction d as [|[k w] d IH]; intros Hd.
  - cbn. now rewrite Hv.
  - cbn [forallb fst snd] in Hd. apply andb_true_iff in Hd. destruct Hd as [Hw Hd].
    cbn [dict_set]. destruct (str_eqb k key); cbn [forallb snd].
    + now rewrite Hv, Hd.
    + now rewrite Hw, IH.
Qed.

Lemma empty_row_is_separator (cfg : Config) : is_separator (empty_row cfg) = true.
Proof.
  unfold empty_row. apply is_separator_dict_set; [reflexivity|].
  assert (H : forall (cols : list str) (d : Row),
             is_separator d = true ->
             is_separator (fold_left (fun d key => dict_set key (VStr []) d) cols d) = true).
  { induction cols as [|c cols IH]; intros d Hd; [assumption|].
    cbn [fold_left]. apply IH. now apply is_separator_dict_set. }
  now apply H.
Qed.

Lemma dict_get_In (key : str) (d : Row) (v : value) :
  dict_get key d = Some v -> exists k, In (k, v) d.
Proof.
  induction d as [|[k w] d IH]; [discriminate|].
  cbn [dict_get]. destruct (str_eqb k key).
  - intros [= ->]. exists k. now left.
  - intros H. destruct (IH H) as [k' Hk']. exists k'. now right.
Qed.

Lemma has_type_eq (t : str) (r : Row) :
  has_type t r = true -> dict_get KEY_TYPE r = Some (VStr t).
Proof.
  unfold has_type. destruct (dict_get KEY_TYPE r) as [[s|n|b]|]; try discriminate.
  intros H. apply str_eqb_eq in H. now subst.
Qed.

Lemma typed_row_not_separator (t : str) (r : Row) :
  t <> [] -> has_type t r = true -> is_separator r = false.
Proof.
  intros Ht H. apply has_type_eq in H. apply dict_get_In in H.
  destruct H as [k Hin].
  destruct (is_separator r) eqn:Hs; [|reflexivity].
  unfold is_separator in Hs. rewrite forallb_forall in Hs.
  specialize (Hs _ Hin). cbn in Hs. destruct t; [congruence | discriminate].
Qed.

Lemma type_order_nonempty : Forall (fun t : str => t <> []) type_order.
Proof. repeat constructor; discriminate. Qed.

Lemma type_order_NoDup : NoDup type_order.
Proof.
  repeat constructor; cbn; intuition discriminate.
Qed.

Lemma groups_in_plain (types : list str) (excel_data : list Row) :
  Forall (fun t : str => t <> []) types ->
  Forall plain_group (groups_in types excel_data).
Proof.
  intros Ht. unfold groups_in. apply Forall_forall. intros g Hg.
  apply filter_In in Hg. destruct Hg as [Hin Hne]. split; [assumption|].
  apply in_map_iff in Hin. destruct Hin as [t [<- Hin]].
  rewrite Forall_forall in Ht. specialize (Ht t Hin).
  apply Forall_forall. intros r Hr. apply filter_In in Hr.
  now apply (typed_row_not_separator t).
Qed.

Section Joined.
Variable sep : Row.
Hypothesis sep_is_separator : is_separator sep = true.

Lemma count_separators_plain (g : list Row) :
  Forall (fun r => is_separator r = false) g -> filter is_separator g = [].
Proof.
  induction 1 as [|r g Hr _ IH]; [reflexivity|].
  cbn [filter]. now rewrite Hr.
Qed.

Lemma count_separators_join (gs : list (list Row)) :
  Forall plain_group gs ->
  count_separators (join_groups sep gs) = pred (List.length gs).
Proof.
  unfold count_separators.
  induction 1 as [|g gs [_ Hg] Hgs IH]; [reflexivity|].
  destruct gs as [|g2 gs].
  - cbn [join_groups]. now rewrite count_separators_plain.
  - change (join_groups sep (g :: g2 :: gs))
      with (g ++ sep :: join_groups sep (g2 :: gs)).
    rewrite filter_app, count_separators_plain by assumption.
    cbn [app filter]. rewrite sep_is_separator.
    cbn [List.length]. rewrite IH. reflexivity.
Qed.

Lemma no_adjacent_plain_prefix (g l : list Row) :
  Forall (fun r => is_separator r = false) g ->
  no_adjacent_separators (g ++ l) = no_adjacent_separators l.
Proof.
  induction 1 as [|r g Hr _ IH]; [reflexivity|].
  cbn [app no_adjacent_separators]. rewrite Hr. cbn [andb negb].
  rewrite IH. destruct (g ++ l) eqn:E; [|reflexivity].
  apply app_eq_nil in E. destruct E as [_ ->]. reflexivity.
Qed.

Lemma join_head_plain (gs : list (list Row)) :
  Forall plain_group gs ->
  match join_groups sep gs with
  | [] => gs = []
  | r :: _ => is_separator r = false
  end.
Proof.
  intros H. destruct H as [|g gs [Hne Hg] Hgs]; [reflexivity|].
  destruct g as [|r g]; [discriminate|].
  inversion Hg; subst. now destruct gs.
Qed.

Lemma no_adjacent_join (gs : list (list Row)) :
  Forall plain_group gs ->
  no_adjacent_separators (join_groups sep gs) = true.
Proof.
  induction 1 as [|g gs [Hne Hg] Hgs IH]; [reflexivity|].
  destruct gs as [|g2 gs].
  - cbn [join_groups].
    rewrite <- (app_nil_r g). now rewrite no_adjacent_plain_prefix.
  - change (join_groups sep (g :: g2 :: gs))
      with (g ++ sep :: join_groups sep (g2 :: gs)).
    rewrite no_adjacent_plain_prefix by assumption.
    pose proof (join_head_plain _ Hgs) as Hhead.
    destruct (join_groups sep (g2 :: gs)) as [|r rest]; [discriminate|].
    change (no_adjacent_separators (sep :: r :: rest))
      with (negb (is_separator sep && is_separator r)
            && no_adjacent_separators (r :: rest)).
    rewrite Hhead, andb_false_r. exact IH.
Qed.

Lemma last_app_cons {A} (l l' : list A) (x d : A) :
  last (l ++ x :: l') d = last (x :: l') d.
Proof.
  induction l as [|y l IH]; [reflexivity|].
  cbn [app]. rewrite <- IH. cbn [last].
  destruct (l ++ x :: l') eqn:E; [|reflexivity].
  destruct l; discriminate.
Qed.

Lemma last_plain (g : list Row) (d : Row) :
  g <> [] -> Forall (fun r => is_separator r = false) g ->
  is_separator (last g d) = false.
Proof.
  intros Hne Hg. rewrite Forall_forall in Hg. apply Hg.
  destruct g as [|r g]; [congruence|].
  clear. revert r. induction g as [|r' g IH]; intros r; [now left|].
  right. apply IH.
Qed.

Lemma join_last_plain (gs : list (list Row)) (d : Row) :
  Forall plain_group gs -> gs <> [] ->
  is_separator (last (join_groups sep gs) d) = false.
Proof.
  induction 1 as [|g gs [Hne Hg] Hgs IH]; [congruence|]. intros _.
  destruct gs as [|g2 gs].
  - cbn [join_groups]. apply last_plain; [|assumption].
    intros ->. discriminate.
  - change (join_groups sep (g :: g2 :: gs))
      with (g ++ sep :: join_groups sep (g2 :: gs)).
    rewrite last_app_cons.
    pose proof (join_head_plain _ Hgs) as Hhead.
    destruct (join_groups sep (g2 :: gs)) as [|r rest] eqn:E; [discriminate|].
    change (last (sep :: r :: rest) d) with (last (r :: rest) d).
    apply IH. discriminate.
Qed.

Lemma separator_free_ends_join (gs : list (list Row)) :
  Forall plain_group gs ->
  separator_free_ends (join_groups sep gs) = true.
Proof.
  intros H. unfold separator_free_ends.
  pose proof (join_head_plain _ H) as Hhead.
  destruct (join_groups sep gs) as [|r rest] eqn:E; [reflexivity|].
  rewrite Hhead. cbn [negb andb]. rewrite <- E.
  rewrite join_last_plain; [reflexivity | assumption |].
  intros ->. discriminate.
Qed.

Lemma rows_of_join (gs : list (list Row)) :
  Forall plain_group gs ->
  filter (fun r => negb (is_separator r)) (join_groups sep gs) = List.concat gs.
Proof.
  assert (Hplain : forall g, Forall (fun r => is_separator r = false) g ->
                             filter (fun r => negb (is_separator r)) g = g).
  { induction 1 as [|r g Hr _ IH]; [reflexivity|].
    cbn [filter]. now rewrite Hr, IH. }
  induction 1 as [|g gs [Hne Hg] Hgs IH]; [reflexivity|].
  destruct gs as [|g2 gs].
  - cbn [join_groups List.concat]. rewrite app_nil_r. now apply Hplain.
  - change (join_groups sep (g :: g2 :: gs))
      with (g ++ sep :: join_groups sep (g2 :: gs)).
    rewrite filter_app, Hplain by assumption.
    cbn [filter]. rewrite sep_is_separator. cbn [negb].
    rewrite IH. reflexivity.
Qed.
End Joined.

Lemma filter_disjoint_perm {A} (p q : A -> bool) (l : list A) :
  (forall x, In x l -> p x = true -> q x = true -> False) ->
  Permutation (filter p l ++ filter q l) (filter (fun x => p x || q x) l).
Proof.
  induction l as [|x l IH]; intros Hd; [constructor|].
  assert (Hd' : forall y, In y l -> p y = true -> q y = true -> False)
    by (intros y Hy; apply Hd; now right).
  specialize (IH Hd'). cbn [filter].
  destruct (p x) eqn:Hp, (q x) eqn:Hq; cbn [orb app].
  - exfalso. apply (Hd x); [now left | assumption..].
  - now constructor.
  - apply Permutation_sym, Permutation_cons_app, Permutation_sym. exact IH.
  - exact IH.
Qed.

Lemma concat_nonempty_groups (ls : list (list Row)) :
  List.concat (filter nonempty_group ls) = List.concat ls.
Proof.
  induction ls as [|g ls IH]; [reflexivity|].
  cbn [filter List.concat]. destruct g; cbn [nonempty_group List.concat app]; now rewrite IH.
Qed.

Lemma partition_by_type (types : list str) (excel_data : list Row) :
  NoDup types ->
  Permutation (List.concat (groups_in types excel_data))
              (filter (fun r => existsb (fun t => has_type t r) types) excel_data).
Proof.
  unfold groups_in. rewrite concat_nonempty_groups.
  induction 1 as [|t types Hnin Hnd IH].
  - cbn. induction excel_data; [constructor | assumption].
  - cbn [map List.concat existsb].
    etransitivity; [apply Permutation_app_head, IH|].
    apply filter_disjoint_perm.
    intros r _ Ht Hex. apply existsb_exists in Hex.
    destruct Hex as [t' [Hin Ht']].
    apply has_type_eq in Ht, Ht'. rewrite Ht in Ht'.
    injection Ht' as ->. contradiction.
Qed.

(** C6.  The grouped rows are the non-empty groups by type, in the fixed
    order, each group in the original order of its rows, joined with
    exactly one blank separator row between neighbouring groups: there is
    one separator fewer than groups, no two separators are adjacent, none
    stands first or last, and the rows other than separators are the input
    rows that carry one of the five types. *)
Theorem grouped_export_spec (cfg : Config) (excel_data : list Row) :
  let grouped := group_by_type cfg excel_data in
  let groups :=
    filter nonempty_group
           (map (fun t => filter (has_type t) excel_data)
                [SINGLE_CHOICE; MULTI_CHOICE; JUDGMENT; FILL_BLANK; UNKNOWN_TYPE]) in
  grouped = join_groups (empty_row cfg) groups
  /\ is_separator (empty_row cfg) = true
  /\ Forall (Forall (fun r => is_separator r = false)) groups
  /\ count_separators grouped = pred (List.length groups)
  /\ no_adjacent_separators grouped = true
  /\ separator_free_ends grouped = true
  /\ ((forall r, In r excel_data ->
                 existsb (fun t => has_type t r) type_order = true) ->
      Permutation (filter (fun r => negb (is_separator r)) grouped) excel_data).
Proof.
  intros grouped groups.
  assert (Hjoin : grouped = join_groups (empty_row cfg) groups)
    by apply group_by_type_join.
  pose proof (empty_row_is_separator cfg) as Hsep.
  assert (Hplain : Forall plain_group groups)
    by exact (groups_in_plain type_order excel_data type_order_nonempty).
  split; [exact Hjoin|]. split; [exact Hsep|]. split.
  { eapply Forall_impl; [|exact Hplain]. now intros g [_ Hg]. }
  rewrite Hjoin. split; [now apply count_separators_join|].
  split; [now apply no_adjacent_join|].
  split; [now apply separator_free_ends_join|].
  intros Htyped. rewrite rows_of_join by assumption.
  etransitivity; [exact (partition_by_type type_order excel_data type_order_NoDup)|].
  replace (filter (fun r => existsb (fun t => has_type t r) type_order) excel_data)
    with excel_data; [reflexivity|].
  clear - Htyped. induction excel_data as [|r l IH]; [reflexivity|].
  cbn [filter]. rewrite Htyped by now left.
  f_equal. apply IH. intros r' Hr'. apply Htyped. now right.
Qed.

(** *** The rows of the pipeline carry one of the five types *)

Lemma determine_type_in_order (cfg : Config) (a : option str) :
  In (determine_type cfg a) type_order.
Proof.
  unfold determine_type, type_order.
  destruct a as [[|c a]|]; cbn [In]; try tauto.
  destruct (existsb _ (judge_answers cfg)); [tauto|].
  destruct (chars_subset _ (options cfg)); [|tauto].
  destruct (_ <? _)%nat; tauto.
Qed.

Lemma typed_data_save (cfg : Config) (st : State) :
  typed_data (data st) -> typed_data (data (save_current_question cfg st)).
Proof.
  unfold save_current_question, typed_data.
  destruct (current_question st) as [q|]; [|tauto].
  cbn [data type_list title_list]. intros [Hlen Hall].
  rewrite !length_app, Hlen. split; [reflexivity|].
  apply Forall_app. split; [assumption|].
  constructor; [apply determine_type_in_order | constructor].
Qed.

Lemma typed_data_fold (cfg : Config) (paragraphs : list Paragraph) (st : State) :
  typed_data (data st) ->
  typed_data (data (fold_left (process_paragraph cfg) paragraphs st)).
Proof.
  revert st. induction paragraphs as [|p ps IH]; intros st H; [assumption|].
  cbn [fold_left]. apply IH. rewrite data_step.
  destruct (classify_line cfg p); try assumption.
  now apply typed_data_save.
Qed.

Lemma pipeline_rows_typed (cfg : Config) (paragraphs : list Paragraph) (r : Row) :
  In r (prepare_excel_data (process_document cfg paragraphs)) ->
  existsb (fun t => has_type t r) type_order = true.
Proof.
  assert (Ht : typed_data (process_document cfg paragraphs)).
  { unfold process_document, run_document.
    apply typed_data_save, typed_data_fold.
    split; [reflexivity | constructor]. }
  destruct Ht as [Hlen Hall].
  unfold prepare_excel_data. intros Hin.
  apply in_map_iff in Hin. destruct Hin as [i [<- Hi]].
  apply in_seq in Hi. rewrite <- Hlen in Hi.
  apply existsb_exists.
  exists (nth i (type_list (process_document cfg paragraphs)) []).
  split.
  - rewrite Forall_forall in Hall. apply Hall, nth_In. lia.
  - unfold has_type, question_data. cbn [dict_get].
    change (str_eqb KEY_TYPE KEY_TYPE) with true. cbn iota.
    apply str_eqb_refl.
Qed.

Lemma grouped_export_spec_witness :
  let rows := prepare_excel_data
                (process_document default_config
                   [plain "1.abc"; plain "【答案】对"; plain "2.def";
                    plain "A.x"; plain "B.y"; plain "【答案】B";
                    plain "3.ghi"; plain "【答案】错"]) in
  Permutation
    (filter (fun r => negb (is_separator r)) (group_by_type default_config rows))
    rows.
Proof.
  intros rows.
  apply (proj2 (proj2 (proj2 (proj2 (proj2 (proj2
           (grouped_export_spec default_config rows))))))).
  assert (H : forallb (fun r => existsb (fun t => has_type t r) type_order) rows
              = true) by (vm_compute; reflexivity).
  intros r Hr. exact (proj1 (forallb_forall _ rows) H r Hr).
Defined.

(** Two groups in the example: one separator, between them. *)
Lemma grouped_export_example :
  let rows := prepare_excel_data
                (process_document default_config
                   [plain "1.abc"; plain "【答案】对"; plain "2.def";
                    plain "A.x"; plain "B.y"; plain "【答案】B";
                    plain "3.ghi"; plain "【答案】错"]) in
  map is_separator (group_by_type default_config rows)
  = [false; true; false; false]
  /\ map (dict_get KEY_TITLE) (group_by_type default_config rows)
     = [Some (VStr (py "def")); Some (VStr []);
        Some (VStr (py "abc")); Some (VStr (py "ghi"))].
Proof. vm_compute. split; reflexivity. Qed.

(** * Further properties of the pipeline *)

(** ** Invariants of the collected data *)

Lemma data_invariant (cfg : Config) (P : Data -> Prop) :
  (forall st, P (data st) -> P (data (save_current_question cfg st))) ->
  forall (paragraphs : list Paragraph) (st : State),
    P (data st) -> P (data (fold_left (process_paragraph cfg) paragraphs st)).
Proof.
  intros Hsave paragraphs.
  induction paragraphs as [|p ps IH]; intros st H; [assumption|].
  cbn [fold_left]. apply IH. rewrite data_step.
  destruct (classify_line cfg p); try assumption. now apply Hsave.
Qed.

Lemma aligned_save (cfg : Config) (st : State) :
  aligned (data st) -> aligned (data (save_current_question cfg st)).
Proof.
  unfold save_current_question, aligned.
  destruct (current_question st) as [q|]; [|tauto].
  cbn -[List.length]. rewrite !length_app. cbn [List.length].
  intros (H1 & H2 & H3 & H4 & H5 & H6 & H7 & H8).
  repeat split; congruence.
Qed.

Lemma pipeline_aligned (cfg : Config) (paragraphs : list Paragraph) :
  aligned (process_document cfg paragraphs).
Proof.
  unfold process_document, run_document.
  apply aligned_save, data_invariant; [apply aligned_save|].
  repeat split.
Qed.

(** X1.  The nine lists returned by [process_document] have the same
    length: every record has an entry in each of them. *)
Theorem process_document_aligned (cfg : Config) (paragraphs : list Paragraph) :
  let d := process_document cfg paragraphs in
  let n := List.length (title_list d) in
  List.length (choice_list d) = n
  /\ List.length (answer_list d) = n
  /\ List.length (difficulty_list d) = n
  /\ List.length (knowledge_list d) = n
  /\ List.length (explain_list d) = n
  /\ List.length (type_list d) = n
  /\ List.length (option_count_list d) = n
  /\ List.length (has_image_list d) = n.
Proof. exact (pipeline_aligned cfg paragraphs). Qed.

Lemma title_count_save (cfg : Config) (st : State) :
  List.length (title_list (data (save_current_question cfg st)))
  = (List.length (title_list (data st)) + pending st)%nat.
Proof.
  unfold save_current_question, pending, is_open.
  destruct (current_question st); cbn -[List.length].
  - now rewrite length_app.
  - lia.
Qed.

Lemma pending_step (cfg : Config) (st : State) (p : Paragraph) :
  pending (process_paragraph cfg st p) =
    match classify_line cfg p with
    | QuestionStart => 1%nat
    | _ => pending st
    end.
Proof.
  unfold pending. rewrite is_open_step. now destruct (classify_line cfg p).
Qed.

Lemma title_count_fold (cfg : Config) (paragraphs : list Paragraph) (st : State) :
  let st' := fold_left (process_paragraph cfg) paragraphs st in
  (List.length (title_list (data st')) + pending st'
   = List.length (title_list (data st)) + pending st
     + List.length (filter (is_start cfg) paragraphs))%nat.
Proof.
  revert st. induction paragraphs as [|p ps IH]; intros st; cbn zeta.
  - cbn. lia.
  - cbn [fold_left filter]. specialize (IH (process_paragraph cfg st p)).
    cbn zeta in IH. rewrite IH. clear IH.
    rewrite pending_step, data_step. unfold is_start.
    destruct (classify_line cfg p); cbn [List.length];
      rewrite ?title_count_save; lia.
Qed.

Lemma record_count_starts (cfg : Config) (paragraphs : list Paragraph) :
  List.length (title_list (process_document cfg paragraphs))
  = List.length (filter (is_start cfg) paragraphs).
Proof.
  unfold process_document, run_document.
  rewrite title_count_save.
  pose proof (title_count_fold cfg paragraphs initial_state) as H.
  cbn zeta in H. rewrite H. reflexivity.
Qed.

(** X2.  The number of records is the number of question-start
    paragraphs of the document. *)
Theorem record_count (cfg : Config) (paragraphs : list Paragraph) :
  List.length (title_list (process_document cfg paragraphs))
  = List.length (filter (fun p => match classify_line cfg p with
                                  | QuestionStart => true
                                  | _ => false
                                  end)
                        paragraphs).
Proof. exact (record_count_starts cfg paragraphs). Qed.

Lemma derived_save (cfg : Config) (st : State) :
  derived cfg (data st) -> derived cfg (data (save_current_question cfg st)).
Proof.
  unfold save_current_question, derived.
  destruct (current_question st) as [q|]; [|tauto].
  cbn [data type_list answer_list option_count_list choice_list].
  intros [H1 H2]. rewrite !map_app, H1, H2. split; reflexivity.
Qed.

(** X3.  In the returned data the type of every record is
    [determine_type] of its stored answer, and its option count is
    [count_options] of its stored option text. *)
Theorem process_document_derived (cfg : Config) (paragraphs : list Paragraph) :
  let d := process_document cfg paragraphs in
  type_list d = map (fun a => determine_type cfg (Some a)) (answer_list d)
  /\ option_count_list d = map (count_options cfg) (choice_list d).
Proof.
  unfold process_document, run_document.
  apply derived_save, data_invariant; [apply derived_save|].
  split; reflexivity.
Qed.

(** ** Blank paragraphs and surrounding white space *)

Lemma fold_view (cfg : Config) (ps qs : list Paragraph) (st : State) :
  map view ps = map view qs ->
  fold_left (process_paragraph cfg) ps st = fold_left (process_paragraph cfg) qs st.
Proof.
  revert qs st. induction ps as [|p ps IH]; intros [|q qs] st H;
    try discriminate; [reflexivity|].
  cbn [map] in H. unfold view at 1 3 in H. injection H as Ht Hi H.
  cbn [fold_left]. rewrite (process_paragraph_ext cfg st p q Ht Hi).
  now apply IH.
Qed.

(** X4.  The result of [process_document] depends on the paragraphs only
    through the trimmed text and the outcome of [has_image] (the flag
    returned and the warning logged) of the paragraphs that are not blank:
    blank paragraphs and white space around a text change nothing, neither
    in the data nor in the warnings logged. *)
Theorem process_document_view (cfg : Config) (ps qs : list Paragraph) :
  map view (filter nonblank ps) = map view (filter nonblank qs) ->
  process_document cfg ps = process_document cfg qs
  /\ logged (run_document cfg ps) = logged (run_document cfg qs).
Proof.
  intros H. unfold process_document, run_document.
  rewrite (fold_skips_blank cfg ps), (fold_skips_blank cfg qs).
  rewrite (fold_view cfg _ _ initial_state H). split; reflexivity.
Qed.

Lemma process_document_view_witness :
  let ps := [unreadable "  1.Q  "; plain "   "; pictured "more"; plain "A.x";
             plain ""] in
  let qs := [unreadable "1.Q"; pictured " more"; plain " A.x"] in
  process_document default_config ps = process_document default_config qs
  /\ logged (run_document default_config ps)
     = logged (run_document default_config qs).
Proof.
  apply (process_document_view default_config
           [unreadable "  1.Q  "; plain "   "; pictured "more"; plain "A.x";
            plain ""]
           [unreadable "1.Q"; pictured " more"; plain " A.x"]).
  reflexivity.
Defined.

(** ** The tag fields of the open question *)

Lemma answer_of_step (cfg : Config) (st : State) (p : Paragraph) :
  answer_of (process_paragraph cfg st p) =
    match classify_line cfg p with
    | QuestionStart => None
    | AnswerTag =>
        match get_tag_content cfg (strip (text p)) answer with
        | Some (c :: t) => if is_open st then Some (c :: t) else None
        | _ => answer_of st
        end
    | _ => answer_of st
    end.
Proof.
  unfold answer_of, is_open.
  step_cases cfg p; try reflexivity; try (tag_cases cfg st; reflexivity).
  destruct (collecting_title st) eqn:Hflag; cbn; try reflexivity; congruence.
Qed.

Lemma difficulty_of_step (cfg : Config) (st : State) (p : Paragraph) :
  difficulty_of (process_paragraph cfg st p) =
    match classify_line cfg p with
    | QuestionStart => None
    | DifficultyTag =>
        match get_tag_content cfg (strip (text p)) difficulty with
        | Some v => if is_open st then Some (fst (determine_difficulty cfg v)) else None
        | None => difficulty_of st
        end
    | _ => difficulty_of st
    end.
Proof.
  unfold difficulty_of, is_open.
  step_cases cfg p; try reflexivity; try (tag_cases cfg st; reflexivity).
  destruct (collecting_title st) eqn:Hflag; cbn; try reflexivity; congruence.
Qed.

Lemma knowledge_of_step (cfg : Config) (st : State) (p : Paragraph) :
  knowledge_of (process_paragraph cfg st p) =
    match classify_line cfg p with
    | QuestionStart => None
    | KnowledgeTag =>
        match get_tag_content cfg (strip (text p)) knowledge with
        | Some v => if is_open st then Some v else None
        | None => knowledge_of st
        end
    | _ => knowledge_of st
    end.
Proof.
  unfold knowledge_of, is_open.
  step_cases cfg p; try reflexivity; try (tag_cases cfg st; reflexivity).
  destruct (collecting_title st) eqn:Hflag; cbn; try reflexivity; congruence.
Qed.

Lemma explanation_of_step (cfg : Config) (st : State) (p : Paragraph) :
  explanation_of (process_paragraph cfg st p) =
    match classify_line cfg p with
    | QuestionStart => None
    | ExplanationTag =>
        match get_tag_content cfg (strip (text p)) explanation with
        | Some v => if is_open st then Some v else None
        | None => explanation_of st
        end
    | _ => explanation_of st
    end.
Proof.
  unfold explanation_of, is_open.
  step_cases cfg p; try reflexivity; try (tag_cases cfg st; reflexivity).
  destruct (collecting_title st) eqn:Hflag; cbn; try reflexivity; congruence.
Qed.

(** ** The record of a block *)

Lemma last_nonempty_default {A} (l : list A) (d d' : A) :
  l <> [] -> last l d = last l d'.
Proof.
  induction l as [|x l IH]; [congruence|]. intros _.
  destruct l as [|y l]; [reflexivity|].
  change (last (y :: l) d = last (y :: l) d'). apply IH. discriminate.
Qed.

Lemma last_app_default {A} (l1 l2 : list A) (d : A) :
  last (l1 ++ l2) d = last l2 (last l1 d).
Proof.
  induction l1 as [|x l1 IH]; [reflexivity|].
  destruct l1 as [|y l1].
  - cbn [app last]. destruct l2 as [|z l2]; [reflexivity|].
    apply last_nonempty_default. discriminate.
  - change (last (y :: l1 ++ l2) d = last l2 (last (y :: l1) d)).
    exact IH.
Qed.

Lemma is_open_fold (cfg : Config) (paragraphs : list Paragraph) (st : State) :
  is_open (fold_left (process_paragraph cfg) paragraphs st)
  = is_open st || existsb (is_start cfg) paragraphs.
Proof.
  revert st. induction paragraphs as [|p ps IH]; intros st.
  - cbn. now rewrite orb_false_r.
  - cbn [fold_left existsb]. rewrite IH, is_open_step. unfold is_start.
    destruct (classify_line cfg p), (is_open st); reflexivity.
Qed.

Lemma Forall_not_start (cfg : Config) (paragraphs : list Paragraph) :
  Forall (fun q => is_start cfg q = false) paragraphs
  <-> existsb (is_start cfg) paragraphs = false.
Proof.
  induction paragraphs as [|p ps IH]; cbn [existsb].
  - split; [reflexivity | constructor].
  - rewrite orb_false_iff, <- IH. split.
    + intros H. inversion H; subst. now split.
    + intros [H1 H2]. now constructor.
Qed.

Lemma has_tag_content (cfg : Config) (text : str) (t : tag_type) :
  has_tag cfg text t = true <-> get_tag_content cfg text t <> None.
Proof.
  unfold has_tag, get_tag_content.
  induction (tags_of cfg t) as [|tag l IH]; cbn [existsb first_tag_content].
  - split; [discriminate | congruence].
  - destruct (startswith text tag); cbn [orb]; [|exact IH].
    split; [discriminate | reflexivity].
Qed.

Lemma classify_tag (cfg : Config) (p : Paragraph) :
  match classify_line cfg p with
  | AnswerTag => has_tag cfg (strip (text p)) answer = true
  | DifficultyTag => has_tag cfg (strip (text p)) difficulty = true
  | KnowledgeTag => has_tag cfg (strip (text p)) knowledge = true
  | ExplanationTag => has_tag cfg (strip (text p)) explanation = true
  | _ => True
  end.
Proof.
  unfold classify_line.
  destruct (strip (text p)) as [|c t]; [exact I|].
  destruct (is_question_start cfg _); [exact I|].
  destruct (is_option_start cfg _); [exact I|].
  destruct (has_tag cfg _ answer); [reflexivity|].
  destruct (has_tag cfg _ difficulty); [reflexivity|].
  destruct (has_tag cfg _ knowledge); [reflexivity|].
  destruct (has_tag cfg _ explanation); [reflexivity | exact I].
Qed.

(** A field that each paragraph of a block either replaces or keeps ends
    as the last replacement. *)
Lemma field_block (cfg : Config) (f : State -> str) (upd : Paragraph -> list str) :
  (forall st p, is_open st = true -> is_start cfg p = false ->
                f (process_paragraph cfg st p) = last (upd p) (f st)) ->
  forall (rest : list Paragraph) (st : State),
    Forall (fun q => is_start cfg q = false) rest -> is_open st = true ->
    f (fold_left (process_paragraph cfg) rest st) = last (flat_map upd rest) (f st).
Proof.
  intros Hstep rest st H. revert st.
  induction H as [|p ps Hp _ IH]; intros st Ho; [reflexivity|].
  cbn [fold_left flat_map]. rewrite last_app_default, <- Hstep by assumption.
  apply IH. rewrite is_open_step.
  apply is_start_false in Hp. now destruct (classify_line cfg p).
Qed.

Lemma flat_map_tag_contents (cfg : Config) (k : line_kind) (t : tag_type)
    (rest : list Paragraph) :
  flat_map (fun p => if kind_eqb (classify_line cfg p) k
                     then [get_or_empty (get_tag_content cfg (strip (text p)) t)]
                     else [])
           rest
  = tag_contents cfg k t rest.
Proof.
  unfold tag_contents. induction rest as [|p ps IH]; [reflexivity|].
  cbn [flat_map filter]. rewrite IH.
  now destruct (kind_eqb (classify_line cfg p) k).
Qed.

Lemma answer_block (cfg : Config) (rest : list Paragraph) (st : State) :
  Forall (fun q => is_start cfg q = false) rest -> is_open st = true ->
  get_or_empty (answer_of (fold_left (process_paragraph cfg) rest st))
  = last (filter nonempty_str (tag_contents cfg AnswerTag answer rest))
         (get_or_empty (answer_of st)).
Proof.
  intros H Ho.
  rewrite (field_block cfg (fun st => get_or_empty (answer_of st))
             (fun p => if kind_eqb (classify_line cfg p) AnswerTag
                       then filter nonempty_str
                              [get_or_empty (get_tag_content cfg (strip (text p)) answer)]
                       else [])); try assumption.
  - f_equal. rewrite <- flat_map_tag_contents.
    clear. induction rest as [|p ps IH]; [reflexivity|].
    cbn [flat_map]. rewrite filter_app, IH.
    now destruct (kind_eqb (classify_line cfg p) AnswerTag).
  - clear. intros st p Ho Hp. rewrite answer_of_step, Ho.
    apply is_start_false in Hp.
    destruct (classify_line cfg p); try contradiction; try reflexivity.
    cbn [kind_eqb].
    now destruct (get_tag_content cfg (strip (text p)) answer) as [[|c t]|].
Qed.

Lemma difficulty_block (cfg : Config) (rest : list Paragraph) (st : State) :
  Forall (fun q => is_start cfg q = false) rest -> is_open st = true ->
  get_or_empty (difficulty_of (fold_left (process_paragraph cfg) rest st))
  = last (map (fun v => fst (determine_difficulty cfg v))
              (tag_contents cfg DifficultyTag difficulty rest))
         (get_or_empty (difficulty_of st)).
Proof.
  intros H Ho.
  rewrite (field_block cfg (fun st => get_or_empty (difficulty_of st))
             (fun p => if kind_eqb (classify_line cfg p) DifficultyTag
                       then [fst (determine_difficulty cfg
                                    (get_or_empty
                                       (get_tag_content cfg (strip (text p)) difficulty)))]
                       else [])); try assumption.
  - f_equal. rewrite <- flat_map_tag_contents.
    clear. induction rest as [|p ps IH]; [reflexivity|].
    cbn [flat_map]. rewrite map_app, IH.
    now destruct (kind_eqb (classify_line cfg p) DifficultyTag).
  - clear. intros st p Ho Hp. rewrite difficulty_of_step, Ho.
    apply is_start_false in Hp. pose proof (classify_tag cfg p) as Ht.
    destruct (classify_line cfg p); try contradiction; try reflexivity.
    cbn [kind_eqb]. apply has_tag_content in Ht.
    now destruct (get_tag_content cfg (strip (text p)) difficulty).
Qed.

Lemma knowledge_block (cfg : Config) (rest : list Paragraph) (st : State) :
  Forall (fun q => is_start cfg q = false) rest -> is_open st = true ->
  get_or_empty (knowledge_of (fold_left (process_paragraph cfg) rest st))
  = last (tag_contents cfg KnowledgeTag knowledge rest)
         (get_or_empty (knowledge_of st)).
Proof.
  intros H Ho. rewrite <- flat_map_tag_contents.
  apply (field_block cfg (fun st => get_or_empty (knowledge_of st))); try assumption.
  clear. intros st p Ho Hp. rewrite knowledge_of_step, Ho.
  apply is_start_false in Hp. pose proof (classify_tag cfg p) as Ht.
  destruct (classify_line cfg p); try contradiction; try reflexivity.
  cbn [kind_eqb]. apply has_tag_content in Ht.
  now destruct (get_tag_content cfg (strip (text p)) knowledge).
Qed.

Lemma explanation_block (cfg : Config) (rest : list Paragraph) (st : State) :
  Forall (fun q => is_start cfg q = false) rest -> is_open st = true ->
  get_or_empty (explanation_of (fold_left (process_paragraph cfg) rest st))
  = last (tag_contents cfg ExplanationTag explanation rest)
         (get_or_empty (explanation_of st)).
Proof.
  intros H Ho. rewrite <- flat_map_tag_contents.
  apply (field_block cfg (fun st => get_or_empty (explanation_of st))); try assumption.
  clear. intros st p Ho Hp. rewrite explanation_of_step, Ho.
  apply is_start_false in Hp. pose proof (classify_tag cfg p) as Ht.
  destruct (classify_line cfg p); try contradiction; try reflexivity.
  cbn [kind_eqb]. apply has_tag_content in Ht.
  now destruct (get_tag_content cfg (strip (text p)) explanation).
Qed.

Lemma title_block (cfg : Config) (rest : list Paragraph) (st : State) :
  Forall (fun q => is_start cfg q = false) rest ->
  current_title_lines (fold_left (process_paragraph cfg) rest st) =
    if collecting_title st
    then current_title_lines st
         ++ map (fun p => strip (text p)) (title_paragraphs cfg rest)
    else current_title_lines st.
Proof.
  intros H. revert st.
  induction H as [|p ps Hp _ IH]; intros st.
  - cbn. destruct (collecting_title st); [|reflexivity]. now rewrite app_nil_r.
  - cbn [fold_left title_paragraphs]. rewrite IH.
    rewrite collecting_title_step, current_title_lines_step.
    apply is_start_false in Hp.
    destruct (classify_line cfg p); try contradiction;
      destruct (collecting_title st); try reflexivity.
    + cbn [map]. now rewrite app_nil_r.
    + cbn [map]. now rewrite <- app_assoc.
Qed.

Lemma save_open (cfg : Config) (st : State) :
  is_open st = true ->
  data (save_current_question cfg st) =
    let d := data st in
    let answer := get_or_empty (answer_of st) in
    let choice_text := join [NEWLINE] (current_choices st) in
    {| title_list :=
         title_list d
         ++ [remove_question_number cfg
               (re_sub_blank_paren None (join [SPACE] (current_title_lines st)))];
       choice_list := choice_list d ++ [choice_text];
       answer_list := answer_list d ++ [answer];
       difficulty_list := difficulty_list d ++ [get_or_empty (difficulty_of st)];
       knowledge_list := knowledge_list d ++ [get_or_empty (knowledge_of st)];
       explain_list := explain_list d ++ [get_or_empty (explanation_of st)];
       type_list := type_list d ++ [determine_type cfg (Some answer)];
       option_count_list := option_count_list d ++ [count_options cfg choice_text];
       has_image_list := has_image_list d ++ [current_has_image st] |}.
Proof.
  unfold is_open, save_current_question, answer_of, difficulty_of,
    knowledge_of, explanation_of.
  destruct (current_question st); [reflexivity | discriminate].
Qed.

Lemma current_choices_save (cfg : Config) (st : State) :
  current_choices (save_current_question cfg st)
  = if is_open st then [] else current_choices st.
Proof.
  unfold is_open, save_current_question.
  now destruct (current_question st).
Qed.

(** The state at the end of the last block of a document. *)
Lemma last_block_state (cfg : Config) (before rest : list Paragraph) (s : Paragraph) :
  classify_line cfg s = QuestionStart ->
  Forall (fun q => is_start cfg q = false) rest ->
  let st := fold_left (process_paragraph cfg) (before ++ s :: rest) initial_state in
  is_open st = true
  /\ data st = process_document cfg before
  /\ current_title_lines st
     = strip (text s) :: map (fun p => strip (text p)) (title_paragraphs cfg rest)
  /\ current_choices st
     = (if existsb (is_start cfg) before then [] else option_lines cfg before)
       ++ option_lines cfg rest
  /\ get_or_empty (answer_of st) = block_answer cfg rest
  /\ get_or_empty (difficulty_of st) = block_difficulty cfg rest
  /\ get_or_empty (knowledge_of st) = block_knowledge cfg rest
  /\ get_or_empty (explanation_of st) = block_explanation cfg rest.
Proof.
  intros Hs Hrest st. unfold st. rewrite fold_left_app. cbn [fold_left].
  set (st0 := fold_left (process_paragraph cfg) before initial_state).
  set (st1 := process_paragraph cfg st0 s).
  assert (Ho1 : is_open st1 = true) by (unfold st1; now rewrite is_open_step, Hs).
  destruct (block_keeps_data cfg rest st1 Hrest) as [Hd Ho].
  split; [now rewrite Ho|]. split.
  { rewrite Hd. unfold st1. now rewrite data_step, Hs. }
  split.
  { rewrite title_block by assumption. unfold st1.
    now rewrite collecting_title_step, current_title_lines_step, Hs. }
  split.
  { rewrite choices_accumulate by assumption. f_equal. unfold st1.
    rewrite current_choices_step, Hs, current_choices_save.
    unfold st0. rewrite is_open_fold. cbn [is_open initial_state current_question orb].
    destruct (existsb (is_start cfg) before) eqn:Hb; [reflexivity|].
    apply Forall_not_start in Hb.
    now rewrite choices_accumulate. }
  split.
  { rewrite answer_block by assumption. unfold block_answer. f_equal.
    unfold st1. now rewrite answer_of_step, Hs. }
  split.
  { rewrite difficulty_block by assumption. unfold block_difficulty. f_equal.
    unfold st1. now rewrite difficulty_of_step, Hs. }
  split.
  { rewrite knowledge_block by assumption. unfold block_knowledge. f_equal.
    unfold st1. now rewrite knowledge_of_step, Hs. }
  rewrite explanation_block by assumption. unfold block_explanation. f_equal.
  unfold st1. now rewrite explanation_of_step, Hs.
Qed.

(** X5.  Appending a block (a question-start paragraph [s] and
    paragraphs [rest] without a question start) to a document appends one
    title: the start line and the content lines read before the first option
    line, joined with spaces, with blank parentheses normalised and the
    numbering removed. *)
Theorem last_block_title (cfg : Config) (before rest : list Paragraph) (s : Paragraph) :
  classify_line cfg s = QuestionStart ->
  Forall (fun q => is_start cfg q = false) rest ->
  title_list (process_document cfg (before ++ s :: rest))
  = title_list (process_document cfg before) ++ [block_title cfg s rest].
Proof.
  intros Hs Hrest.
  destruct (last_block_state cfg before rest s Hs Hrest)
    as (Ho & Hd & Ht & _).
  unfold process_document at 1, run_document.
  rewrite save_open by assumption. cbn [title_list].
  now rewrite Hd, Ht.
Qed.

Lemma last_block_title_witness :
  title_list (process_document default_config
                ([plain "1.a"] ++ plain "2. What is（ ）" ::
                 [plain "shown here?"; plain "A.x"; plain "ignored"]))
  = [py "a"; py "What is（   ） shown here?"].
Proof.
  assert (Hrest : Forall (fun q => is_start default_config q = false)
                    [plain "shown here?"; plain "A.x"; plain "ignored"])
    by (repeat constructor).
  exact (last_block_title default_config [plain "1.a"] _ (plain "2. What is（ ）")
           eq_refl Hrest).
Defined.

(** X6.  Appending a block appends one option text: the option lines of
    the block joined with newlines.  When the document before the block
    has no question-start line, its option lines come first in that text. *)
Theorem last_block_choices (cfg : Config) (before rest : list Paragraph) (s : Paragraph) :
  classify_line cfg s = QuestionStart ->
  Forall (fun q => is_start cfg q = false) rest ->
  choice_list (process_document cfg (before ++ s :: rest))
  = choice_list (process_document cfg before)
    ++ [join [NEWLINE]
             ((if existsb (is_start cfg) before then []
               else option_lines cfg before)
              ++ option_lines cfg rest)].
Proof.
  intros Hs Hrest.
  destruct (last_block_state cfg before rest s Hs Hrest)
    as (Ho & Hd & _ & Hc & _).
  unfold process_document at 1, run_document.
  rewrite save_open by assumption. cbn [choice_list].
  now rewrite Hd, Hc.
Qed.

Lemma last_block_choices_witness :
  choice_list (process_document default_config
                 ([plain "C.stray"; plain "1.a"; plain "A.x"] ++ plain "2.b" ::
                  [plain "B.y"; plain "text"; plain "D.z"]))
  = [py "C.stray" ++ [NEWLINE] ++ py "A.x"; py "B.y" ++ [NEWLINE] ++ py "D.z"].
Proof.
  assert (Hrest : Forall (fun q => is_start default_config q = false)
                    [plain "B.y"; plain "text"; plain "D.z"])
    by (repeat constructor).
  exact (last_block_choices default_config
           [plain "C.stray"; plain "1.a"; plain "A.x"] _ (plain "2.b")
           eq_refl Hrest).
Defined.

(** X7.  Appending a block appends one answer, difficulty, knowledge and
    explanation: the last answer line with non-empty content, the label of
    the last difficulty line, the last knowledge line and the last
    explanation line of the block, each the empty string when the block has
    no such line; the appended type is [determine_type] of that answer. *)
Theorem last_block_tags (cfg : Config) (before rest : list Paragraph) (s : Paragraph) :
  classify_line cfg s = QuestionStart ->
  Forall (fun q => is_start cfg q = false) rest ->
  let d0 := process_document cfg before in
  let d := process_document cfg (before ++ s :: rest) in
  answer_list d = answer_list d0 ++ [block_answer cfg rest]
  /\ difficulty_list d = difficulty_list d0 ++ [block_difficulty cfg rest]
  /\ knowledge_list d = knowledge_list d0 ++ [block_knowledge cfg rest]
  /\ explain_list d = explain_list d0 ++ [block_explanation cfg rest]
  /\ type_list d
     = type_list d0 ++ [determine_type cfg (Some (block_answer cfg rest))].
Proof.
  intros Hs Hrest d0 d.
  destruct (last_block_state cfg before rest s Hs Hrest)
    as (Ho & Hd & _ & _ & Ha & Hdi & Hk & He).
  unfold d, process_document at 1 2 3 4 5, run_document.
  rewrite save_open by assumption.
  cbn [answer_list difficulty_list knowledge_list explain_list type_list].
  fold d0 in Hd. rewrite Hd, Ha, Hdi, Hk, He. repeat split.
Qed.

Lemma last_block_tags_witness :
  let d := process_document default_config
             ([plain "1.a"] ++ plain "2.b" ::
              [plain "【答案】A"; plain "【答案】"; plain "【难度】0.3";
               plain "【知识点】x"; plain "【知识点】"; plain "【难度】0.9"]) in
  answer_list d = [[]; py "A"]
  /\ difficulty_list d = [[]; py "难"]
  /\ knowledge_list d = [[]; []]
  /\ explain_list d = [[]; []]
  /\ type_list d = [UNKNOWN_TYPE; SINGLE_CHOICE].
Proof.
  assert (Hrest : Forall (fun q => is_start default_config q = false)
                    [plain "【答案】A"; plain "【答案】"; plain "【难度】0.3";
                     plain "【知识点】x"; plain "【知识点】"; plain "【难度】0.9"])
    by (repeat constructor).
  exact (last_block_tags default_config [plain "1.a"] _ (plain "2.b") eq_refl Hrest).
Defined.

(** ** Stored difficulties *)

Lemma determine_difficulty_label (cfg : Config) (v : str) :
  In (fst (determine_difficulty cfg v)) (difficulty_labels cfg).
Proof.
  unfold determine_difficulty, difficulty_labels.
  destruct (py_float v) as [x|]; [|cbn; tauto].
  destruct (SFltb x _); [cbn; tauto|].
  destruct (SFeqb x _); cbn; tauto.
Qed.

Lemma difficulty_labels_fold (cfg : Config) (paragraphs : list Paragraph) (st : State) :
  Forall (fun l => In l (difficulty_labels cfg)) (difficulty_list (data st)) ->
  In (get_or_empty (difficulty_of st)) (difficulty_labels cfg) ->
  let st' := fold_left (process_paragraph cfg) paragraphs st in
  Forall (fun l => In l (difficulty_labels cfg)) (difficulty_list (data st'))
  /\ In (get_or_empty (difficulty_of st')) (difficulty_labels cfg).
Proof.
  revert st. induction paragraphs as [|p ps IH]; intros st Hd Hq; [now split|].
  cbn [fold_left]. apply IH.
  - rewrite data_step. destruct (classify_line cfg p); try assumption.
    destruct (is_open st) eqn:Ho.
    + rewrite save_open by assumption. cbn [difficulty_list].
      apply Forall_app. split; [assumption | now constructor].
    + now rewrite save_closed.
  - rewrite difficulty_of_step.
    destruct (classify_line cfg p); try assumption; try (now left).
    destruct (get_tag_content cfg (strip (text p)) difficulty); [|assumption].
    destruct (is_open st); [apply determine_difficulty_label | now left].
Qed.

(** X8.  Every difficulty stored by [process_document] is the empty
    string or one of the three configured labels: the text of a difficulty
    line is never stored as it is. *)
Theorem difficulty_list_labels (cfg : Config) (paragraphs : list Paragraph) :
  Forall (fun l => l = []
                   \/ l = easy_name (difficulty_levels cfg)
                   \/ l = medium_name (difficulty_levels cfg)
                   \/ l = hard_name (difficulty_levels cfg))
         (difficulty_list (process_document cfg paragraphs)).
Proof.
  destruct (difficulty_labels_fold cfg paragraphs initial_state) as [Hd Hq];
    [constructor | now left |].
  assert (H : Forall (fun l => In l (difficulty_labels cfg))
                (difficulty_list (process_document cfg paragraphs))).
  { unfold process_document, run_document.
    destruct (is_open (fold_left (process_paragraph cfg) paragraphs initial_state))
      eqn:Ho.
    - rewrite save_open by assumption. cbn [difficulty_list].
      apply Forall_app. split; [assumption | now constructor].
    - now rewrite save_closed. }
  eapply Forall_impl; [|exact H].
  intros l Hl. cbn in Hl. intuition congruence.
Qed.

(** ** Tag contents *)

Lemma lstrip_head (s : str) :
  match lstrip s with
  | [] => True
  | c :: _ => isspace c = false
  end.
Proof.
  induction s as [|c s IH]; [exact I|].
  cbn [lstrip]. destruct (isspace c) eqn:Hc; [exact IH | exact Hc].
Qed.

Lemma lstrip_fixed (c : char) (s : str) :
  isspace c = false -> lstrip (c :: s) = c :: s.
Proof. intros H. cbn [lstrip]. now rewrite H. Qed.

Lemma lstrip_idempotent (s : str) : lstrip (lstrip s) = lstrip s.
Proof.
  pose proof (lstrip_head s) as H.
  destruct (lstrip s) as [|c t]; [reflexivity | now apply lstrip_fixed].
Qed.

Lemma lstrip_snoc (l : str) (c : char) :
  isspace c = false -> lstrip (l ++ [c]) = lstrip l ++ [c].
Proof.
  intros Hc. induction l as [|x l IH].
  - cbn [app lstrip]. now rewrite Hc.
  - cbn [app lstrip]. now destruct (isspace x).
Qed.

Lemma rstrip_idempotent (s : str) : rstrip (rstrip s) = rstrip s.
Proof. unfold rstrip. now rewrite rev_involutive, lstrip_idempotent. Qed.

Lemma rstrip_head (c : char) (s : str) :
  isspace c = false -> exists t, rstrip (c :: s) = c :: t.
Proof.
  intros Hc. unfold rstrip. cbn [rev]. rewrite lstrip_snoc by assumption.
  rewrite rev_app_distr. cbn [rev app]. now eexists.
Qed.

Lemma strip_idempotent (s : str) : strip (strip s) = strip s.
Proof.
  unfold strip. pose proof (lstrip_head s) as H.
  destruct (lstrip s) as [|c t] eqn:E.
  - reflexivity.
  - destruct (rstrip_head c t H) as [t' Ht'].
    rewrite Ht', lstrip_fixed by assumption.
    rewrite <- Ht'. apply rstrip_idempotent.
Qed.

Lemma first_tag_content_spec (text : str) (labels : list str) :
  match first_tag_content text labels with
  | None => forall tag, In tag labels -> startswith text tag = false
  | Some c =>
      exists before tag after,
        labels = before ++ tag :: after
        /\ (forall b, In b before -> startswith text b = false)
        /\ startswith text tag = true
        /\ c = strip (skipn (List.length tag) text)
  end.
Proof.
  induction labels as [|tag l IH]; [intros tag []|].
  cbn [first_tag_content]. destruct (startswith text tag) eqn:Ht.
  - exists [], tag, l. repeat split; [intros b []| assumption].
  - destruct (first_tag_content text l) as [c|].
    + destruct IH as (before & tag' & after & -> & Hb & Ht' & Hc).
      exists (tag :: before), tag', after. repeat split; try assumption.
      intros b [<-|Hin]; [assumption | now apply Hb].
    + intros b [<-|Hin]; [assumption | now apply IH].
Qed.

(** X9.  [get_tag_content] returns [None] exactly when no label of the
    tag type is a prefix of the text; otherwise it returns the text after
    the first label, in configured order, that is a prefix, trimmed, so the
    content has no white space at either end. *)
Theorem get_tag_content_spec (cfg : Config) (text : str) (t : tag_type) :
  (get_tag_content cfg text t = None
   <-> forall tag, In tag (tags_of cfg t) -> startswith text tag = false)
  /\ (forall c, get_tag_content cfg text t = Some c ->
        strip c = c
        /\ exists before tag after,
             tags_of cfg t = before ++ tag :: after
             /\ (forall b, In b before -> startswith text b = false)
             /\ startswith text tag = true
             /\ c = strip (skipn (List.length tag) text)).
Proof.
  unfold get_tag_content.
  pose proof (first_tag_content_spec text (tags_of cfg t)) as H.
  split.
  - destruct (first_tag_content text (tags_of cfg t)) as [c|].
    + split; [discriminate|]. intros Hno.
      destruct H as (before & tag & after & Heq & _ & Ht & _).
      rewrite Hno in Ht; [discriminate|].
      rewrite Heq, in_app_iff. right. now left.
    + split; [intros _; exact H | reflexivity].
  - intros c Hc. rewrite Hc in H.
    destruct H as (before & tag & after & Heq & Hb & Ht & ->).
    split; [apply strip_idempotent|]. now exists before, tag, after.
Qed.

Lemma get_tag_content_spec_witness :
  strip (py "B") = py "B"
  /\ exists before tag after,
       tags_of default_config answer = before ++ tag :: after
       /\ (forall b, In b before -> startswith (py "答案：  B ") b = false)
       /\ startswith (py "答案：  B ") tag = true
       /\ py "B" = strip (skipn (List.length tag) (py "答案：  B ")).
Proof.
  apply (proj2 (get_tag_content_spec default_config (py "答案：  B ") answer)).
  reflexivity.
Defined.

(** ** Answers made of option letters *)

Lemma strip_no_space (s : str) :
  Forall (fun c => isspace c = false) s -> strip s = s.
Proof.
  intros H. unfold strip, rstrip.
  assert (Hl : forall l, Forall (fun c => isspace c = false) l -> lstrip l = l).
  { intros l Hl. destruct Hl as [|c l Hc _]; [reflexivity|].
    now apply lstrip_fixed. }
  rewrite (Hl s H), Hl, rev_involutive; [reflexivity|].
  now apply Forall_rev.
Qed.

Lemma upper_char_choice_letter (c : char) :
  In c CHOICE_LETTERS -> exists u, upper_char c = [u] /\ In u (py "ABCD").
Proof.
  intros Hc. cbn in Hc.
  repeat (destruct Hc as [<-|Hc];
          [eexists; split; [vm_compute; reflexivity | cbn; tauto]|]).
  contradiction.
Qed.

Lemma upper_choice_letters (a : str) :
  Forall (fun c => In c CHOICE_LETTERS) a ->
  List.length (upper a) = List.length a
  /\ Forall (fun c => In c (py "ABCD")) (upper a).
Proof.
  induction 1 as [|c a Hc _ [IHl IHf]]; [split; [reflexivity | constructor]|].
  change (upper (c :: a)) with (upper_char c ++ upper a).
  destruct (upper_char_choice_letter c Hc) as [u [-> Hu]].
  split; [cbn [app List.length]; now rewrite IHl | now constructor].
Qed.

Lemma str_eqb_head (x y : str) (S : list char) :
  existsb (N.eqb (hd 0 x)) S = false ->
  In (hd 0 y) S -> y <> [] ->
  str_eqb x y = false.
Proof.
  intros Hx Hy Hne. apply str_eqb_neq. intros ->.
  assert (H : existsb (N.eqb (hd 0 y)) S = true).
  { apply existsb_exists. exists (hd 0 y). split; [assumption | apply N.eqb_refl]. }
  congruence.
Qed.

(** X10.  With the default configuration, a non-empty answer made of the
    letters A to D, in either case, is a single-choice answer when it has
    one letter and a multiple-choice answer when it has more. *)
Theorem letters_are_choices (a : str) :
  a <> [] ->
  Forall (fun c => In c CHOICE_LETTERS) a ->
  determine_type default_config (Some a)
  = if (1 <? List.length a)%nat then MULTI_CHOICE else SINGLE_CHOICE.
Proof.
  intros Hne Hall. rewrite determine_type_nonempty by assumption.
  destruct (upper_choice_letters a Hall) as [Hlen Hup].
  assert (Hnosp : Forall (fun c => isspace c = false) (upper a)).
  { eapply Forall_impl; [|exact Hup]. intros c Hc. cbn in Hc.
    repeat (destruct Hc as [<-|Hc]; [reflexivity|]). contradiction. }
  rewrite (strip_no_space _ Hnosp).
  assert (Huna : upper a <> []).
  { intros E. rewrite E in Hlen. destruct a; [congruence | discriminate]. }
  assert (Hj : existsb (fun j => str_eqb j a || str_eqb (upper j) (upper a))
                 (judge_answers default_config) = false).
  { assert (Hchk : forallb (fun j => negb (existsb (N.eqb (hd 0 j)) CHOICE_LETTERS)
                                     && negb (existsb (N.eqb (hd 0 (upper j)))
                                                (py "ABCD")))
                     (judge_answers default_config) = true)
      by (vm_compute; reflexivity).
    rewrite forallb_forall in Hchk.
    destruct (existsb _ (judge_answers default_config)) eqn:E; [|reflexivity].
    apply existsb_exists in E. destruct E as [j [Hin Hj]].
    specialize (Hchk j Hin). apply andb_true_iff in Hchk.
    destruct Hchk as [H1 H2]. apply negb_true_iff in H1, H2.
    rewrite (str_eqb_head j a CHOICE_LETTERS) in Hj; try assumption.
    - rewrite (str_eqb_head (upper j) (upper a) (py "ABCD")) in Hj;
        try assumption; [discriminate|].
      destruct Hup; [congruence | assumption].
    - destruct Hall; [congruence | assumption]. }
  rewrite Hj.
  assert (Hrm : remove_char SPACE (upper a) = upper a).
  { unfold remove_char. clear - Hup.
    induction Hup as [|c l Hc _ IH]; [reflexivity|].
    cbn [filter]. rewrite IH. cbn in Hc.
    repeat (destruct Hc as [<-|Hc]; [reflexivity|]). contradiction. }
  rewrite Hrm.
  assert (Hsub : chars_subset (upper a) (options default_config) = true).
  { unfold chars_subset. destruct (upper a) as [|h t]; [congruence|].
    apply forallb_forall. intros c Hc.
    rewrite Forall_forall in Hup. specialize (Hup c Hc). cbn in Hup.
    repeat (destruct Hup as [<-|Hup]; [reflexivity|]). contradiction. }
  now rewrite Hsub, Hlen.
Qed.

Lemma letters_are_choices_witness :
  determine_type default_config (Some (py "b")) = SINGLE_CHOICE
  /\ determine_type default_config (Some (py "ACd")) = MULTI_CHOICE.
Proof.
  split.
  - apply (letters_are_choices (py "b")); [discriminate|].
    repeat constructor; cbn; tauto.
  - apply (letters_are_choices (py "ACd")); [discriminate|].
    repeat constructor; cbn; tauto.
Defined.

(** ** Removing the numbering *)

Lemma suffix_refl (s : str) : suffix_of s s.
Proof. now exists []. Qed.

Lemma suffix_trans (a b c : str) : suffix_of a b -> suffix_of b c -> suffix_of a c.
Proof.
  intros [p ->] [q ->]. exists (q ++ p). now rewrite app_assoc.
Qed.

Lemma suffix_cons (c : char) (r s : str) : suffix_of r s -> suffix_of r (c :: s).
Proof. intros [p ->]. now exists (c :: p). Qed.

Lemma suffix_length (r s : str) :
  suffix_of r s -> (List.length r <= List.length s)%nat.
Proof. intros [p ->]. rewrite length_app. lia. Qed.

Lemma lstrip_suffix (s : str) : suffix_of (lstrip s) s.
Proof.
  induction s as [|c s IH]; [apply suffix_refl|].
  cbn [lstrip]. destruct (isspace c); [now apply suffix_cons | apply suffix_refl].
Qed.

Lemma re_match_atoms_suffix (atoms : list re_atom) (s r : str) :
  re_match_atoms atoms s = Some r -> suffix_of r s.
Proof.
  revert s. induction atoms as [|a atoms IH]; intros s H.
  - cbn in H. injection H as ->. apply suffix_refl.
  - destruct s as [|c s]; [discriminate|]. cbn [re_match_atoms] in H.
    destruct (re_atom_match a c); [|discriminate].
    apply suffix_cons. now apply IH.
Qed.

Lemma re_digits_then_suffix (k : str -> option str) (s r : str) :
  (forall x y, k x = Some y -> suffix_of y x) ->
  re_digits_then k s = Some r ->
  suffix_of r s /\ (List.length r < List.length s)%nat
  /\ exists c t, s = c :: t /\ isdecimal c = true.
Proof.
  intros Hk. revert r. induction s as [|c s IH]; intros r H; [discriminate|].
  cbn [re_digits_then] in H. destruct (isdecimal c) eqn:Hc; [|discriminate].
  assert (Hs : suffix_of r s).
  { destruct (re_digits_then k s) as [r'|] eqn:E.
    - injection H as ->. now apply (IH r).
    - now apply Hk. }
  split; [now apply suffix_cons|]. split.
  - apply suffix_length in Hs. cbn [List.length]. lia.
  - now exists c, s.
Qed.

Lemma re_digits_then_none (k1 k2 : str -> option str) (s : str) :
  (forall x, k1 x = None -> k2 x = None) ->
  re_digits_then k1 s = None -> re_digits_then k2 s = None.
Proof.
  intros Hk. induction s as [|c s IH]; [reflexivity|].
  cbn [re_digits_then]. destruct (isdecimal c); [|reflexivity].
  destruct (re_digits_then k1 s); [discriminate|].
  intros H. rewrite IH by reflexivity. now apply Hk.
Qed.

Lemma re_sub_number_cases (sep s : str) :
  match re_match_number sep s with
  | Some _ =>
      suffix_of (re_sub_number sep s) s
      /\ (List.length (re_sub_number sep s) < List.length s)%nat
  | None => re_sub_number sep s = s
  end.
Proof.
  unfold re_match_number, re_sub_number.
  set (k1 := re_match_atoms (re_atoms sep)).
  set (k2 := fun r => option_map lstrip (k1 r)).
  destruct (re_digits_then k1 s) as [r1|] eqn:E1.
  - destruct (re_digits_then k2 s) as [r2|] eqn:E2.
    + assert (Hk2 : forall x y, k2 x = Some y -> suffix_of y x).
      { intros x y. unfold k2, k1.
        destruct (re_match_atoms (re_atoms sep) x) as [z|] eqn:Ez; [|discriminate].
        cbn. intros [= <-].
        eapply suffix_trans; [apply lstrip_suffix|].
        now apply (re_match_atoms_suffix _ _ _ Ez). }
      destruct (re_digits_then_suffix k2 s r2 Hk2 E2) as (H1 & H2 & _).
      now split.
    + exfalso.
      assert (H : re_digits_then k1 s = None).
      { apply (re_digits_then_none k2 k1); [|assumption].
        intros x. unfold k2. now destruct (k1 x). }
      congruence.
  - rewrite (re_digits_then_none k1 k2); [reflexivity| |assumption].
    intros x. unfold k2. now intros ->.
Qed.

Lemma remove_question_number_suffix (seps : list str) (s : str) :
  suffix_of (fold_left (fun text sep => re_sub_number sep text) seps s) s.
Proof.
  revert s. induction seps as [|sep seps IH]; intros s; [apply suffix_refl|].
  cbn [fold_left]. eapply suffix_trans; [apply IH|].
  pose proof (re_sub_number_cases sep s) as H.
  destruct (re_match_number sep s); [tauto|]. rewrite H. apply suffix_refl.
Qed.

(** X11.  With plain separators (dots and characters that are not special
    in a regular expression, as the default ones), [remove_question_number]
    only removes a prefix of the text; it returns the text unchanged when
    the text does not begin with a decimal digit, and a strictly shorter
    text for every line that [is_question_start] accepts. *)
Theorem remove_question_number_spec (cfg : Config) (text : str) :
  plain_separators cfg = true ->
  suffix_of (remove_question_number cfg text) text
  /\ (match text with
      | [] => True
      | c :: _ => isdecimal c = false
      end -> remove_question_number cfg text = text)
  /\ (is_question_start cfg text = true ->
      (List.length (remove_question_number cfg (strip text))
       < List.length (strip text))%nat).
Proof.
  intros _. unfold remove_question_number, is_question_start.
  split; [apply remove_question_number_suffix|]. split.
  - intros Hd. induction (separators cfg) as [|sep seps IH]; [reflexivity|].
    cbn [fold_left].
    pose proof (re_sub_number_cases sep text) as H.
    destruct (re_match_number sep text) as [r|] eqn:E.
    + exfalso. unfold re_match_number in E.
      destruct text as [|c t]; [discriminate|].
      cbn [re_digits_then] in E. now rewrite Hd in E.
    + rewrite H. exact IH.
  - generalize (strip text). clear text. intros s.
    induction (separators cfg) as [|sep seps IH]; [discriminate|].
    cbn [existsb fold_left].
    pose proof (re_sub_number_cases sep s) as H.
    destruct (re_match_number sep s) as [r|].
    + intros _. destruct H as [_ Hlt].
      pose proof (suffix_length _ _
                    (remove_question_number_suffix seps (re_sub_number sep s))).
      lia.
    + rewrite H. exact IH.
Qed.

Lemma remove_question_number_spec_witness :
  remove_question_number default_config (py "x1.y") = py "x1.y"
  /\ (List.length (remove_question_number default_config (strip (py " 12．3.y ")))
      < List.length (strip (py " 12．3.y ")))%nat.
Proof.
  split.
  - apply (proj1 (proj2 (remove_question_number_spec default_config (py "x1.y")
                             eq_refl))).
    reflexivity.
  - apply (proj2 (proj2 (remove_question_number_spec default_config
                             (py " 12．3.y ") eq_refl))).
    reflexivity.
Defined.

(** ** The columns of the data frame *)

Lemma add_key_In (k : str) (r : Row) (columns : list str) :
  In k (fold_left (fun columns (kv : str * value) =>
                     if existsb (str_eqb (fst kv)) columns then columns
                     else columns ++ [fst kv])
                  r columns)
  <-> In k columns \/ In k (map fst r).
Proof.
  revert columns. induction r as [|[key v] r IH]; intros columns.
  - cbn. tauto.
  - cbn [fold_left map fst]. rewrite IH.
    destruct (existsb (str_eqb key) columns) eqn:E.
    + apply existsb_str_eqb_In in E. cbn [In]. split; [tauto|].
      intros [H|[<-|H]]; tauto.
    + rewrite in_app_iff. cbn [In]. tauto.
Qed.

Lemma frame_columns_In (k : str) (records : list Row) :
  In k (frame_columns records)
  <-> exists r, In r records /\ In k (map fst r).
Proof.
  unfold frame_columns.
  assert (H : forall acc,
             In k (fold_left
                     (fun columns r =>
                        fold_left (fun columns (kv : str * value) =>
                                     if existsb (str_eqb (fst kv)) columns then columns
                                     else columns ++ [fst kv])
                                  r columns)
                     records acc)
             <-> In k acc \/ exists r, In r records /\ In k (map fst r)).
  { induction records as [|r rs IH]; intros acc.
    - cbn. split; [tauto|]. intros [H|[r [[] _]]]. exact H.
    - cbn [fold_left]. rewrite IH, add_key_In. split.
      + intros [[H|H]|[r' [Hin Hk]]].
        * now left.
        * right. exists r. split; [now left | assumption].
        * right. exists r'. split; [now right | assumption].
      + intros [H|[r' [[<-|Hin] Hk]]].
        * left. now left.
        * left. now right.
        * right. now exists r'. }
  rewrite H. cbn [In]. tauto.
Qed.

Lemma select_columns_found (records : list Row) (columns : list str) :
  (forall c, In c columns -> In c (frame_columns records)) ->
  select_columns records columns
  = inr {| header := columns;
           body := map (fun r => map (fun c => dict_get c r) columns) records |}.
Proof.
  intros H. unfold select_columns.
  replace (filter _ columns) with (@nil str); [reflexivity|].
  symmetry. induction columns as [|c cs IH]; [reflexivity|].
  cbn [filter].
  assert (Hc : existsb (str_eqb c) (frame_columns records) = true).
  { apply existsb_str_eqb_In, H. now left. }
  rewrite Hc. cbn [negb]. apply IH. intros c' Hc'. apply H. now right.
Qed.

Lemma select_columns_missing (records : list Row) (columns : list str) (c : str) :
  In c columns -> ~ In c (frame_columns records) ->
  exists missing,
    select_columns records columns = inl (KeyError missing) /\ In c missing.
Proof.
  intros Hin Hno. unfold select_columns.
  assert (Hm : In c (filter (fun c => negb (existsb (str_eqb c)
                                              (frame_columns records))) columns)).
  { apply filter_In. split; [assumption|]. apply negb_true_iff.
    destruct (existsb _ _) eqn:E; [|reflexivity].
    apply existsb_str_eqb_In in E. contradiction. }
  destruct (filter _ columns) as [|m ms]; [contradiction|].
  now exists (m :: ms).
Qed.

Lemma dict_set_keys (key k : str) (v : value) (d : Row) :
  In k (map fst (dict_set key v d)) <-> k = key \/ In k (map fst d).
Proof.
  induction d as [|[k' w] d IH]; cbn [dict_set map fst In].
  - intuition congruence.
  - destruct (str_eqb k' key) eqn:E; cbn [map fst In].
    + apply str_eqb_eq in E. subst. intuition congruence.
    + rewrite IH. tauto.
Qed.

Lemma empty_row_keys (cfg : Config) (c : str) :
  In c (output_columns cfg) -> In c (map fst (empty_row cfg)).
Proof.
  intros Hc. unfold empty_row. apply dict_set_keys. right.
  assert (H : forall cols d,
             In c cols \/ In c (map fst d) ->
             In c (map fst (fold_left (fun d key => dict_set key (VStr []) d) cols d))).
  { induction cols as [|k cols IH]; intros d [H|H]; try assumption;
      try contradiction; cbn [fold_left]; apply IH.
    - destruct H as [->|H]; [|now left].
      right. apply dict_set_keys. now left.
    - right. apply dict_set_keys. now right. }
  apply H. now left.
Qed.

Lemma prepared_row_keys (d : Data) (r : Row) :
  In r (prepare_excel_data d) -> map fst r = question_keys.
Proof.
  unfold prepare_excel_data. intros H. apply in_map_iff in H.
  destruct H as [i [<- _]]. reflexivity.
Qed.

Lemma in_join_groups (sep r : Row) (gs : list (list Row)) :
  In r (join_groups sep gs)
  <-> (exists g, In g gs /\ In r g) \/ (r = sep /\ (2 <= List.length gs)%nat).
Proof.
  induction gs as [|g gs IH].
  - cbn. split; [tauto|]. intros [[g [[] _]]|[_ H]]. lia.
  - destruct gs as [|g2 gs].
    + cbn [join_groups List.length In]. split.
      * intros H. left. exists g. split; [now left | assumption].
      * intros [[g' [[<-|[]] H]]|[_ H]]; [assumption | lia].
    + change (join_groups sep (g :: g2 :: gs))
        with (g ++ sep :: join_groups sep (g2 :: gs)).
      rewrite in_app_iff. cbn [In]. rewrite IH. cbn [List.length In]. split.
      * intros [H|[<-|[[g' [Hg Hr]]|[-> _]]]].
        -- left. exists g. tauto.
        -- right. split; [reflexivity | lia].
        -- left. exists g'. tauto.
        -- right. split; [reflexivity | lia].
      * intros [[g' [[<-|Hg] Hr]]|[-> _]].
        -- now left.
        -- right. right. left. exists g'. tauto.
        -- right. now left.
Qed.

Lemma type_groups_rows (excel_data : list Row) (g : list Row) (r : Row) :
  In g (type_groups excel_data) -> In r g -> In r excel_data.
Proof.
  unfold type_groups, groups_in. intros Hg Hr.
  apply filter_In in Hg. destruct Hg as [Hg _].
  apply in_map_iff in Hg. destruct Hg as [t [<- _]].
  apply filter_In in Hr. tauto.
Qed.

Lemma export_found_keys (cfg : Config) (d : Data) :
  group_by_type cfg (prepare_excel_data d) <> [] ->
  (forall c, In c (output_columns cfg) -> In c question_keys) ->
  export_to_excel cfg d
  = inr (sheet_of cfg (group_by_type cfg (prepare_excel_data d))).
Proof.
  set (rows := prepare_excel_data d). set (grouped := group_by_type cfg rows).
  assert (Hjoin : grouped = join_groups (empty_row cfg) (type_groups rows))
    by apply group_by_type_join.
  unfold export_to_excel. fold rows. fold grouped. unfold sheet_of.
  intros Hne Hkeys. apply select_columns_found. intros c Hc.
  apply frame_columns_In.
  destruct grouped as [|r rest] eqn:E; [congruence|].
  assert (Hr : In r (join_groups (empty_row cfg) (type_groups rows)))
    by (rewrite <- Hjoin; now left).
  apply in_join_groups in Hr. destruct Hr as [[g [Hg Hr]]|[-> _]].
  - exists r. split; [now left|].
    rewrite (prepared_row_keys d r); [now apply Hkeys|].
    now apply (type_groups_rows rows g).
  - exists (empty_row cfg). split; [now left | now apply empty_row_keys].
Qed.

Lemma export_found_separator (cfg : Config) (d : Data) :
  (2 <= List.length (type_groups (prepare_excel_data d)))%nat ->
  export_to_excel cfg d
  = inr (sheet_of cfg (group_by_type cfg (prepare_excel_data d))).
Proof.
  intros H2. unfold export_to_excel, sheet_of.
  apply select_columns_found. intros c Hc.
  apply frame_columns_In. exists (empty_row cfg).
  split; [|now apply empty_row_keys].
  rewrite group_by_type_join. apply in_join_groups. right. now split.
Qed.

Lemma export_missing_key (cfg : Config) (d : Data) (c : str) :
  List.length (type_groups (prepare_excel_data d)) = 1%nat ->
  In c (output_columns cfg) -> ~ In c question_keys ->
  exists missing,
    export_to_excel cfg d = inl (KeyError missing) /\ In c missing.
Proof.
  intros H1 Hc Hno. unfold export_to_excel.
  apply select_columns_missing; [assumption|].
  rewrite frame_columns_In. intros [r [Hr Hk]].
  rewrite group_by_type_join in Hr. apply in_join_groups in Hr.
  destruct Hr as [[g [Hg Hr]]|[_ H2]]; [|lia].
  rewrite (prepared_row_keys d r) in Hk; [contradiction|].
  now apply (type_groups_rows _ g).
Qed.

(** X12.  Whether the export raises [KeyError] depends on the groups:
    with rows of one type only, every configured column must be a key of
    the question rows, and a column that is not one is reported missing;
    with rows of two or more types the blank separator row carries every
    configured column, and the selection succeeds whatever the columns
    are. *)
Theorem export_key_error (cfg : Config) (d : Data) :
  let rows := prepare_excel_data d in
  let grouped := group_by_type cfg rows in
  (grouped <> [] ->
   (forall c, In c (output_columns cfg) -> In c question_keys) ->
   export_to_excel cfg d = inr (sheet_of cfg grouped))
  /\ ((2 <= List.length (type_groups rows))%nat ->
      export_to_excel cfg d = inr (sheet_of cfg grouped))
  /\ (List.length (type_groups rows) = 1%nat ->
      forall c, In c (output_columns cfg) -> ~ In c question_keys ->
                exists missing,
                  export_to_excel cfg d = inl (KeyError missing) /\ In c missing).
Proof.
  intros rows grouped. split; [|split].
  - apply export_found_keys.
  - apply export_found_separator.
  - intros H1 c. now apply export_missing_key.
Qed.

Lemma export_key_error_witness :
  let one := process_document remark_config [plain "1.a"; plain "【答案】A"] in
  let two := process_document remark_config
               [plain "1.a"; plain "【答案】A"; plain "2.b"; plain "【答案】对"] in
  (exists missing,
      export_to_excel remark_config one = inl (KeyError missing)
      /\ In (py "备注") missing)
  /\ export_to_excel remark_config two
     = inr (sheet_of remark_config
              (group_by_type remark_config (prepare_excel_data two)))
  /\ export_to_excel default_config one
     = inr (sheet_of default_config
              (group_by_type default_config (prepare_excel_data one))).
Proof.
  intros one two. split; [|split].
  - apply (proj2 (proj2 (export_key_error remark_config one))).
    + vm_compute. reflexivity.
    + vm_compute. tauto.
    + vm_compute. intuition discriminate.
  - apply (proj1 (proj2 (export_key_error remark_config two))).
    vm_compute. repeat constructor.
  - apply (proj1 (export_key_error default_config one)).
    + vm_compute. discriminate.
    + intros c Hc. vm_compute in Hc. vm_compute. tauto.
Defined.

(** ** The run with the default configuration *)

Lemma length_join_groups (sep : Row) (gs : list (list Row)) :
  List.length (join_groups sep gs)
  = (List.length (List.concat gs) + pred (List.length gs))%nat.
Proof.
  induction gs as [|g gs IH]; [reflexivity|].
  destruct gs as [|g2 gs].
  - cbn [join_groups List.concat List.length pred]. rewrite app_nil_r. lia.
  - change (join_groups sep (g :: g2 :: gs))
      with (g ++ sep :: join_groups sep (g2 :: gs)).
    rewrite length_app. cbn [List.length]. rewrite IH.
    cbn [List.concat List.length pred]. rewrite !length_app. lia.
Qed.

Lemma pipeline_partition (cfg : Config) (paragraphs : list Paragraph) :
  let rows := prepare_excel_data (process_document cfg paragraphs) in
  Permutation (List.concat (type_groups rows)) rows.
Proof.
  intros rows.
  etransitivity; [exact (partition_by_type type_order rows type_order_NoDup)|].
  replace (filter (fun r => existsb (fun t => has_type t r) type_order) rows)
    with rows; [reflexivity|].
  assert (H : forall r, In r rows -> existsb (fun t => has_type t r) type_order = true)
    by (intros r; apply pipeline_rows_typed).
  clearbody rows. induction rows as [|r l IH]; [reflexivity|].
  cbn [filter]. rewrite H by now left.
  f_equal. apply IH. intros r' Hr'. apply H. now right.
Qed.

Lemma length_prepare (d : Data) :
  List.length (prepare_excel_data d) = List.length (title_list d).
Proof. unfold prepare_excel_data. now rewrite length_map, length_seq. Qed.

(** X13.  With the default configuration the whole run raises
    [KeyError] when the document has no question-start paragraph, and
    otherwise writes a sheet with the eight configured columns and one row
    per record plus one separator row between neighbouring type groups. *)
Theorem process_file_default (paragraphs : list Paragraph) :
  let d := process_document default_config paragraphs in
  let rows := prepare_excel_data d in
  let grouped := group_by_type default_config rows in
  (existsb (is_start default_config) paragraphs = false ->
   process_file default_config paragraphs
   = inl (KeyError (output_columns default_config)))
  /\ (existsb (is_start default_config) paragraphs = true ->
      process_file default_config paragraphs = inr (sheet_of default_config grouped)
      /\ List.length grouped
         = (List.length (title_list d) + pred (List.length (type_groups rows)))%nat).
Proof.
  intros d rows grouped. split.
  - intros H. apply Forall_not_start in H. unfold process_file, export_to_excel.
    rewrite no_start_no_record by assumption.
    apply select_columns_nil. discriminate.
  - intros H.
    assert (Hlen : List.length grouped
                   = (List.length (title_list d)
                      + pred (List.length (type_groups rows)))%nat).
    { unfold grouped, rows, d.
      rewrite group_by_type_join, length_join_groups.
      rewrite (Permutation_length (pipeline_partition default_config paragraphs)).
      now rewrite length_prepare. }
    split; [|exact Hlen].
    unfold process_file. fold d. apply export_found_keys.
    + fold rows. fold grouped. intros E. rewrite E in Hlen.
      unfold d in Hlen. rewrite record_count_starts in Hlen.
      apply existsb_exists in H. destruct H as [p [Hin Hp]].
      assert (Hf : In p (filter (is_start default_config) paragraphs))
        by (apply filter_In; now split).
      destruct (filter (is_start default_config) paragraphs);
        [contradiction | discriminate].
    + intros c Hc. cbn in Hc. unfold question_keys. cbn [In]. intuition.
Qed.

Lemma process_file_default_witness :
  process_file default_config [plain "no question"; plain "A.x"]
  = inl (KeyError (output_columns default_config))
  /\ List.length
       (group_by_type default_config
          (prepare_excel_data
             (process_document default_config
                [plain "1.a"; plain "【答案】A"; plain "2.b"; plain "【答案】对";
                 plain "3.c"; plain "【答案】B"])))
     = 4%nat.
Proof.
  split.
  - apply (proj1 (process_file_default [plain "no question"; plain "A.x"])).
    reflexivity.
  - apply (proj2 (proj2 (process_file_default
                           [plain "1.a"; plain "【答案】A"; plain "2.b";
                            plain "【答案】对"; plain "3.c"; plain "【答案】B"])
                        eq_refl)).
Defined.

(** ** Worksheet formatting *)

Lemma map_nth_seq {A B} (F : A -> B) (l : list A) (d : A) :
  map (fun i => F (nth i l d)) (seq 0 (List.length l)) = map F l.
Proof.
  induction l as [|x l IH]; [reflexivity|].
  cbn [List.length seq map nth]. f_equal.
  rewrite <- seq_shift, map_map. exact IH.
Qed.

Lemma select_columns_shape (records : list Row) (columns : list str) (sh : Sheet) :
  select_columns records columns = inr sh ->
  sh = {| header := columns;
          body := map (fun r => map (fun c => dict_get c r) columns) records |}.
Proof.
  unfold select_columns. destruct (filter _ columns); [|discriminate].
  now intros [= <-].
Qed.

Lemma separator_not_truthy (r : Row) (key : str) :
  is_separator r = true -> truthy (dict_get key r) = false.
Proof.
  intros Hs. destruct (dict_get key r) as [v|] eqn:E; [|reflexivity].
  apply dict_get_In in E. destruct E as [k Hin].
  unfold is_separator in Hs. rewrite forallb_forall in Hs.
  specialize (Hs _ Hin). cbn in Hs.
  destruct v as [[|c s]|n|[|]]; try discriminate; reflexivity.
Qed.

Lemma count_true_perm (l1 l2 : list bool) :
  Permutation l1 l2 -> count_true l1 = count_true l2.
Proof.
  unfold count_true. induction 1 as [|x l1 l2 _ IH|x y l|l1 l2 l3 _ IH1 _ IH2].
  - reflexivity.
  - cbn [filter]. destruct x; cbn [List.length]; now rewrite IH.
  - cbn [filter]. now destruct x, y.
  - now rewrite IH1.
Qed.

Lemma count_true_plain (h q : Row -> bool) (l : list Row) :
  (forall r, q r = false -> h r = false) ->
  count_true (map h l) = count_true (map h (filter q l)).
Proof.
  intros H. unfold count_true. induction l as [|r l IH]; [reflexivity|].
  cbn [map filter]. destruct (q r) eqn:Hq.
  - cbn [map filter]. destruct (h r); cbn [List.length]; now rewrite IH.
  - now rewrite (H r Hq).
Qed.

Lemma filled_rows_grouped (cfg : Config) (worksheet : Sheet) (grouped : list Row) :
  List.length (body worksheet) = List.length grouped ->
  filled_rows (format_excel_worksheet cfg worksheet grouped)
  = false :: map (fun r => truthy (dict_get KEY_HAS_IMAGE r)) grouped.
Proof.
  intros Hlen. unfold format_excel_worksheet. cbn [filled_rows].
  rewrite Hlen. cbn [seq map Nat.eqb]. f_equal.
  rewrite <- seq_shift, map_map.
  rewrite <- (map_nth_seq (fun r => truthy (dict_get KEY_HAS_IMAGE r)) grouped []).
  apply map_ext_in. intros i Hi. apply in_seq in Hi.
  cbn [Nat.eqb]. replace (S i - 1)%nat with i by lia.
  destruct (Nat.leb_spec (S i) (List.length grouped)); [reflexivity | lia].
Qed.

(** X14.  In a written workbook only the header row is bold, and a row
    below it is filled exactly when the dict it was written from has a true
    [has_image] entry: separator rows are never filled, and for the data of
    [process_document] the number of filled rows is the number of records
    whose image flag is set.  Each column gets the width configured for its
    name, 20 when the name has none. *)
Theorem format_excel_worksheet_spec (cfg : Config) (paragraphs : list Paragraph)
    (worksheet : Sheet) (fmt : Formatting) :
  let d := process_document cfg paragraphs in
  let grouped := group_by_type cfg (prepare_excel_data d) in
  export_workbook cfg d = inr (worksheet, fmt) ->
  bold_rows fmt = true :: map (fun _ => false) grouped
  /\ filled_rows fmt
     = false :: map (fun r => truthy (dict_get KEY_HAS_IMAGE r)) grouped
  /\ (forall r, is_separator r = true -> truthy (dict_get KEY_HAS_IMAGE r) = false)
  /\ count_true (filled_rows fmt) = count_true (has_image_list d)
  /\ column_widths fmt
     = map (fun name => width_of name custom_widths) (output_columns cfg).
Proof.
  intros d grouped. unfold export_workbook, export_to_excel.
  fold grouped.
  destruct (select_columns grouped (output_columns cfg)) as [e|sh] eqn:E;
    [discriminate|].
  intros [= <- <-]. apply select_columns_shape in E.
  assert (Hlen : List.length (body sh) = List.length grouped)
    by (rewrite E; cbn [body]; apply length_map).
  assert (Hfill := filled_rows_grouped cfg sh grouped Hlen).
  split; [|split; [exact Hfill|split; [|split]]].
  - unfold format_excel_worksheet. cbn [bold_rows]. rewrite Hlen.
    cbn [seq map Nat.eqb]. f_equal.
    rewrite <- seq_shift, map_map.
    rewrite <- (map_nth_seq (fun _ : Row => false) grouped []).
    reflexivity.
  - intros r. apply separator_not_truthy.
  - rewrite Hfill. unfold count_true at 1. cbn [filter]. fold (count_true
      (map (fun r => truthy (dict_get KEY_HAS_IMAGE r)) grouped)).
    rewrite (count_true_plain _ (fun r => negb (is_separator r))).
    2:{ intros r Hr. apply negb_false_iff in Hr.
        now apply separator_not_truthy. }
    unfold grouped. rewrite group_by_type_join.
    rewrite (rows_of_join _ (empty_row_is_separator cfg))
      by exact (groups_in_plain type_order _ type_order_nonempty).
    rewrite (count_true_perm _ _
               (Permutation_map _ (pipeline_partition cfg paragraphs))).
    fold d. unfold prepare_excel_data. rewrite map_map.
    destruct (pipeline_aligned cfg paragraphs) as (_ & _ & _ & _ & _ & _ & _ & Hn).
    fold d in Hn. rewrite <- Hn. f_equal.
    transitivity (map (fun i => nth i (has_image_list d) false)
                      (seq 0 (List.length (has_image_list d)))).
    + apply map_ext. intros i. reflexivity.
    + rewrite (map_nth_seq (fun b : bool => b)). apply map_id.
  - unfold format_excel_worksheet. cbn [column_widths].
    rewrite E. cbn [header].
    apply (map_nth_seq (fun name => width_of name custom_widths)).
Qed.

Lemma format_excel_worksheet_spec_witness :
  let doc := [pictured "1.a"; plain "【答案】对"; plain "2.b"; plain "【答案】A";
              plain "3.c"; pictured "more"; plain "【答案】B"] in
  let d := process_document default_config doc in
  let grouped := group_by_type default_config (prepare_excel_data d) in
  let fmt := format_excel_worksheet default_config
               (sheet_of default_config grouped) grouped in
  filled_rows fmt
  = false :: map (fun r => truthy (dict_get KEY_HAS_IMAGE r)) grouped
  /\ count_true (filled_rows fmt) = count_true (has_image_list d).
Proof.
  intros doc d grouped fmt.
  assert (H : export_workbook default_config d
              = inr (sheet_of default_config grouped, fmt))
    by (vm_compute; reflexivity).
  pose proof (format_excel_worksheet_spec default_config doc _ _ H) as Hs.
  split; [exact (proj1 (proj2 Hs)) | exact (proj1 (proj2 (proj2 (proj2 Hs))))].
Defined.

(** The filled rows of an example: the separator and the rows of records
    without a picture stay plain. *)
Example filled_rows_example :
  let d := process_document default_config
             [pictured "1.a"; plain "【答案】对"; plain "2.b"; plain "【答案】A";
              plain "3.c"; pictured "more"; plain "【答案】B"] in
  let grouped := group_by_type default_config (prepare_excel_data d) in
  let fmt := format_excel_worksheet default_config
               (sheet_of default_config grouped) grouped in
  filled_rows fmt = [false; false; true; false; true]
  /\ column_widths fmt = [12; 60; 40; 10; 15; 50; 30; 10]%nat.
Proof. vm_compute. split; reflexivity. Qed.

(** ** Statistics *)

Lemma stats_get_set (key k : str) (n : nat) (stats : Stats) :
  stats_get k (stats_set key n stats)
  = if str_eqb key k then n else stats_get k stats.
Proof.
  induction stats as [|[k' m] stats IH]; cbn [stats_set stats_get].
  - reflexivity.
  - destruct (str_eqb k' key) eqn:E.
    + apply str_eqb_eq in E. subst k'. cbn [stats_get].
      now destruct (str_eqb key k).
    + cbn [stats_get]. destruct (str_eqb k' k) eqn:E'; [|exact IH].
      apply str_eqb_eq in E'. subst k'.
      destruct (str_eqb key k) eqn:E2; [|reflexivity].
      apply str_eqb_eq in E2. subst key. rewrite str_eqb_refl in E. discriminate.
Qed.

Lemma count_type_snoc (t x : str) (l : list str) :
  count_type t (l ++ [x])
  = (count_type t l + if str_eqb x t then 1 else 0)%nat.
Proof.
  unfold count_type. rewrite count_occ_app. cbn [count_occ]. unfold str_eqb.
  now destruct (list_eq_dec N.eq_dec x t).
Qed.

Lemma save_stats_count (cfg : Config) (st : State) (stats : Stats) (t : str) :
  (stats_get t (save_stats cfg st stats) + count_type t (type_list (data st))
   = stats_get t stats
     + count_type t (type_list (data (save_current_question cfg st))))%nat.
Proof.
  unfold save_stats, save_current_question.
  destruct (current_question st) as [q|]; [|reflexivity].
  cbn [data type_list]. rewrite stats_get_set, count_type_snoc.
  destruct (str_eqb _ t) eqn:E; [|lia].
  apply str_eqb_eq in E. rewrite E. lia.
Qed.

Lemma stats_step (cfg : Config) (acc : State * Stats) (p : Paragraph) :
  snd (process_paragraph_stats cfg acc p) =
    match classify_line cfg p with
    | QuestionStart => save_stats cfg (fst acc) (snd acc)
    | _ => snd acc
    end.
Proof.
  unfold process_paragraph_stats, classify_line. cbn [snd].
  destruct (strip (text p)) as [|c t]; [reflexivity|].
  destruct (is_question_start cfg _); [reflexivity|].
  destruct (is_option_start cfg _); [reflexivity|].
  destruct (has_tag cfg _ answer); [reflexivity|].
  destruct (has_tag cfg _ difficulty); [reflexivity|].
  destruct (has_tag cfg _ knowledge); [reflexivity|].
  now destruct (has_tag cfg _ explanation).
Qed.

Lemma stats_fold (cfg : Config) (paragraphs : list Paragraph) (acc : State * Stats) :
  let acc' := fold_left (process_paragraph_stats cfg) paragraphs acc in
  fst acc' = fold_left (process_paragraph cfg) paragraphs (fst acc)
  /\ forall t,
       (stats_get t (snd acc') + count_type t (type_list (data (fst acc)))
        = stats_get t (snd acc) + count_type t (type_list (data (fst acc'))))%nat.
Proof.
  revert acc. induction paragraphs as [|p ps IH]; intros acc; cbn zeta.
  - cbn [fold_left]. split; [reflexivity | intros t; lia].
  - cbn [fold_left]. destruct (IH (process_paragraph_stats cfg acc p)) as [H1 H2].
    split; [rewrite H1; reflexivity|].
    intros t. specialize (H2 t). rewrite stats_step in H2.
    change (fst (process_paragraph_stats cfg acc p))
      with (process_paragraph cfg (fst acc) p) in H2.
    rewrite data_step in H2.
    pose proof (save_stats_count cfg (fst acc) (snd acc) t) as Hs.
    destruct (classify_line cfg p); lia.
Qed.

Lemma pipeline_typed_data (cfg : Config) (paragraphs : list Paragraph) :
  typed_data (process_document cfg paragraphs).
Proof.
  unfold process_document, run_document.
  apply typed_data_save, typed_data_fold.
  split; [reflexivity | constructor].
Qed.

Lemma count_five_types (l : list str) :
  Forall (fun t => In t type_order) l ->
  (count_type SINGLE_CHOICE l + count_type MULTI_CHOICE l + count_type JUDGMENT l
   + count_type FILL_BLANK l + count_type UNKNOWN_TYPE l = List.length l)%nat.
Proof.
  unfold count_type. induction 1 as [|x l Hx _ IH]; [reflexivity|].
  cbn [count_occ List.length]. cbn in Hx.
  repeat (destruct Hx as [<-|Hx];
          [repeat match goal with
             | |- context [list_eq_dec N.eq_dec ?a ?b] =>
                 destruct (list_eq_dec N.eq_dec a b); try discriminate
             end; try congruence; lia|]).
  contradiction.
Qed.

(** X15.  [process_document] returns the same data whatever the
    statistics, sets the total to the number of records of the document and
    adds to each type counter the number of records of that type, so the
    counters accumulate over the documents a processor reads.  On a fresh
    processor the five type counters add up to the total, and the printed
    number of choice questions is that of the single- and multiple-choice
    records. *)
Theorem process_document_stats_spec (cfg : Config) (paragraphs : list Paragraph)
    (stats : Stats) :
  let d := process_document cfg paragraphs in
  let stats' := snd (process_document_stats cfg paragraphs stats) in
  fst (process_document_stats cfg paragraphs stats) = d
  /\ stats_get KEY_TOTAL stats' = List.length (title_list d)
  /\ (forall t, t <> KEY_TOTAL ->
                stats_get t stats'
                = (stats_get t stats + count_type t (type_list d))%nat)
  /\ (stats = initial_stats ->
      (stats_get SINGLE_CHOICE stats' + stats_get MULTI_CHOICE stats'
       + stats_get JUDGMENT stats' + stats_get FILL_BLANK stats'
       + stats_get UNKNOWN_TYPE stats' = stats_get KEY_TOTAL stats')%nat
      /\ printed_choice_count stats'
         = (count_type SINGLE_CHOICE (type_list d)
            + count_type MULTI_CHOICE (type_list d))%nat).
Proof.
  intros d stats'.
  destruct (stats_fold cfg paragraphs (initial_state, stats)) as [Hf Hc].
  cbn [fst snd] in Hf, Hc.
  assert (Hd : fst (process_document_stats cfg paragraphs stats) = d).
  { unfold process_document_stats. cbn [fst]. now rewrite Hf. }
  assert (Htot : stats_get KEY_TOTAL stats' = List.length (title_list d)).
  { unfold stats', process_document_stats. cbn [snd].
    rewrite stats_get_set, str_eqb_refl, Hf. reflexivity. }
  assert (Hcount : forall t, t <> KEY_TOTAL ->
             stats_get t stats'
             = (stats_get t stats + count_type t (type_list d))%nat).
  { intros t Ht. unfold stats', process_document_stats. cbn [snd].
    rewrite stats_get_set.
    destruct (str_eqb KEY_TOTAL t) eqn:E;
      [apply str_eqb_eq in E; congruence|].
    specialize (Hc t).
    pose proof (save_stats_count cfg
                  (fst (fold_left (process_paragraph_stats cfg) paragraphs
                          (initial_state, stats)))
                  (snd (fold_left (process_paragraph_stats cfg) paragraphs
                          (initial_state, stats))) t) as Hs.
    rewrite Hf in Hs at 2 3. fold (run_document cfg paragraphs) in Hs.
    fold (process_document cfg paragraphs) in Hs. fold d in Hs.
    rewrite Hf in Hc. cbn [count_type type_list data initial_state count_occ] in Hc.
    lia. }
  split; [exact Hd|]. split; [exact Htot|]. split; [exact Hcount|].
  intros ->. unfold printed_choice_count.
  rewrite Htot, !Hcount by discriminate.
  destruct (pipeline_typed_data cfg paragraphs) as [Hlen Hall]. fold d in Hlen, Hall.
  split; [|reflexivity].
  pose proof (count_five_types _ Hall) as H5.
  assert (H0 : forall t, In t type_order -> stats_get t initial_stats = 0%nat).
  { intros t Ht. cbn in Ht.
    repeat (destruct Ht as [<-|Ht]; [reflexivity|]). contradiction. }
  rewrite !H0 by (cbn; tauto). lia.
Qed.

Lemma process_document_stats_spec_witness :
  let doc := [plain "1.a"; plain "【答案】A"; plain "2.b"; plain "【答案】对";
              plain "3.c"; plain "【答案】BC"] in
  let stats' := snd (process_document_stats default_config doc initial_stats) in
  let stats'' := snd (process_document_stats default_config doc stats') in
  (stats_get SINGLE_CHOICE stats' + stats_get MULTI_CHOICE stats'
   + stats_get JUDGMENT stats' + stats_get FILL_BLANK stats'
   + stats_get UNKNOWN_TYPE stats' = stats_get KEY_TOTAL stats')%nat
  /\ stats_get JUDGMENT stats''
     = (stats_get JUDGMENT stats'
        + count_type JUDGMENT (type_list (process_document default_config doc)))%nat.
Proof.
  intros doc stats' stats''. split.
  - exact (proj1 (proj2 (proj2 (proj2
             (process_document_stats_spec default_config doc initial_stats)))
             eq_refl)).
  - apply (proj1 (proj2 (proj2
             (process_document_stats_spec default_config doc stats')))).
    discriminate.
Defined.

(** ** Records are stored once *)

Lemma extends_refl (d : Data) : extends d d.
Proof. repeat split; exists []; now rewrite app_nil_r. Qed.

Lemma extends_trans (a b c : Data) : extends a b -> extends b c -> extends a c.
Proof.
  unfold extends.
  intros ([l1 H1] & [l2 H2] & [l3 H3] & [l4 H4] & [l5 H5] & [l6 H6] & [l7 H7]
          & [l8 H8] & [l9 H9])
         ([m1 G1] & [m2 G2] & [m3 G3] & [m4 G4] & [m5 G5] & [m6 G6] & [m7 G7]
          & [m8 G8] & [m9 G9]).
  repeat split;
    [exists (l1 ++ m1) | exists (l2 ++ m2) | exists (l3 ++ m3)
     | exists (l4 ++ m4) | exists (l5 ++ m5) | exists (l6 ++ m6)
     | exists (l7 ++ m7) | exists (l8 ++ m8) | exists (l9 ++ m9)];
    rewrite app_assoc; congruence.
Qed.

Lemma extends_save (cfg : Config) (st : State) :
  extends (data st) (data (save_current_question cfg st)).
Proof.
  unfold save_current_question.
  destruct (current_question st); [|apply extends_refl].
  repeat split; eexists; reflexivity.
Qed.

Lemma extends_fold (cfg : Config) (paragraphs : list Paragraph) (st : State) :
  extends (data st) (data (fold_left (process_paragraph cfg) paragraphs st)).
Proof.
  revert st. induction paragraphs as [|p ps IH]; intros st; [apply extends_refl|].
  cbn [fold_left]. eapply extends_trans; [|apply IH].
  rewrite data_step. destruct (classify_line cfg p); try apply extends_refl.
  apply extends_save.
Qed.

(** X16.  The records of a document are kept, in order and unchanged,
    in front of the records of any longer document that continues with a
    question-start paragraph. *)
Theorem process_document_extends (cfg : Config) (paragraphs later : list Paragraph)
    (s : Paragraph) :
  classify_line cfg s = QuestionStart ->
  extends (process_document cfg paragraphs)
          (process_document cfg (paragraphs ++ s :: later)).
Proof.
  intros Hs. unfold process_document, run_document.
  rewrite fold_left_app. cbn [fold_left].
  eapply extends_trans; [|apply extends_save].
  eapply extends_trans; [|apply extends_fold].
  rewrite data_step, Hs. apply extends_refl.
Qed.

Lemma process_document_extends_witness :
  extends (process_document default_config [plain "1.a"; plain "A.x"])
          (process_document default_config
             ([plain "1.a"; plain "A.x"] ++ plain "2.b" :: [plain "【答案】B"])).
Proof.
  apply (process_document_extends default_config
           [plain "1.a"; plain "A.x"] [plain "【答案】B"] (plain "2.b")).
  reflexivity.
Defined.

(** ** The export keeps every record *)

(** X17.  The rows of the grouped export other than separator rows are
    the rows of the records of [process_document], each exactly once: no
    record is dropped by the grouping and none is duplicated. *)
Theorem export_keeps_records (cfg : Config) (paragraphs : list Paragraph) :
  let rows := prepare_excel_data (process_document cfg paragraphs) in
  Permutation
    (filter (fun r => negb (is_separator r)) (group_by_type cfg rows))
    rows
  /\ List.length rows
     = List.length (filter (is_start cfg) paragraphs).
Proof.
  intros rows. split.
  - rewrite group_by_type_join.
    rewrite (rows_of_join _ (empty_row_is_separator cfg))
      by exact (groups_in_plain type_order _ type_order_nonempty).
    apply pipeline_partition.
  - unfold rows. rewrite length_prepare. apply record_count_starts.
Qed.

(** ** Option lines are counted *)

Lemma startswith_app (s pat : str) :
  startswith s pat = true -> exists rest, s = pat ++ rest.
Proof.
  revert s. induction pat as [|p pat IH]; intros s H; [now exists s|].
  destruct s as [|c s]; [discriminate|].
  cbn [startswith] in H. apply andb_true_iff in H. destruct H as [Hc Hs].
  apply N.eqb_eq in Hc. subst c.
  destruct (IH s Hs) as [rest ->]. now exists rest.
Qed.

Lemma startswith_prefix (pat rest : str) : startswith (pat ++ rest) pat = true.
Proof.
  induction pat as [|p pat IH]; [now destruct rest|].
  cbn [app startswith]. now rewrite N.eqb_refl.
Qed.

Lemma contains_prefix (pat rest : str) : contains (pat ++ rest) pat = true.
Proof.
  destruct (pat ++ rest) eqn:E; cbn [contains]; rewrite <- E;
    now rewrite startswith_prefix.
Qed.

Lemma starts_option_marked (opt line : str) :
  upper opt = opt -> starts_option opt line = true ->
  option_marked (upper line) opt = true.
Proof.
  unfold starts_option, option_marked. intros Hup H.
  apply orb_true_iff in H. destruct H as [H|H];
    apply startswith_app in H; destruct H as [rest ->];
    rewrite !upper_app, Hup.
  - change (upper [FULL_STOP]) with [FULL_STOP].
    rewrite <- app_assoc, app_assoc, contains_prefix. reflexivity.
  - change (upper [FULLWIDTH_FULL_STOP]) with [FULLWIDTH_FULL_STOP].
    rewrite <- app_assoc, (app_assoc opt), contains_prefix.
    now rewrite orb_true_r.
Qed.

Lemma filter_length_mono {A} (p q : A -> bool) (l : list A) :
  (forall x, In x l -> p x = true -> q x = true) ->
  (List.length (filter p l) <= List.length (filter q l))%nat.
Proof.
  induction l as [|x l IH]; intros H; [reflexivity|].
  assert (IH' : (List.length (filter p l) <= List.length (filter q l))%nat)
    by (apply IH; intros y Hy; apply H; now right).
  cbn [filter]. destruct (p x) eqn:Hp.
  - rewrite (H x (or_introl eq_refl) Hp). cbn [List.length]. lia.
  - destruct (q x); cbn [List.length]; lia.
Qed.

(** X18.  When the option letters are upper-case and free of newlines, as
    in the default configuration, every letter that opens one of the option
    lines (the test of [is_option_start]) is counted by [count_options] in
    the joined option text: the count is at least the number of such
    letters. *)
Theorem option_lines_counted (cfg : Config) (lines : list str) :
  (forall opt, In opt (options cfg) -> upper opt = opt /\ ~ In NEWLINE opt) ->
  (List.length (filter (fun opt => existsb (starts_option opt) lines) (options cfg))
   <= count_options cfg (join [NEWLINE] lines))%nat.
Proof.
  intros Hopt. rewrite count_options_filter.
  apply filter_length_mono. intros opt Hin Hex.
  destruct (Hopt opt Hin) as [Hup Hnl].
  rewrite option_marked_lines by assumption.
  apply existsb_exists in Hex. destruct Hex as [l [Hl Hs]].
  apply existsb_exists. exists l. split; [assumption|].
  now apply starts_option_marked.
Qed.

Lemma option_lines_counted_witness :
  (2 <= count_options default_config
          (join [NEWLINE] [py "A.one"; py "C．three"; py "A.again"]))%nat.
Proof.
  apply (option_lines_counted default_config
           [py "A.one"; py "C．three"; py "A.again"]).
  intros opt Hin. cbn in Hin.
  repeat (destruct Hin as [<-|Hin];
          [split; [reflexivity | cbn; intuition discriminate]|]).
  contradiction.
Defined.

(** ** Blank parentheses *)

Lemma blank_paren_head (ws s : str) :
  exists y, re_sub_blank_paren (Some ws) s = FULLWIDTH_LEFT_PAREN :: y.
Proof.
  revert ws. induction s as [|c s IH]; intros ws; cbn [re_sub_blank_paren].
  - now eexists.
  - destruct (c =? FULLWIDTH_RIGHT_PAREN); [now eexists|].
    destruct (isspace c); [apply IH|].
    destruct (c =? FULLWIDTH_LEFT_PAREN); now eexists.
Qed.

Lemma space_not_paren (c : char) :
  isspace c = true ->
  (c =? FULLWIDTH_RIGHT_PAREN) = false /\ (c =? FULLWIDTH_LEFT_PAREN) = false.
Proof.
  intros H. split;
    (destruct (N.eqb_spec c FULLWIDTH_RIGHT_PAREN) as [->|];
     [discriminate|]) || idtac;
    (destruct (N.eqb_spec c FULLWIDTH_LEFT_PAREN) as [->|];
     [discriminate|]) || idtac;
    reflexivity.
Qed.

Lemma blank_paren_spaces (a ws s : str) :
  Forall (fun c => isspace c = true) ws ->
  re_sub_blank_paren (Some a) (ws ++ s) = re_sub_blank_paren (Some (a ++ ws)) s.
Proof.
  intros H. revert a. induction H as [|c ws Hc _ IH]; intros a.
  - now rewrite app_nil_r.
  - cbn [app re_sub_blank_paren].
    destruct (space_not_paren c Hc) as [-> _]. rewrite Hc, IH.
    now rewrite <- app_assoc.
Qed.

Lemma blank_paren_again (s : str) (p : option str) :
  match p with
  | Some ws => Forall (fun c => isspace c = true) ws
  | None => True
  end ->
  re_sub_blank_paren None (re_sub_blank_paren p s) = re_sub_blank_paren p s.
Proof.
  revert p. induction s as [|c s IH]; intros [ws|] Hp.
  - cbn [re_sub_blank_paren]. rewrite N.eqb_refl.
    rewrite <- (app_nil_r ws) at 1.
    rewrite blank_paren_spaces by assumption. reflexivity.
  - reflexivity.
  - cbn [re_sub_blank_paren].
    destruct (c =? FULLWIDTH_RIGHT_PAREN) eqn:Hr.
    + cbn [app re_sub_blank_paren]. rewrite N.eqb_refl.
      change (SPACE =? FULLWIDTH_RIGHT_PAREN) with false.
      change (isspace SPACE) with true. cbn [app].
      change (FULLWIDTH_RIGHT_PAREN =? FULLWIDTH_RIGHT_PAREN) with true.
      cbn iota. cbn [app]. now rewrite IH.
    + destruct (isspace c) eqn:Hs.
      * apply IH. apply Forall_app. split; [assumption | now constructor].
      * destruct (c =? FULLWIDTH_LEFT_PAREN) eqn:Hl.
        -- remember (re_sub_blank_paren (Some []) s) as Y eqn:EY.
           assert (IH0 : re_sub_blank_paren None Y = Y)
             by (subst Y; apply (IH (Some [])); constructor).
           assert (Hy : exists y, Y = FULLWIDTH_LEFT_PAREN :: y)
             by (subst Y; apply blank_paren_head).
           destruct Hy as [y ->].
           cbn [re_sub_blank_paren] in IH0. rewrite N.eqb_refl in IH0.
           cbn [app re_sub_blank_paren]. rewrite N.eqb_refl.
           rewrite blank_paren_spaces by assumption.
           cbn [app re_sub_blank_paren].
           change (FULLWIDTH_LEFT_PAREN =? FULLWIDTH_RIGHT_PAREN) with false.
           change (isspace FULLWIDTH_LEFT_PAREN) with false.
           rewrite N.eqb_refl. cbn iota. now rewrite IH0.
        -- cbn [app re_sub_blank_paren]. rewrite N.eqb_refl.
           rewrite blank_paren_spaces by assumption.
           cbn [app re_sub_blank_paren]. rewrite Hr, Hs, Hl.
           now rewrite (IH None I).
  - cbn [re_sub_blank_paren].
    destruct (c =? FULLWIDTH_LEFT_PAREN) eqn:Hl.
    + now apply IH.
    + cbn [re_sub_blank_paren]. rewrite Hl. now rewrite (IH None I).
Qed.

(** X19.  Normalising the blank parentheses of a title a second time
    changes nothing: after [re.sub('（\s*）', '（   ）', s)] every pair of
    full-width parentheses around white space holds exactly three spaces. *)
Theorem blank_paren_idempotent (s : str) :
  re_sub_blank_paren None (re_sub_blank_paren None s) = re_sub_blank_paren None s.
Proof. exact (blank_paren_again s None I). Qed.

(** ** What the default question-start test accepts *)

Lemma re_digits_then_cons (k : str -> option str) (d : char) (s : str) :
  re_digits_then k (d :: s) =
    if isdecimal d
    then match re_digits_then k s with
         | Some r => Some r
         | None => k s
         end
    else None.
Proof. reflexivity. Qed.

Lemma re_digits_then_second (k : str -> option str) (s : str) :
  (forall x, k x <> None -> exists c rest, x = c :: rest /\ c <> NEWLINE) ->
  re_digits_then k s <> None ->
  exists d c rest, s = d :: c :: rest /\ isdecimal d = true /\ c <> NEWLINE.
Proof.
  intros Hk. destruct s as [|d s]; [intros H; now contradiction H|].
  rewrite re_digits_then_cons. destruct (isdecimal d) eqn:Hd;
    [|intros H; now contradiction H].
  destruct (re_digits_then k s) as [r|] eqn:E.
  - intros _. destruct s as [|c t]; [discriminate|].
    rewrite re_digits_then_cons in E.
    destruct (isdecimal c) eqn:Hc; [|discriminate].
    exists d, c, t. repeat split; [assumption|]. intros ->. discriminate.
  - intros H. destruct (Hk s H) as (c & rest & -> & Hc). now exists d, c, rest.
Qed.

Lemma re_match_dot (s : str) :
  re_match_number [FULL_STOP] s <> None
  <-> exists d c rest, s = d :: c :: rest /\ isdecimal d = true /\ c <> NEWLINE.
Proof.
  unfold re_match_number. split.
  - apply re_digits_then_second. intros [|c rest] H; [now contradiction H|].
    exists c, rest. split; [reflexivity|]. intros ->. now apply H.
  - intros (d & c & rest & -> & Hd & Hc).
    rewrite re_digits_then_cons, Hd.
    destruct (re_digits_then _ (c :: rest)); [discriminate|].
    cbn. destruct (N.eqb_spec c NEWLINE); [contradiction | discriminate].
Qed.

Lemma re_match_fullwidth_dot (s : str) :
  re_match_number [FULLWIDTH_FULL_STOP] s <> None ->
  exists d c rest, s = d :: c :: rest /\ isdecimal d = true /\ c <> NEWLINE.
Proof.
  unfold re_match_number.
  apply re_digits_then_second. intros [|c rest] H; [now contradiction H|].
  exists c, rest. split; [reflexivity|]. intros ->. now apply H.
Qed.

(** X20.  With the default separators, [is_question_start] accepts
    exactly the texts whose trimmed form begins with a decimal digit
    followed by at least one more character that is not a newline. *)
Theorem question_start_default (text : str) :
  is_question_start default_config text = true
  <-> exists d c rest,
        strip text = d :: c :: rest /\ isdecimal d = true /\ c <> NEWLINE.
Proof.
  unfold is_question_start.
  change (separators default_config) with [[FULLWIDTH_FULL_STOP]; [FULL_STOP]].
  cbn [existsb]. rewrite orb_false_r, orb_true_iff. split.
  - intros [H|H].
    + apply re_match_fullwidth_dot.
      destruct (re_match_number _ (strip text)); [discriminate | discriminate H].
    + apply re_match_dot.
      destruct (re_match_number _ (strip text)); [discriminate | discriminate H].
  - intros H. right. apply re_match_dot in H.
    destruct (re_match_number _ (strip text)); [reflexivity | contradiction].
Qed.
